(** * Logger: a shallow embedding of the rotating file logger

    The development follows [Logger.h] and [Logger.cpp].  Every static data
    member of the class is a field of one record, the operating-system
    services the code calls (clock, working directory, directories and
    files, the console) are fields of the same record, and every member
    function is a function on that record.  The mutex of the class is not
    modelled: a call runs from its start to its end. *)

From stdpp Require Import base gmap strings list fin_maps sorting.
From Stdlib Require Import ZArith NArith Lia Ascii DecimalString.

Local Open Scope Z_scope.

(** ** std::string *)

Module Str.

(** [std::endl] inserted into a stream: one line feed. *)
Definition endl : string := String (ascii_of_nat 10) EmptyString.

Definition size (s : string) : nat := String.length s.

(** [s.substr(pos)].  The standard throws [std::out_of_range] when
    [pos > s.size()]; every call of the source is in range (see
    [find_last_of_bound] for lines 350-368, and the length test that
    guards line 381), so the clamped reading of [String.substring] is
    never observed. *)
Definition substr_from (s : string) (pos : nat) : string :=
  String.substring pos (String.length s - pos) s.

(** [s.substr(pos, n)]. *)
Definition substr (s : string) (pos n : nat) : string :=
  String.substring pos n s.

(** [s[0] == c]. *)
Definition starts_with (s : string) (c : ascii) : bool :=
  match s with
  | String a _ => Ascii.eqb a c
  | EmptyString => false
  end.

Fixpoint find_last_of_from (s : string) (c : ascii) (i found : Z) : Z :=
  match s with
  | EmptyString => found
  | String a s' =>
      find_last_of_from s' c (i + 1) (if Ascii.eqb a c then i else found)
  end.

(** [int idx = s.find_last_of(c)]: the last position of [c], and [-1]
    (what [npos] becomes in an [int]) when [c] does not occur. *)
Definition find_last_of (s : string) (c : ascii) : Z :=
  find_last_of_from s c 0 (-1).

(** [operator<<] of an [int]. *)
Definition of_int (z : Z) : string := NilZero.string_of_int (Z.to_int z).

(** [std::setfill(fill) << std::setw(w) << std::left << s]: pad on the
    right up to width [w]; a longer string is inserted whole. *)
Fixpoint fill_string (n : nat) (fill : ascii) : string :=
  match n with
  | O => EmptyString
  | S n' => String fill (fill_string n' fill)
  end.

Definition setw_left (w : nat) (fill : ascii) (s : string) : string :=
  s +:+ fill_string (w - String.length s) fill.

(** The texts of a list, one after the other. *)
Definition concat (l : list string) : string :=
  foldr String.append EmptyString l.

End Str.

(** ** Calendar time and [strftime] *)

(** What one reading of the clock gives: the fields of [struct tm] that the
    formats of the source use, and [tv_nsec] of [clock_gettime]. *)
Record tm : Type := mk_tm {
  tm_year : Z;   (* years since 1900 *)
  tm_mon  : Z;   (* 0 .. 11 *)
  tm_mday : Z;   (* 1 .. 31 *)
  tm_hour : Z;   (* 0 .. 23 *)
  tm_min  : Z;   (* 0 .. 59 *)
  tm_sec  : Z;   (* 0 .. 60 *)
  tv_nsec : Z    (* 0 .. 999999999 *)
}.

(** The readings [localtime] and [clock_gettime] can produce in the years
    that are written with four digits. *)
Definition valid_tm (t : tm) : Prop :=
  1000 <= 1900 + tm_year t <= 9999 /\
  0 <= tm_mon t <= 11 /\
  1 <= tm_mday t <= 31 /\
  0 <= tm_hour t <= 23 /\
  0 <= tm_min t <= 59 /\
  0 <= tm_sec t <= 60 /\
  0 <= tv_nsec t <= 999999999.

Module Fmt.

Definition digit (n : Z) : ascii := ascii_of_nat (48 + Z.to_nat (n mod 10)).

Definition is_digit (c : ascii) : bool :=
  let n := nat_of_ascii c in ((48 <=? n) && (n <=? 57))%nat.

(** [%02d] on 0 .. 99. *)
Definition pad2 (n : Z) : string :=
  String (digit (n / 10)) (String (digit n) EmptyString).

(** [%03d] on 0 .. 999. *)
Definition pad3 (n : Z) : string := String (digit (n / 100)) (pad2 n).

(** [%Y] on 1000 .. 9999, where the decimal number has four digits. *)
Definition year4 (y : Z) : string :=
  String (digit (y / 1000)) (String (digit (y / 100)) (pad2 y)).

Definition dash : string := "-".
Definition colon : string := ":".

(** The conversion specifications the source uses. *)
Definition directive (d : ascii) (t : tm) : string :=
  if Ascii.eqb d "Y" then year4 (1900 + tm_year t)
  else if Ascii.eqb d "m" then pad2 (tm_mon t + 1)
  else if Ascii.eqb d "d" then pad2 (tm_mday t)
  else if Ascii.eqb d "H" then pad2 (tm_hour t)
  else if Ascii.eqb d "M" then pad2 (tm_min t)
  else if Ascii.eqb d "S" then pad2 (tm_sec t)
  else if Ascii.eqb d "F" then
    year4 (1900 + tm_year t) +:+ dash +:+ pad2 (tm_mon t + 1) +:+ dash +:+ pad2 (tm_mday t)
  else if Ascii.eqb d "T" then
    pad2 (tm_hour t) +:+ colon +:+ pad2 (tm_min t) +:+ colon +:+ pad2 (tm_sec t)
  else EmptyString.

(** [std::strftime(buf, sizeof buf, fmt, t)] followed by [std::string(buf)].
    The longest result of the source's formats has 19 characters, within
    the 16- and 32-byte buffers of the callers that use them. *)
Fixpoint strftime (fmt : string) (t : tm) : string :=
  match fmt with
  | EmptyString => EmptyString
  | String c rest =>
      if Ascii.eqb c "%" then
        match rest with
        | String d rest' => directive d t +:+ strftime rest' t
        | EmptyString => EmptyString
        end
      else String c (strftime rest t)
  end.

(** [(int)((ts.tv_nsec / 1000000) % 1000)] followed by [".%03d"]. *)
Definition msec_suffix (t : tm) : string :=
  "." +:+ pad3 ((tv_nsec t / 1000000) mod 1000).

End Fmt.


(** ** Directories and files *)

(** A directory: its permission bits for the calling process and its
    entries in the order [readdir] returns them, each a name with the bytes
    of the file.  [chdir] and the lookup of a name need the search bit,
    [opendir] the read bit, creating and removing an entry the write bit. *)
Record dir : Type := mk_dir {
  d_search : bool;
  d_read   : bool;
  d_write  : bool;
  d_files  : list (string * string)
}.

Definition with_files (d : dir) (l : list (string * string)) : dir :=
  mk_dir (d_search d) (d_read d) (d_write d) l.

(** The file system maps the path of a directory to the directory.  Paths
    are compared as strings: no ".." or symbolic link is resolved. *)
Abbreviation fsys := (gmap string dir).

Module FS.

Definition slash : string := "/".

(** A relative path is taken from the working directory. *)
Definition resolve (cwd p : string) : string :=
  if Str.starts_with p "/" then p else cwd +:+ slash +:+ p.

Definition dirname (p : string) : string :=
  let i := Str.find_last_of p "/" in
  if i <? 0 then EmptyString
  else if i =? 0 then slash
  else Str.substr p 0 (Z.to_nat i).

Definition basename (p : string) : string :=
  Str.substr_from p (Z.to_nat (Str.find_last_of p "/" + 1)).

Fixpoint entry_lookup (name : string) (l : list (string * string)) : option string :=
  match l with
  | [] => None
  | (n, c) :: l' => if String.eqb n name then Some c else entry_lookup name l'
  end.

Fixpoint entry_append (name text : string) (l : list (string * string))
  : list (string * string) :=
  match l with
  | [] => []
  | (n, c) :: l' =>
      if String.eqb n name then (n, c +:+ text) :: l'
      else (n, c) :: entry_append name text l'
  end.

Fixpoint entry_remove (name : string) (l : list (string * string))
  : list (string * string) :=
  match l with
  | [] => []
  | (n, c) :: l' =>
      if String.eqb n name then l' else (n, c) :: entry_remove name l'
  end.

(** The bytes of the file at an absolute path, when it can be opened. *)
Definition lookup_file (fs : fsys) (path : string) : option string :=
  match fs !! dirname path with
  | Some d => if d_search d then entry_lookup (basename path) (d_files d) else None
  | None => None
  end.

(** Opening for append: the file is created empty when it is absent and
    the directory can be written.  The result tells whether the stream
    is open. *)
Definition open_append (fs : fsys) (path : string) : fsys * bool :=
  match fs !! dirname path with
  | Some d =>
      if d_search d then
        match entry_lookup (basename path) (d_files d) with
        | Some _ => (fs, true)
        | None =>
            if d_write d then
              (<[dirname path := with_files d (d_files d ++ [(basename path, EmptyString)])]> fs,
               true)
            else (fs, false)
        end
      else (fs, false)
  | None => (fs, false)
  end.

(** Writing through an open stream appends to the file it was opened on,
    as long as that entry is still there (after [unlink] the bytes go to
    a file no path names any more). *)
Definition append_file (fs : fsys) (path text : string) : fsys :=
  match fs !! dirname path with
  | Some d =>
      <[dirname path := with_files d (entry_append (basename path) text (d_files d))]> fs
  | None => fs
  end.

Definition unlink (fs : fsys) (path : string) : fsys :=
  match fs !! dirname path with
  | Some d =>
      if d_search d && d_write d then
        <[dirname path := with_files d (entry_remove (basename path) (d_files d))]> fs
      else fs
  | None => fs
  end.

(** [opendir] followed by [readdir] until it returns null: the names of
    the entries, the two entries every directory has first. *)
Definition opendir (fs : fsys) (path : string) : option (list string) :=
  match fs !! path with
  | Some d => if d_read d then Some ("." :: ".." :: map fst (d_files d)) else None
  | None => None
  end.

Definition can_chdir (fs : fsys) (path : string) : bool :=
  match fs !! path with
  | Some d => d_search d
  | None => false
  end.

End FS.

(** ** The state of the logger and of its environment *)

(** What the process does to the outside, in the order it does it. *)
Inductive event : Type :=
| EvStdout (text : string)            (* std::cout << text *)
| EvStderr (text : string)            (* std::cerr << text, perror(text) *)
| EvOpen (path : string) (ok : bool)  (* an ofstream opened on path *)
| EvWrite (path : string) (text : string) (* text put on the stream of path, flushed *)
| EvClose (path : string)             (* the stream of path closed *)
| EvUnlink (name : string).           (* unlink(name) *)

(** [std::ofstream]: the absolute path it was opened on and [is_open()]. *)
Record ofstream : Type := mk_ofstream {
  of_path    : string;
  of_is_open : bool
}.

(** [Severity]: an unscoped enumeration; the callers also pass integers
    outside of it through [Severity(i)], so it is an integer here. *)
Definition Severity : Type := Z.
Definition eLOG_CRIT : Severity := 2.
Definition eLOG_HIGH : Severity := 3.
Definition eLOG_MED : Severity := 4.
Definition eLOG_LOW : Severity := 5.
Definition eLOG_INFO : Severity := 6.
Definition eLOG_DEBUG : Severity := 7.
Definition eLOG_LAST : Severity := eLOG_DEBUG.
Definition eLOG_DEFAULT : Severity := eLOG_MED.

Definition DEFAULT_MAX_FILE_SIZE : N := (2 * 1024 * 1024)%N.
Definition DEFAULT_MAX_FILE_NUMBER : N := 128%N.

(** The static members of [Logger] (source names) and the environment
    ([w_] fields).  [m_logFile = None] is the null pointer.  The clock is a
    sequence of readings, [w_tick] counts the readings taken so far.
    [w_time_first] is a choice of the compiler: whether the program reads
    the time before the date where it makes a file name (line 407). *)
Record state : Type := mk_state {
  s_pInstance     : bool;
  m_logFile       : option ofstream;
  m_logFileName   : string;
  mFileNameBase   : string;
  m_leastSeverity : Severity;
  m_outString     : string;
  mMaxFileSize    : N;
  mMaxFileNumber  : N;
  mBuffering      : bool;
  mLogFileList    : list string;
  mBufferList     : list string;
  mUsingStdOut    : bool;
  w_fs            : fsys;
  w_cwd           : string;
  w_clock         : nat -> tm;
  w_tick          : nat;
  w_trace         : list event;
  w_time_first    : bool
}.

(** Assignment to one member; the other fields are kept. *)
Definition set_s_pInstance (v : bool) (st : state) : state :=
  mk_state v (m_logFile st) (m_logFileName st) (mFileNameBase st)
    (m_leastSeverity st) (m_outString st) (mMaxFileSize st)
    (mMaxFileNumber st) (mBuffering st) (mLogFileList st) (mBufferList st)
    (mUsingStdOut st) (w_fs st) (w_cwd st) (w_clock st) (w_tick st)
    (w_trace st) (w_time_first st).
Definition set_m_logFile (v : option ofstream) (st : state) : state :=
  mk_state (s_pInstance st) v (m_logFileName st) (mFileNameBase st)
    (m_leastSeverity st) (m_outString st) (mMaxFileSize st)
    (mMaxFileNumber st) (mBuffering st) (mLogFileList st) (mBufferList st)
    (mUsingStdOut st) (w_fs st) (w_cwd st) (w_clock st) (w_tick st)
    (w_trace st) (w_time_first st).
Definition set_m_logFileName (v : string) (st : state) : state :=
  mk_state (s_pInstance st) (m_logFile st) v (mFileNameBase st)
    (m_leastSeverity st) (m_outString st) (mMaxFileSize st)
    (mMaxFileNumber st) (mBuffering st) (mLogFileList st) (mBufferList st)
    (mUsingStdOut st) (w_fs st) (w_cwd st) (w_clock st) (w_tick st)
    (w_trace st) (w_time_first st).
Definition set_mFileNameBase (v : string) (st : state) : state :=
  mk_state (s_pInstance st) (m_logFile st) (m_logFileName st) v
    (m_leastSeverity st) (m_outString st) (mMaxFileSize st)
    (mMaxFileNumber st) (mBuffering st) (mLogFileList st) (mBufferList st)
    (mUsingStdOut st) (w_fs st) (w_cwd st) (w_clock st) (w_tick st)
    (w_trace st) (w_time_first st).
Definition set_m_leastSeverity (v : Severity) (st : state) : state :=
  mk_state (s_pInstance st) (m_logFile st) (m_logFileName st)
    (mFileNameBase st) v (m_outString st) (mMaxFileSize st)
    (mMaxFileNumber st) (mBuffering st) (mLogFileList st) (mBufferList st)
    (mUsingStdOut st) (w_fs st) (w_cwd st) (w_clock st) (w_tick st)
    (w_trace st) (w_time_first st).
Definition set_m_outString (v : string) (st : state) : state :=
  mk_state (s_pInstance st) (m_logFile st) (m_logFileName st)
    (mFileNameBase st) (m_leastSeverity st) v (mMaxFileSize st)
    (mMaxFileNumber st) (mBuffering st) (mLogFileList st) (mBufferList st)
    (mUsingStdOut st) (w_fs st) (w_cwd st) (w_clock st) (w_tick st)
    (w_trace st) (w_time_first st).
Definition set_mMaxFileSize (v : N) (st : state) : state :=
  mk_state (s_pInstance st) (m_logFile st) (m_logFileName st)
    (mFileNameBase st) (m_leastSeverity st) (m_outString st) v
    (mMaxFileNumber st) (mBuffering st) (mLogFileList st) (mBufferList st)
    (mUsingStdOut st) (w_fs st) (w_cwd st) (w_clock st) (w_tick st)
    (w_trace st) (w_time_first st).
Definition set_mMaxFileNumber (v : N) (st : state) : state :=
  mk_state (s_pInstance st) (m_logFile st) (m_logFileName st)
    (mFileNameBase st) (m_leastSeverity st) (m_outString st) (mMaxFileSize st)
    v (mBuffering st) (mLogFileList st) (mBufferList st) (mUsingStdOut st)
    (w_fs st) (w_cwd st) (w_clock st) (w_tick st) (w_trace st) (w_time_first st).
Definition set_mBuffering (v : bool) (st : state) : state :=
  mk_state (s_pInstance st) (m_logFile st) (m_logFileName st)
    (mFileNameBase st) (m_leastSeverity st) (m_outString st) (mMaxFileSize st)
    (mMaxFileNumber st) v (mLogFileList st) (mBufferList st) (mUsingStdOut st)
    (w_fs st) (w_cwd st) (w_clock st) (w_tick st) (w_trace st) (w_time_first st).
Definition set_mLogFileList (v : list string) (st : state) : state :=
  mk_state (s_pInstance st) (m_logFile st) (m_logFileName st)
    (mFileNameBase st) (m_leastSeverity st) (m_outString st) (mMaxFileSize st)
    (mMaxFileNumber st) (mBuffering st) v (mBufferList st) (mUsingStdOut st)
    (w_fs st) (w_cwd st) (w_clock st) (w_tick st) (w_trace st) (w_time_first st).
Definition set_mBufferList (v : list string) (st : state) : state :=
  mk_state (s_pInstance st) (m_logFile st) (m_logFileName st)
    (mFileNameBase st) (m_leastSeverity st) (m_outString st) (mMaxFileSize st)
    (mMaxFileNumber st) (mBuffering st) (mLogFileList st) v (mUsingStdOut st)
    (w_fs st) (w_cwd st) (w_clock st) (w_tick st) (w_trace st) (w_time_first st).
Definition set_mUsingStdOut (v : bool) (st : state) : state :=
  mk_state (s_pInstance st) (m_logFile st) (m_logFileName st)
    (mFileNameBase st) (m_leastSeverity st) (m_outString st) (mMaxFileSize st)
    (mMaxFileNumber st) (mBuffering st) (mLogFileList st) (mBufferList st) v
    (w_fs st) (w_cwd st) (w_clock st) (w_tick st) (w_trace st) (w_time_first st).
Definition set_w_fs (v : fsys) (st : state) : state :=
  mk_state (s_pInstance st) (m_logFile st) (m_logFileName st)
    (mFileNameBase st) (m_leastSeverity st) (m_outString st) (mMaxFileSize st)
    (mMaxFileNumber st) (mBuffering st) (mLogFileList st) (mBufferList st)
    (mUsingStdOut st) v (w_cwd st) (w_clock st) (w_tick st) (w_trace st) (w_time_first st).
Definition set_w_cwd (v : string) (st : state) : state :=
  mk_state (s_pInstance st) (m_logFile st) (m_logFileName st)
    (mFileNameBase st) (m_leastSeverity st) (m_outString st) (mMaxFileSize st)
    (mMaxFileNumber st) (mBuffering st) (mLogFileList st) (mBufferList st)
    (mUsingStdOut st) (w_fs st) v (w_clock st) (w_tick st) (w_trace st) (w_time_first st).
Definition set_w_tick (v : nat) (st : state) : state :=
  mk_state (s_pInstance st) (m_logFile st) (m_logFileName st)
    (mFileNameBase st) (m_leastSeverity st) (m_outString st) (mMaxFileSize st)
    (mMaxFileNumber st) (mBuffering st) (mLogFileList st) (mBufferList st)
    (mUsingStdOut st) (w_fs st) (w_cwd st) (w_clock st) v (w_trace st) (w_time_first st).
Definition set_w_trace (v : list event) (st : state) : state :=
  mk_state (s_pInstance st) (m_logFile st) (m_logFileName st)
    (mFileNameBase st) (m_leastSeverity st) (m_outString st) (mMaxFileSize st)
    (mMaxFileNumber st) (mBuffering st) (mLogFileList st) (mBufferList st)
    (mUsingStdOut st) (w_fs st) (w_cwd st) (w_clock st) (w_tick st) v (w_time_first st).
Definition set_w_time_first (v : bool) (st : state) : state :=
  mk_state (s_pInstance st) (m_logFile st) (m_logFileName st)
    (mFileNameBase st) (m_leastSeverity st) (m_outString st) (mMaxFileSize st)
    (mMaxFileNumber st) (mBuffering st) (mLogFileList st) (mBufferList st)
    (mUsingStdOut st) (w_fs st) (w_cwd st) (w_clock st) (w_tick st) (w_trace st) v.

(** ** System calls *)

Definition emit (e : event) (st : state) : state :=
  set_w_trace (w_trace st ++ [e]) st.

(** [time(NULL)] with [localtime], and [clock_gettime]: the next reading. *)
Definition read_clock (st : state) : tm * state :=
  (w_clock st (w_tick st), set_w_tick (S (w_tick st)) st).

(** [getcwd(buf, size)]: null when the path and its terminator do not fit. *)
Definition getcwd (size : nat) (st : state) : option string :=
  if (String.length (w_cwd st) + 1 <=? size)%nat then Some (w_cwd st) else None.

(** [chdir(path)]; the source ignores the result. *)
Definition chdir (path : string) (st : state) : state :=
  if String.eqb path EmptyString then st
  else if FS.can_chdir (w_fs st) (FS.resolve (w_cwd st) path)
  then set_w_cwd (FS.resolve (w_cwd st) path) st
  else st.

Definition opendir (path : string) (st : state) : option (list string) :=
  if String.eqb path EmptyString then None
  else FS.opendir (w_fs st) (FS.resolve (w_cwd st) path).

(** [unlink(name)]; the source ignores the result. *)
Definition unlink (name : string) (st : state) : state :=
  emit (EvUnlink name) (set_w_fs (FS.unlink (w_fs st) (FS.resolve (w_cwd st) name)) st).

(** [new std::ofstream(name, mode)] with [std::ios::app | std::ios::out]
    in the mode, as at both places of the source. *)
Definition ofstream_open (name : string) (st : state) : ofstream * state :=
  let path := FS.resolve (w_cwd st) name in
  let '(fs, ok) := FS.open_append (w_fs st) path in
  (mk_ofstream path ok, emit (EvOpen path ok) (set_w_fs fs st)).

(** [*m_logFile << text; m_logFile->flush()] on an open stream. *)
Definition ofstream_write (f : ofstream) (text : string) (st : state) : state :=
  emit (EvWrite (of_path f) text)
       (set_w_fs (FS.append_file (w_fs st) (of_path f) text) st).

(** [m_logFile->flush(); m_logFile->close(); delete m_logFile]. *)
Definition ofstream_close (f : ofstream) (st : state) : state :=
  emit (EvClose (of_path f)) st.

(** ** Logger.h: the inline members *)

Definition MirrorToStdOut (st : state) : state := set_mUsingStdOut true st.

Definition MaxFileSize (st : state) : N := mMaxFileSize st.
Definition MaxFileNumber (st : state) : N := mMaxFileNumber st.

(** The parameter is an [unsigned long], the member an [unsigned int]. *)
Definition SetMaxFileSize (size : N) (st : state) : state :=
  set_mMaxFileSize (size mod 2 ^ 32)%N st.

Definition SetMaxFileNumber (size : N) (st : state) : state :=
  set_mMaxFileNumber (size mod 2 ^ 32)%N st.

Definition getSeverity (st : state) : Severity := m_leastSeverity st.

Definition isDisplayed (s : Severity) (st : state) : bool :=
  s <=? m_leastSeverity st.

(** Every write of the model is already on the console or in the file. *)
Definition Flush (st : state) : state := st.

(** [Size()]: the length of the file named [m_logFileName], read from the
    disk.  When the file cannot be opened [tellg()] is -1, which the return
    type [std::size_t] turns into 2^64 - 1. *)
Definition Size (st : state) : N :=
  match FS.lookup_file (w_fs st) (FS.resolve (w_cwd st) (m_logFileName st)) with
  | Some bytes => N.of_nat (String.length bytes)
  | None => (2 ^ 64 - 1)%N
  end.

Definition name (st : state) : string := m_logFileName st.

(** ** Logger.cpp

    A function comes after the functions it calls; the line numbers are
    those of [Logger.cpp]. *)

(** [m_outString << text]. *)
Definition out_append (text : string) (st : state) : state :=
  set_m_outString (m_outString st +:+ text) st.

(** Lines 497-515. *)
Definition GetDateStr (useSep : bool) (st : state) : string * state :=
  let '(t, st1) := read_clock st in
  (Fmt.strftime (if useSep then "%F" else "%Y%m%d") t, st1).

(** Lines 520-549. *)
Definition GetTimeStr (useSep useMsec : bool) (st : state) : string * state :=
  let '(t, st1) := read_clock st in
  (Fmt.strftime (if useSep then "%T" else "%H%M%S") t
     +:+ (if useMsec then Fmt.msec_suffix t else EmptyString), st1).

(** Lines 554-580. *)
Definition TimeStamp (useSep : bool) (st : state) : string * state :=
  let '(t, st1) := read_clock st in
  (Fmt.strftime (if useSep then "%F %T" else "%Y%m%d %H%M%S") t
     +:+ Fmt.msec_suffix t, st1).

(** Lines 65-72. *)
Definition s_severityString : gmap Severity string :=
  list_to_map
    [ (eLOG_CRIT, "CRIT_"); (eLOG_HIGH, "HIGH_"); (eLOG_MED, "MED__");
      (eLOG_LOW, "LOW__"); (eLOG_INFO, "INFO_"); (eLOG_DEBUG, "DEBUG") ].

(** [s_severityString[s]], read at keys of the table only. *)
Definition severity_name (s : Severity) : string :=
  default EmptyString (s_severityString !! s).

(** Lines 584-592. *)
Definition severityToString (s : Severity) : string :=
  if (eLOG_CRIT <=? s) && (s <=? eLOG_LAST)
  then Str.setw_left 4 " " (severity_name s)
  else EmptyString.

(** What a function of the source can end in, besides a result: the
    undefined behaviour of [Get] on an empty buffer, and the loop bound of
    the model used up. *)
Inductive outcome (A : Type) : Type :=
| Done (a : A)
| Undefined
| OutOfFuel.
Arguments Done {A} a.
Arguments Undefined {A}.
Arguments OutOfFuel {A}.

(** Lines 601-613.  On an empty buffer the source returns [NULL] as a
    [std::string], the construction of a string from a null pointer. *)
Definition Get (st : state) : outcome (string * state) :=
  match mBufferList st with
  | [] => Undefined
  | line :: rest => Done (line, set_mBufferList rest st)
  end.

(** Lines 405-410.  [GetDateStr] and [GetTimeStr] are called in operands
    of [+], and the language leaves open which of the two calls comes
    first: the name pairs the date of one reading of the clock with the
    time of the reading before or after it, as [w_time_first] says. *)
Definition AddNewFileName (st : state) : state :=
  let '(date, time, st2) :=
    if w_time_first st then
      let '(time, st1) := GetTimeStr false false st in
      let '(date, st2) := GetDateStr false st1 in
      (date, time, st2)
    else
      let '(date, st1) := GetDateStr false st in
      let '(time, st2) := GetTimeStr false false st1 in
      (date, time, st2) in
  let name := mFileNameBase st2 +:+ "_" +:+ date +:+ "_" +:+ time +:+ ".log" in
  set_m_logFileName name (set_mLogFileList (mLogFileList st2 ++ [name]) st2).

(** Lines 449-460: the size check of [EnforceLogFileLimits]. *)
Definition rotate_if_full (st : state) : state :=
  match m_logFile st with
  | Some f =>
      if (mMaxFileSize st <=? Size st)%N then
        let st1 := set_m_logFile None (ofstream_close f st) in
        let st2 := AddNewFileName st1 in
        let '(g, st3) := ofstream_open (m_logFileName st2) st2 in
        set_m_logFile (Some g) st3
      else st
  | None => st
  end.

(** Lines 463-467: [while (mLogFileList.size() > mMaxFileNumber)], each turn
    unlinking element 0 and erasing it.  [files] is the list the loop still
    holds; the recursion is on it, as each turn leaves its tail. *)
Fixpoint evict_excess (files : list string) (st : state) : state :=
  match files with
  | [] => set_mLogFileList [] st
  | oldest :: rest =>
      if (mMaxFileNumber st <? N.of_nat (length files))%N
      then evict_excess rest (unlink oldest st)
      else set_mLogFileList files st
  end.

(** Lines 446-468. *)
Definition EnforceLogFileLimits (st : state) : state :=
  let st1 := rotate_if_full st in
  evict_excess (mLogFileList st1) st1.

(** Lines 474-488 of [writeLog]: the text of the stream goes to the console
    and to the open file, and the stream is emptied.  The only stream the
    source passes is [m_outString]. *)
Definition write_out (st : state) : state :=
  let text := m_outString st in
  let st1 := if mUsingStdOut st then emit (EvStdout text) st else st in
  let st2 :=
    match m_logFile st1 with
    | Some f => if of_is_open f then ofstream_write f text st1 else st1
    | None => st1
    end in
  set_m_outString EmptyString st2.

(** Lines 472-492. *)
Definition writeLog (st : state) : state :=
  EnforceLogFileLimits (write_out st).

(** Lines 178-193. *)
Definition setSeverity (s : Severity) (st : state) : bool * state :=
  if (s <? eLOG_CRIT) || (eLOG_LAST <? s) then
    let '(ts, st1) := TimeStamp true st in
    let st2 :=
      out_append (ts +:+ " ERROR: Invalid verbosity specified, " +:+ Str.of_int s +:+ Str.endl) st1 in
    (false, writeLog st2)
  else
    let '(ts, st1) := TimeStamp true st in
    let st2 :=
      out_append (ts +:+ " Set severity level to " +:+ severity_name s +:+ Str.endl) st1 in
    let st3 := set_m_leastSeverity s st2 in
    (true, writeLog st3).

(** The line [log] builds for a message. *)
Definition log_line (ts : string) (s : Severity) (input : string) : string :=
  ts +:+ " [" +:+ severityToString s +:+ "] " +:+ input +:+ Str.endl.

(** Lines 197-205, the overload for [std::string].  The two other
    overloads (lines 209-238) differ in how [input] is obtained. *)
Definition log (s : Severity) (input : string) (st : state) : state :=
  if s <=? m_leastSeverity st then
    let '(ts, st1) := TimeStamp true st in
    writeLog (out_append (log_line ts s input) st1)
  else st.

(** Lines 267-271: the loop of [WriteToFile], [fuel] bounding its turns. *)
Fixpoint WriteToFile_loop (fuel : nat) (st : state) : outcome state :=
  match fuel with
  | O => OutOfFuel
  | S fuel' =>
      if (0 <? length (mBufferList st))%nat then
        match Get st with
        | Done (line, st1) => WriteToFile_loop fuel' (writeLog (out_append line st1))
        | Undefined => Undefined
        | OutOfFuel => OutOfFuel
        end
      else Done st
  end.

(** Lines 265-273.  One turn for each buffered line and one for the test
    that ends the loop. *)
Definition WriteToFile (st : state) : outcome state :=
  match WriteToFile_loop (S (length (mBufferList st))) st with
  | Done st' => Done (Flush st')
  | Undefined => Undefined
  | OutOfFuel => OutOfFuel
  end.

(** Lines 248-259. *)
Definition SetBuffering (on : bool) (st : state) : outcome state :=
  if mBuffering st && negb on then
    match WriteToFile st with
    | Done st' => Done (set_mBuffering on st')
    | Undefined => Undefined
    | OutOfFuel => OutOfFuel
    end
  else if negb (mBuffering st) && on then
    Done (set_mBuffering on (set_mBufferList [] st))
  else Done (set_mBuffering on st).

(** Lines 277-310. *)
Definition Open (st : state) : bool * state :=
  if String.eqb (m_logFileName st) EmptyString then (false, st)
  else
    match getcwd 1024 st with
    | None => (false, emit (EvStderr "getcwd() error") st)
    | Some currentDir =>
        let pathIdx := Str.find_last_of (m_logFileName st) "/" in
        let st1 :=
          if pathIdx <? 0
          then set_m_logFileName (currentDir +:+ "/" +:+ m_logFileName st) st
          else st in
        let '(f, st2) := ofstream_open (m_logFileName st1) st1 in
        (true, set_m_logFile (Some f) st2)
    end.

(** Line 381: the test an entry of the directory passes to be listed. *)
Definition entry_selected (nameLength : nat) (filenamebase entry : string) : bool :=
  (Str.size entry =? nameLength)%nat
  && String.eqb (Str.substr_from entry (Str.size filenamebase)) filenamebase.

(** Lines 375-385: the [readdir] loop over the entries. *)
Definition scan_entries (logDir : string) (nameLength : nat) (filenamebase : string)
    (entries : list string) (st : state) : state :=
  fold_left
    (fun s entry =>
       if entry_selected nameLength filenamebase entry
       then set_mLogFileList (mLogFileList s ++ [logDir +:+ "/" +:+ entry]) s
       else s)
    entries st.

(** Lines 318-399.  [return EXIT_FAILURE] in a function returning [bool]
    returns [true]. *)
Definition MakeFileList (st : state) : bool * state :=
  if String.eqb (mFileNameBase st) EmptyString then (false, st)
  else
    match getcwd 132 st with
    | None => (false, emit (EvStderr "getcwd() error") st)
    | Some workingDir =>
        let idx := Str.find_last_of (mFileNameBase st) "/" in
        let logDir :=
          if 0 <=? idx then
            if Str.starts_with (mFileNameBase st) "/"
            then Str.substr (mFileNameBase st) 0 (Z.to_nat idx)
            else workingDir +:+ Str.substr (mFileNameBase st) 0 (Z.to_nat idx)
          else workingDir in
        let st1 := chdir logDir st in
        let st2 := set_mLogFileList [] st1 in
        let nameLength :=
          (Str.size (Str.substr_from (mFileNameBase st) (Z.to_nat (idx + 1)))
           + Str.size "_yyyy-MM-dd" + Str.size "_HHmmss")%nat in
        let filenamebase := Str.substr_from (mFileNameBase st) (Z.to_nat (idx + 1)) in
        match opendir logDir st2 with
        | Some entries =>
            let st3 := scan_entries logDir nameLength filenamebase entries st2 in
            (true, chdir workingDir st3)
        | None => (true, emit (EvStderr EmptyString) st2)
        end
    end.

(** Logger.h, lines 180-184. *)
Definition SetBaseName (baseName : string) (st : state) : bool * state :=
  MakeFileList (set_mFileNameBase baseName st).

(** Lines 419-439. *)
Definition GenerateFileName (st : state) : bool * state :=
  if String.eqb (mFileNameBase st) EmptyString then (false, st)
  else
    match mLogFileList st with
    | [] => (true, AddNewFileName st)
    | _ :: _ => (true, set_m_logFileName (List.last (mLogFileList st) EmptyString) st)
    end.

Definition rule : string :=
  "--------------------------------------------------------------------------------".

(** The opening block of lines 95-99 and 137-141. *)
Definition start_banner (st : state) : state :=
  let st1 := out_append (rule +:+ Str.endl) st in
  let '(ts, st2) := TimeStamp true st1 in
  let st3 := out_append ("START: " +:+ ts +:+ Str.endl) st2 in
  let st4 := out_append (" filename = " +:+ m_logFileName st3 +:+ Str.endl) st3 in
  let st5 :=
    out_append (" severity = " +:+ severityToString (m_leastSeverity st4) +:+ Str.endl) st4 in
  out_append (rule +:+ Str.endl) st5.

(** Lines 79-101: the logger of the console. *)
Definition Logger_console (severity : Severity) (st : state) : state :=
  let st1 := set_s_pInstance true st in
  let st2 := set_m_leastSeverity severity st1 in
  let st3 := set_m_logFileName "<STDOUT>" st2 in
  let st4 := set_mUsingStdOut true st3 in
  let st5 := set_m_logFile None st4 in
  let st6 := set_mBuffering false st5 in
  let st7 :=
    emit (EvStderr ("Logging at log level " +:+ severityToString (m_leastSeverity st6)
                    +:+ " to " +:+ m_logFileName st6 +:+ Str.endl)) st6 in
  writeLog (start_banner st7).

(** Lines 109-143: the logger of a set of files. *)
Definition Logger_file (baseName : string) (severity : Severity) (st : state) : state :=
  let st1 := set_s_pInstance true st in
  let st2 := set_m_leastSeverity severity st1 in
  let st3 := set_mFileNameBase baseName st2 in
  let st4 := set_mUsingStdOut false st3 in
  let st5 := set_mBuffering true st4 in
  let st6 := snd (MakeFileList st5) in
  let st7 := snd (GenerateFileName st6) in
  let '(opened, st8) := Open st7 in
  if opened then
    let st9 := EnforceLogFileLimits st8 in
    let st10 :=
      emit (EvStderr ("Successfully opened output log file at log level "
                      +:+ severityToString (m_leastSeverity st9)
                      +:+ ", name = " +:+ m_logFileName st9 +:+ Str.endl)) st9 in
    writeLog (start_banner st10)
  else
    emit (EvStderr ("Error: unable to open output file: " +:+ m_logFileName st8 +:+ Str.endl)) st8.

(** The static members before any logger is constructed, in an
    environment given by its file system, working directory and clock.
    The program is one that reads the time first at line 407, as GCC
    compiles it (the arguments of a call are evaluated from the right). *)
Definition initial (fs : fsys) (cwd : string) (clock : nat -> tm) : state :=
  mk_state false None EmptyString EmptyString 0 EmptyString
    DEFAULT_MAX_FILE_SIZE DEFAULT_MAX_FILE_NUMBER false [] [] false
    fs cwd clock O [] true.

(** ** Observations on states *)

(** The writes by which [writeLog] puts [text] on the outputs that are on
    in [st]: the console when it is mirrored, the file when a stream is
    open. *)
Definition sink_events (text : string) (st : state) : list event :=
  (if mUsingStdOut st then [EvStdout text] else [])
  ++ match m_logFile st with
     | Some f => if of_is_open f then [EvWrite (of_path f) text] else []
     | None => []
     end.

Definition file_open (st : state) : bool :=
  match m_logFile st with
  | Some f => of_is_open f
  | None => false
  end.

(** Some output is on. *)
Definition has_sink (st : state) : bool := mUsingStdOut st || file_open st.

(** [text] is recorded between [st] and [st']: what the process did since
    [st] starts with the write of [text] to every output that is on. *)
Definition recorded (text : string) (st st' : state) : Prop :=
  exists rest, w_trace st' = w_trace st ++ sink_events text st ++ rest.

(** The texts written to the console, and to files, in order. *)
Definition stdout_text (e : event) : option string :=
  match e with
  | EvStdout text => Some text
  | _ => None
  end.

Definition file_text (e : event) : option string :=
  match e with
  | EvWrite _ text => Some text
  | _ => None
  end.

Definition stdout_texts (tr : list event) : list string := omap stdout_text tr.
Definition file_texts (tr : list event) : list string := omap file_text tr.

(** What the process did between [st] and a later state [st']. *)
Definition events_since (st st' : state) : list event :=
  drop (length (w_trace st)) (w_trace st').

(** The members and the parts of the environment that writing a line,
    rotating and evicting leave alone, and the trace only growing. *)
Definition frame (st st' : state) : Prop :=
  s_pInstance st' = s_pInstance st /\
  mFileNameBase st' = mFileNameBase st /\
  m_leastSeverity st' = m_leastSeverity st /\
  mMaxFileSize st' = mMaxFileSize st /\
  mMaxFileNumber st' = mMaxFileNumber st /\
  mBuffering st' = mBuffering st /\
  mBufferList st' = mBufferList st /\
  mUsingStdOut st' = mUsingStdOut st /\
  w_cwd st' = w_cwd st /\
  w_clock st' = w_clock st /\
  exists evs, w_trace st' = w_trace st ++ evs.

(** One turn of the loop of [WriteToFile] on a buffer [line :: rest]: [Get]
    leaves [rest], the line goes to [m_outString] and through [writeLog]. *)
Definition drain_turn (line : string) (rest : list string) (st : state) : state :=
  writeLog (out_append line (set_mBufferList rest st)).

(** The turns of the loop for the buffer [lines] without the bound. *)
Fixpoint drain (lines : list string) (st : state) : state :=
  match lines with
  | [] => st
  | line :: rest => drain rest (drain_turn line rest st)
  end.

(** A stream is open at every turn of the loop for [lines]. *)
Fixpoint open_throughout (lines : list string) (st : state) : bool :=
  match lines with
  | [] => true
  | line :: rest => file_open st && open_throughout rest (drain_turn line rest st)
  end.

(** Events that put no text on the console or in a file. *)
Definition housekeeping (evs : list event) : Prop :=
  stdout_texts evs = [] /\ file_texts evs = [].

(** ** The forms of a file name *)

(** The readings of the clock whose date and whose time go into the name
    [AddNewFileName] makes: the next reading and the one after it, in the
    order the compiler has chosen. *)
Definition date_tick (st : state) : nat :=
  if w_time_first st then S (w_tick st) else w_tick st.

Definition time_tick (st : state) : nat :=
  if w_time_first st then w_tick st else S (w_tick st).

(** [s] has the shape of [pat]: a ['9'] of the pattern stands for any
    decimal digit, every other character for itself. *)
Fixpoint matches_pattern (pat s : string) : bool :=
  match pat, s with
  | EmptyString, EmptyString => true
  | String p pat', String c s' =>
      (if Ascii.eqb p "9" then Fmt.is_digit c else Ascii.eqb p c)
      && matches_pattern pat' s'
  | _, _ => false
  end.

(** [<base>_<YYYY-MM-DD>_<HHMMSS>.log], the form the specification gives. *)
Definition dashed_name (base name : string) : bool :=
  String.prefix base name
  && matches_pattern "_9999-99-99_999999.log" (Str.substr_from name (String.length base)).

(** [<base>_<YYYYMMDD>_<HHMMSS>.log], the form of Logger.h, line 178. *)
Definition compact_name (base name : string) : bool :=
  String.prefix base name
  && matches_pattern "_99999999_999999.log" (Str.substr_from name (String.length base)).

(** The number a string of decimal digits writes. *)
Definition digits_value (s : string) : Z :=
  fold_left (fun acc c => acc * 10 + (Z.of_nat (nat_of_ascii c) - 48))
            (String.list_ascii_of_string s) 0.

(** ** Sample environments *)

(** A clock that starts on 2024-01-05 at 12:34:00 and advances one second
    with every reading. *)
Definition clock_2024 (n : nat) : tm :=
  mk_tm 124 0 5 12 34 (Z.of_nat (n mod 60)) 7000000.

(** A clock that stands still at 2024-01-05 12:34:56. *)
Definition clock_fixed (n : nat) : tm := mk_tm 124 0 5 12 34 56 7000000.

(** A directory for logs that the process may search, read and write, and
    a home directory. *)
Definition fs_sample : fsys :=
  {[ "/var/log" := mk_dir true true true [("app_2024-01-01_120000", "old")];
     "/home/u" := mk_dir true true true [] ]}.

(** A file logger constructed in that environment. *)
Definition st_file : state :=
  Logger_file "/var/log/app" eLOG_MED (initial fs_sample "/home/u" clock_2024).

(** A console logger. *)
Definition st_console : state :=
  Logger_console eLOG_DEBUG (initial fs_sample "/home/u" clock_2024).

(** The file logger with a maximum file size of 10 bytes, which its opening
    block already exceeds, and a retention count of 1, which its list
    already reaches. *)
Definition st_full : state := SetMaxFileNumber 1 (SetMaxFileSize 10 st_file).

(** The same environment with a log directory the process may search but
    not read. *)
Definition fs_unreadable : fsys :=
  {[ "/var/log" := mk_dir true false true [("app_2024-01-01_120000", "old")];
     "/home/u" := mk_dir true true true [] ]}.

(** A file logger on a directory that does not exist: the constructor
    leaves a stream that could not be opened. *)
Definition st_nowhere : state :=
  Logger_file "/nowhere/app" eLOG_MED (initial fs_sample "/home/u" clock_2024).


(** The base name set in a program that reads the date first. *)
Definition st_base_date_first : state :=
  set_w_time_first false
    (set_mFileNameBase "/var/log/app" (initial fs_sample "/home/u" clock_2024)).

(** A console logger holding two lines in its buffer. *)
Definition st_two_lines : state := set_mBufferList ["L1"; "L2"] st_console.

(** ** The scan in the words of the specification *)

(** An entry is listed when its length is that of the stem followed by
    "_YYYY-MM-DD" and "_HHMMSS" and its first characters are the stem. *)
Definition spec_selected (stem entry : string) : bool :=
  (String.length entry
   =? String.length stem + String.length "_YYYY-MM-DD" + String.length "_HHMMSS")%nat
  && String.prefix stem entry.

(** The static members with the base name set, before any file is made. *)
Definition st_base : state :=
  set_mFileNameBase "/var/log/app" (initial fs_sample "/home/u" clock_2024).

(** ** The rest of the class *)

(** The closing block of lines 151-153. *)
Definition finish_banner (st : state) : state :=
  let st1 := out_append (rule +:+ Str.endl) st in
  let '(ts, st2) := TimeStamp true st1 in
  let st3 := out_append ("FINISH: " +:+ ts +:+ Str.endl) st2 in
  out_append (rule +:+ Str.endl) st3.

(** Lines 147-167, the destructor.  [delete m_logFile] leaves the static
    pointer as it was; the stream it points to is gone, which the model
    keeps as the same stream, closed. *)
Definition Logger_destroy (st : state) : outcome state :=
  if s_pInstance st then
    match WriteToFile (writeLog (finish_banner st)) with
    | Done st1 =>
        let st2 :=
          match m_logFile st1 with
          | Some f =>
              set_m_logFile (Some (mk_ofstream (of_path f) false)) (ofstream_close f st1)
          | None => st1
          end in
        Done (set_s_pInstance false st2)
    | Undefined => Undefined
    | OutOfFuel => OutOfFuel
    end
  else Done st.

(** Lines 209-221, the overload for [std::stringstream]: the text of the
    stream is logged and the stream is emptied, whether or not the line
    was recorded.  The result is the stream of the caller afterwards. *)
Definition log_stream (s : Severity) (input : string) (st : state) : string * state :=
  (EmptyString,
   if s <=? m_leastSeverity st then
     let '(ts, st1) := TimeStamp true st in
     writeLog (out_append (log_line ts s input) st1)
   else st).

(** Lines 225-238, the overload with a format: [expansion] is what the
    format and its arguments expand to; [vsnprintf] with a buffer of 1024
    bytes keeps its first 1023 characters. *)
Definition log_format (s : Severity) (expansion : string) (st : state) : state :=
  if s <=? m_leastSeverity st then
    let cbuffer := Str.substr expansion 0 1023 in
    let '(ts, st1) := TimeStamp true st in
    writeLog (out_append (log_line ts s cbuffer) st1)
  else st.

(** Lines 171-174: whether a logger is current. *)
Definition getInstance (st : state) : bool := s_pInstance st.

(** Lines 342-360 of [MakeFileList]: the directory the scan works in, for
    the working directory [workingDir]. *)
Definition scan_dir (workingDir : string) (st : state) : string :=
  let idx := Str.find_last_of (mFileNameBase st) "/" in
  if 0 <=? idx then
    if Str.starts_with (mFileNameBase st) "/"
    then Str.substr (mFileNameBase st) 0 (Z.to_nat idx)
    else workingDir +:+ Str.substr (mFileNameBase st) 0 (Z.to_nat idx)
  else workingDir.

(** Line 368: the base name without its path. *)
Definition scan_stem (st : state) : string :=
  Str.substr_from (mFileNameBase st) (Z.to_nat (Str.find_last_of (mFileNameBase st) "/" + 1)).

(** ** More sample states *)

(** A file logger under a clock that stands still, over its size limit. *)
Definition st_still : state :=
  SetMaxFileSize 10
    (Logger_file "/var/log/app" eLOG_MED (initial fs_sample "/home/u" clock_fixed)).

(** The file logger over its size limit whose active file was removed. *)
Definition st_removed : state :=
  set_w_fs (FS.unlink (w_fs st_file) "/var/log/app_20240105_123400.log") st_file.

(** The file logger over its size limit with a retention count of 0. *)
Definition st_keep_none : state := SetMaxFileNumber 0 (SetMaxFileSize 10 st_file).

(** The members that only the constructors and the setters assign. *)
Definition config_kept (st st' : state) : Prop :=
  s_pInstance st' = s_pInstance st /\
  mFileNameBase st' = mFileNameBase st /\
  m_leastSeverity st' = m_leastSeverity st /\
  mMaxFileSize st' = mMaxFileSize st /\
  mMaxFileNumber st' = mMaxFileNumber st /\
  mBuffering st' = mBuffering st /\
  mBufferList st' = mBufferList st /\
  mUsingStdOut st' = mUsingStdOut st.

(** The environment with a log directory the process cannot write. *)
Definition fs_readonly : fsys :=
  {[ "/var/log" := mk_dir true true false [("app_2024-01-01_120000", "old")];
     "/home/u" := mk_dir true true true [] ]}.

(** A console logger that still tracks a file of that directory, with a
    retention count of 0. *)
Definition st_readonly : state :=
  SetMaxFileNumber 0
    (set_mLogFileList ["/var/log/app_2024-01-01_120000"]
       (Logger_console eLOG_DEBUG (initial fs_readonly "/home/u" clock_2024))).

(** * Properties *)

(** ** Strings *)

Lemma str_app_cons (c : ascii) (a b : string) : String c a +:+ b = String c (a +:+ b).
Proof. reflexivity. Qed.

Lemma str_app_nil_l (b : string) : EmptyString +:+ b = b.
Proof. reflexivity. Qed.

Lemma str_length_app (a b : string) :
  String.length (a +:+ b) = (String.length a + String.length b)%nat.
Proof.
  induction a as [|c a IH]; [reflexivity |].
  rewrite str_app_cons; cbn; now rewrite IH.
Qed.

Lemma str_app_nil_r (a : string) : a +:+ EmptyString = a.
Proof.
  induction a as [|c a IH]; [reflexivity | now rewrite str_app_cons, IH].
Qed.

Lemma str_app_assoc (a b c : string) : (a +:+ b) +:+ c = a +:+ b +:+ c.
Proof.
  induction a as [|x a IH]; [reflexivity | now rewrite !str_app_cons, IH].
Qed.

Lemma substring_all (s : string) : String.substring 0 (String.length s) s = s.
Proof. induction s as [|c s IH]; cbn; [reflexivity | now rewrite IH]. Qed.

Lemma substring_app_l (a b : string) :
  String.substring 0 (String.length a) (a +:+ b) = a.
Proof.
  induction a as [|c a IH]; [now destruct b |].
  rewrite str_app_cons; cbn; now rewrite IH.
Qed.

Lemma substring_app_r (a b : string) (n : nat) :
  String.substring (String.length a) n (a +:+ b) = String.substring 0 n b.
Proof.
  induction a as [|c a IH]; [reflexivity | rewrite str_app_cons; exact IH].
Qed.

Lemma substr_from_app (a b : string) : Str.substr_from (a +:+ b) (String.length a) = b.
Proof.
  unfold Str.substr_from. rewrite str_length_app, substring_app_r.
  replace (String.length a + String.length b - String.length a)%nat
    with (String.length b) by lia.
  apply substring_all.
Qed.

Lemma length_substring (s : string) (n m : nat) :
  String.length (String.substring n m s) = Nat.min m (String.length s - n).
Proof.
  revert n m; induction s as [|c s IH]; intros [|n] [|m]; cbn; try reflexivity.
  - now rewrite IH, Nat.sub_0_r.
  - apply IH.
  - apply IH.
Qed.

Lemma length_substr_from (s : string) (pos : nat) :
  String.length (Str.substr_from s pos) = (String.length s - pos)%nat.
Proof. unfold Str.substr_from. rewrite length_substring. lia. Qed.

(** ** What a write leaves alone *)

Lemma frame_refl (st : state) : frame st st.
Proof.
  unfold frame; repeat split; try reflexivity.
  exists []; now rewrite app_nil_r.
Qed.

Lemma frame_trans (a b c : state) : frame a b -> frame b c -> frame a c.
Proof.
  unfold frame.
  intros (A1 & A2 & A3 & A4 & A5 & A6 & A7 & A8 & A9 & A10 & e1 & A11)
         (B1 & B2 & B3 & B4 & B5 & B6 & B7 & B8 & B9 & B10 & e2 & B11).
  repeat split; try congruence.
  exists (e1 ++ e2). rewrite B11, A11. now rewrite app_assoc.
Qed.

Ltac frame_step :=
  unfold frame; cbn; repeat split; try reflexivity;
  first [ exists []; now rewrite app_nil_r | eexists; reflexivity ].

Lemma frame_emit (e : event) (st : state) : frame st (emit e st).
Proof. frame_step. Qed.

Lemma frame_set_w_fs (fs : fsys) (st : state) : frame st (set_w_fs fs st).
Proof. frame_step. Qed.

Lemma frame_set_w_tick (n : nat) (st : state) : frame st (set_w_tick n st).
Proof. frame_step. Qed.

Lemma frame_set_m_logFile (f : option ofstream) (st : state) : frame st (set_m_logFile f st).
Proof. frame_step. Qed.

Lemma frame_set_m_logFileName (n : string) (st : state) : frame st (set_m_logFileName n st).
Proof. frame_step. Qed.

Lemma frame_set_mLogFileList (l : list string) (st : state) : frame st (set_mLogFileList l st).
Proof. frame_step. Qed.

Lemma frame_set_m_outString (s : string) (st : state) : frame st (set_m_outString s st).
Proof. frame_step. Qed.

Create HintDb frame.

#[local] Hint Resolve frame_refl frame_emit frame_set_w_fs frame_set_w_tick
  frame_set_m_logFile frame_set_m_logFileName frame_set_mLogFileList
  frame_set_m_outString : frame.

Lemma frame_unlink (n : string) (st : state) : frame st (unlink n st).
Proof. unfold unlink. eapply frame_trans; [apply frame_set_w_fs | apply frame_emit]. Qed.

Lemma frame_ofstream_open (n : string) (st : state) : frame st (snd (ofstream_open n st)).
Proof.
  unfold ofstream_open. destruct (FS.open_append _ _) as [fs ok]; cbn.
  eapply frame_trans; [apply frame_set_w_fs | apply frame_emit].
Qed.

Lemma frame_ofstream_write (f : ofstream) (text : string) (st : state) :
  frame st (ofstream_write f text st).
Proof. unfold ofstream_write. eapply frame_trans; [apply frame_set_w_fs | apply frame_emit]. Qed.

Lemma frame_ofstream_close (f : ofstream) (st : state) : frame st (ofstream_close f st).
Proof. unfold ofstream_close. eauto with frame. Qed.

(** The name made, in either order of the two readings. *)
Lemma AddNewFileName_unfold (st : state) :
  AddNewFileName st
  = let name :=
      mFileNameBase st +:+ "_" +:+ Fmt.strftime "%Y%m%d" (w_clock st (date_tick st)) +:+ "_"
        +:+ (Fmt.strftime "%H%M%S" (w_clock st (time_tick st)) +:+ EmptyString) +:+ ".log" in
    set_m_logFileName name
      (set_mLogFileList (mLogFileList st ++ [name]) (set_w_tick (S (S (w_tick st))) st)).
Proof.
  unfold AddNewFileName, GetDateStr, GetTimeStr, read_clock, date_tick, time_tick.
  destruct (w_time_first st) eqn:E; cbn; rewrite ?E; reflexivity.
Qed.

Lemma frame_AddNewFileName (st : state) : frame st (AddNewFileName st).
Proof.
  rewrite AddNewFileName_unfold. cbv zeta.
  eapply frame_trans; [| apply frame_set_m_logFileName].
  eapply frame_trans; [| apply frame_set_mLogFileList].
  apply frame_set_w_tick.
Qed.

#[local] Hint Resolve frame_unlink frame_ofstream_open frame_ofstream_write
  frame_ofstream_close frame_AddNewFileName : frame.

Lemma frame_rotate_if_full (st : state) : frame st (rotate_if_full st).
Proof.
  unfold rotate_if_full. destruct (m_logFile st) as [f|]; [| apply frame_refl].
  destruct (_ <=? _)%N; [| apply frame_refl].
  cbv zeta.
  set (st1 := set_m_logFile None (ofstream_close f st)).
  set (st2 := AddNewFileName st1).
  pose proof (frame_ofstream_open (m_logFileName st2) st2) as Ho.
  destruct (ofstream_open (m_logFileName st2) st2) as [g st3]; simpl snd in Ho.
  eapply frame_trans; [| apply frame_set_m_logFile].
  eapply frame_trans; [| exact Ho].
  eapply frame_trans; [| apply frame_AddNewFileName].
  eapply frame_trans; [apply frame_ofstream_close | apply frame_set_m_logFile].
Qed.

Lemma frame_evict_excess (files : list string) (st : state) :
  frame st (evict_excess files st).
Proof.
  revert st; induction files as [|f rest IH]; intros st; cbn.
  - apply frame_set_mLogFileList.
  - destruct (_ <? _)%N.
    + eapply frame_trans; [apply frame_unlink | apply IH].
    + apply frame_set_mLogFileList.
Qed.

Lemma frame_EnforceLogFileLimits (st : state) : frame st (EnforceLogFileLimits st).
Proof.
  unfold EnforceLogFileLimits.
  eapply frame_trans; [apply frame_rotate_if_full | apply frame_evict_excess].
Qed.

Lemma frame_write_out (st : state) : frame st (write_out st).
Proof.
  unfold write_out.
  eapply frame_trans; [| apply frame_set_m_outString].
  assert (frame st (if mUsingStdOut st then emit (EvStdout (m_outString st)) st else st)) as H1
    by (destruct (mUsingStdOut st); eauto with frame).
  eapply frame_trans; [exact H1 |].
  destruct (m_logFile _) as [f|]; [| apply frame_refl].
  destruct (of_is_open f); eauto with frame.
Qed.

Lemma frame_writeLog (st : state) : frame st (writeLog st).
Proof.
  unfold writeLog.
  eapply frame_trans; [apply frame_write_out | apply frame_EnforceLogFileLimits].
Qed.

Lemma frame_out_append (text : string) (st : state) : frame st (out_append text st).
Proof. unfold out_append. apply frame_set_m_outString. Qed.

(** ** Eviction *)

Lemma evict_excess_step (oldest : string) (rest : list string) (st : state) :
  (mMaxFileNumber st < N.of_nat (length (oldest :: rest)))%N ->
  evict_excess (oldest :: rest) st = evict_excess rest (unlink oldest st).
Proof.
  intros H. apply N.ltb_lt in H. cbn [evict_excess]. now rewrite H.
Qed.

Lemma evict_excess_stop (files : list string) (st : state) :
  (N.of_nat (length files) <= mMaxFileNumber st)%N ->
  evict_excess files st = set_mLogFileList files st.
Proof.
  intros H. destruct files as [|f rest]; [reflexivity |].
  cbn [evict_excess]. apply N.ltb_ge in H. now rewrite H.
Qed.

(** The loop drops the first [k] names, [k] the excess over the retention
    count, and unlinks them in the order of the list. *)
Lemma evict_excess_drop (files : list string) (st : state) :
  let k := (length files - N.to_nat (mMaxFileNumber st))%nat in
  mLogFileList (evict_excess files st) = drop k files /\
  w_trace (evict_excess files st) = w_trace st ++ map EvUnlink (take k files).
Proof.
  revert st; induction files as [|f rest IH]; intros st k.
  - cbn. now rewrite app_nil_r.
  - destruct (N.ltb_spec (mMaxFileNumber st) (N.of_nat (length (f :: rest)))) as [Hlt|Hge].
    + rewrite evict_excess_step by exact Hlt.
      destruct (IH (unlink f st)) as [Hl Ht].
      change (mMaxFileNumber (unlink f st)) with (mMaxFileNumber st) in Hl, Ht.
      assert (k = S (length rest - N.to_nat (mMaxFileNumber st))) as ->
        by (subst k; cbn [length] in *; lia).
      rewrite Hl, Ht. cbn. split; [reflexivity |].
      now rewrite <- app_assoc.
    + rewrite evict_excess_stop by exact Hge.
      assert (k = 0%nat) as -> by (subst k; cbn [length] in *; lia).
      cbn. now rewrite app_nil_r.
Qed.

Lemma evict_excess_bound (files : list string) (st : state) :
  (N.of_nat (length (mLogFileList (evict_excess files st))) <= mMaxFileNumber st)%N.
Proof.
  destruct (evict_excess_drop files st) as [-> _].
  rewrite length_drop. lia.
Qed.

Lemma evict_excess_keeps (files : list string) (st : state) :
  m_logFile (evict_excess files st) = m_logFile st /\
  m_logFileName (evict_excess files st) = m_logFileName st /\
  m_outString (evict_excess files st) = m_outString st /\
  w_tick (evict_excess files st) = w_tick st.
Proof.
  revert st; induction files as [|f rest IH]; intros st; cbn [evict_excess].
  - now cbn.
  - destruct (_ <? _)%N; [| now cbn].
    destruct (IH (unlink f st)) as (-> & -> & -> & ->). now cbn.
Qed.



(** ** Writing a line *)

(** The state as its fields, the stream [f] and the console flag [u] named. *)
Ltac open_state st f u :=
  destruct st as [? f ? ? ? ? ? ? ? ? ? u ? ? ? ? ? ?]; cbn in *.

Lemma write_out_trace (st : state) :
  w_trace (write_out st) = w_trace st ++ sink_events (m_outString st) st.
Proof.
  unfold write_out, sink_events. open_state st f u.
  destruct u; cbn; destruct f as [[p []]|]; cbn;
    rewrite ?app_nil_r, <- ?app_assoc; reflexivity.
Qed.

Lemma write_out_keeps (st : state) :
  m_logFile (write_out st) = m_logFile st /\
  m_logFileName (write_out st) = m_logFileName st /\
  mLogFileList (write_out st) = mLogFileList st /\
  w_tick (write_out st) = w_tick st /\
  m_outString (write_out st) = EmptyString.
Proof.
  unfold write_out. open_state st f u.
  destruct u; cbn; destruct f as [[p []]|]; cbn; repeat split; reflexivity.
Qed.

Lemma rotate_if_full_keeps_out (st : state) :
  m_outString (rotate_if_full st) = m_outString st.
Proof.
  unfold rotate_if_full. destruct (m_logFile st) as [f|]; [| reflexivity].
  destruct (_ <=? _)%N; [| reflexivity].
  rewrite AddNewFileName_unfold.
  unfold ofstream_open. destruct (FS.open_append _ _) as [fs ok]. reflexivity.
Qed.

Lemma writeLog_out_empty (st : state) : m_outString (writeLog st) = EmptyString.
Proof.
  unfold writeLog, EnforceLogFileLimits.
  destruct (evict_excess_keeps (mLogFileList (rotate_if_full (write_out st)))
              (rotate_if_full (write_out st))) as (_ & _ & -> & _).
  rewrite rotate_if_full_keeps_out. apply write_out_keeps.
Qed.

(** [writeLog] puts the text of [m_outString] on every output that is on. *)
Lemma writeLog_recorded (st : state) : recorded (m_outString st) st (writeLog st).
Proof.
  unfold recorded, writeLog.
  destruct (frame_EnforceLogFileLimits (write_out st))
    as (_ & _ & _ & _ & _ & _ & _ & _ & _ & _ & evs & H).
  exists evs. rewrite H, write_out_trace. now rewrite app_assoc.
Qed.

Lemma sink_events_nonempty (text : string) (st : state) :
  has_sink st = true -> sink_events text st <> [].
Proof.
  unfold has_sink, file_open, sink_events.
  destruct (mUsingStdOut st); [discriminate |].
  destruct (m_logFile st) as [f|]; [| discriminate].
  destruct (of_is_open f); discriminate.
Qed.

Lemma recorded_grows (text : string) (st st' : state) :
  has_sink st = true -> recorded text st st' -> w_trace st' <> w_trace st.
Proof.
  intros Hs [rest H] E. rewrite E in H.
  apply (f_equal (@length event)) in H. rewrite !length_app in H.
  pose proof (sink_events_nonempty text st Hs) as Hne.
  destruct (sink_events text st); [congruence | cbn in H; lia].
Qed.

(** ** Setting the threshold *)

Lemma writeLog_keeps_severity (st : state) :
  m_leastSeverity (writeLog st) = m_leastSeverity st.
Proof. destruct (frame_writeLog st) as (_ & _ & H & _). exact H. Qed.


(** ** The line buffer *)

Lemma housekeeping_nil : housekeeping [].
Proof. split; reflexivity. Qed.

Lemma housekeeping_app (a b : list event) :
  housekeeping a -> housekeeping b -> housekeeping (a ++ b).
Proof.
  unfold housekeeping, stdout_texts, file_texts. intros [A1 A2] [B1 B2].
  rewrite !omap_app, A1, A2, B1, B2. split; reflexivity.
Qed.

Lemma housekeeping_unlinks (l : list string) : housekeeping (map EvUnlink l).
Proof.
  induction l as [|x l [IH1 IH2]]; [apply housekeeping_nil |].
  split; cbn; assumption.
Qed.

Lemma rotate_if_full_trace (st : state) :
  exists evs, w_trace (rotate_if_full st) = w_trace st ++ evs /\ housekeeping evs.
Proof.
  unfold rotate_if_full. destruct (m_logFile st) as [f|].
  2:{ exists []. rewrite app_nil_r. split; [reflexivity | apply housekeeping_nil]. }
  destruct (_ <=? _)%N.
  2:{ exists []. rewrite app_nil_r. split; [reflexivity | apply housekeeping_nil]. }
  rewrite AddNewFileName_unfold.
  unfold ofstream_open. destruct (FS.open_append _ _) as [fs ok]. cbn.
  eexists. rewrite <- app_assoc. split; [reflexivity |]. split; reflexivity.
Qed.

Lemma EnforceLogFileLimits_trace (st : state) :
  exists evs, w_trace (EnforceLogFileLimits st) = w_trace st ++ evs /\ housekeeping evs.
Proof.
  unfold EnforceLogFileLimits.
  destruct (rotate_if_full_trace st) as (e1 & H1 & K1).
  destruct (evict_excess_drop (mLogFileList (rotate_if_full st)) (rotate_if_full st))
    as [_ H2].
  eexists. rewrite H2, H1, <- app_assoc. split; [reflexivity |].
  apply housekeeping_app; [exact K1 | apply housekeeping_unlinks].
Qed.

Lemma writeLog_trace (st : state) :
  exists evs,
    w_trace (writeLog st) = w_trace st ++ sink_events (m_outString st) st ++ evs /\
    housekeeping evs.
Proof.
  unfold writeLog.
  destruct (EnforceLogFileLimits_trace (write_out st)) as (evs & H & K).
  exists evs. rewrite H, write_out_trace, <- app_assoc. split; [reflexivity | exact K].
Qed.

Lemma stdout_texts_sink (text : string) (st : state) :
  stdout_texts (sink_events text st) = if mUsingStdOut st then [text] else [].
Proof.
  unfold sink_events. open_state st f u.
  destruct u, f as [[p []]|]; reflexivity.
Qed.

Lemma file_texts_sink (text : string) (st : state) :
  file_texts (sink_events text st) = if file_open st then [text] else [].
Proof.
  unfold sink_events, file_open. open_state st f u.
  destruct u, f as [[p []]|]; reflexivity.
Qed.

(** One turn: the line goes to the outputs that are on, the buffer is the
    rest, the stream is empty again. *)
Lemma drain_turn_spec (line : string) (rest : list string) (st : state) :
  m_outString st = EmptyString ->
  let st' := drain_turn line rest st in
  mBufferList st' = rest /\
  m_outString st' = EmptyString /\
  mUsingStdOut st' = mUsingStdOut st /\
  mBuffering st' = mBuffering st /\
  exists evs,
    w_trace st' = w_trace st ++ evs /\
    stdout_texts evs = (if mUsingStdOut st then [line] else []) /\
    file_texts evs = (if file_open st then [line] else []).
Proof.
  intros Hout st'. subst st'. unfold drain_turn.
  set (s1 := out_append line (set_mBufferList rest st)).
  destruct (frame_writeLog s1) as (_ & _ & _ & _ & _ & Hb & Hl & Hu & _).
  destruct (writeLog_trace s1) as (evs & Ht & K1 & K2).
  repeat split.
  - rewrite Hl. reflexivity.
  - apply writeLog_out_empty.
  - rewrite Hu. reflexivity.
  - rewrite Hb. reflexivity.
  - exists (sink_events (m_outString s1) s1 ++ evs). split; [exact Ht |].
    assert (m_outString s1 = line) as -> by (subst s1; cbn; now rewrite Hout).
    unfold stdout_texts, file_texts in *. rewrite !omap_app, K1, K2, !app_nil_r.
    fold (stdout_texts (sink_events line s1)) (file_texts (sink_events line s1)).
    rewrite stdout_texts_sink, file_texts_sink. split; reflexivity.
Qed.

Lemma drain_spec (lines : list string) (st : state) :
  m_outString st = EmptyString ->
  mBufferList st = lines ->
  let st' := drain lines st in
  mBufferList st' = [] /\
  m_outString st' = EmptyString /\
  mBuffering st' = mBuffering st /\
  exists evs,
    w_trace st' = w_trace st ++ evs /\
    stdout_texts evs = (if mUsingStdOut st then lines else []) /\
    sublist (file_texts evs) lines /\
    (open_throughout lines st = true -> file_texts evs = lines).
Proof.
  revert st; induction lines as [|line rest IH]; intros st Hout Hbuf; cbn zeta.
  - cbn [drain open_throughout]. split; [exact Hbuf |]. split; [exact Hout |].
    split; [reflexivity |].
    exists []. rewrite app_nil_r. split; [reflexivity |].
    split; [now destruct (mUsingStdOut st) |].
    split; [constructor | reflexivity].
  - cbn [drain open_throughout].
    destruct (drain_turn_spec line rest st Hout) as (Hb & Ho & Hu & Hm & e1 & Ht & Hs & Hf).
    destruct (IH (drain_turn line rest st) Ho Hb)
      as (Hb' & Ho' & Hm' & e2 & Ht' & Hs' & Hsub & Hf').
    split; [exact Hb' |]. split; [exact Ho' |]. split; [congruence |].
    exists (e1 ++ e2). rewrite Ht', Ht, <- app_assoc. split; [reflexivity |].
    unfold stdout_texts, file_texts in *. rewrite !omap_app, Hs, Hs', Hf, Hu.
    split; [now destruct (mUsingStdOut st) |].
    split.
    + destruct (file_open st); cbn; [now apply sublist_skip | now apply sublist_cons].
    + intros [Hopen Hrest]%andb_true_iff. rewrite Hopen. cbn. f_equal. now apply Hf'.
Qed.

Lemma WriteToFile_loop_drain (fuel : nat) (st : state) :
  (length (mBufferList st) < fuel)%nat ->
  WriteToFile_loop fuel st = Done (drain (mBufferList st) st).
Proof.
  revert st; induction fuel as [|fuel IH]; intros st Hlt; [lia |].
  cbn [WriteToFile_loop]. unfold Get.
  destruct (mBufferList st) as [|line rest] eqn:Hbuf; [reflexivity |].
  cbn [length Nat.ltb Nat.leb drain].
  fold (drain_turn line rest st).
  assert (mBufferList (drain_turn line rest st) = rest) as Hrest.
  { unfold drain_turn.
    destruct (frame_writeLog (out_append line (set_mBufferList rest st)))
      as (_ & _ & _ & _ & _ & _ & Hl & _). rewrite Hl. reflexivity. }
  rewrite IH by (rewrite Hrest; cbn [length] in Hlt; lia).
  now rewrite Hrest.
Qed.

Lemma WriteToFile_done (st : state) :
  WriteToFile st = Done (drain (mBufferList st) st).
Proof.
  unfold WriteToFile. rewrite WriteToFile_loop_drain by lia. reflexivity.
Qed.

(** The loop never reaches the branch of [Get] for the empty buffer,
    whatever the bound. *)
Lemma WriteToFile_loop_defined (fuel : nat) (st : state) :
  WriteToFile_loop fuel st <> Undefined.
Proof.
  revert st; induction fuel as [|fuel IH]; intros st; [discriminate |].
  cbn [WriteToFile_loop]. unfold Get.
  destruct (mBufferList st) as [|line rest]; [discriminate |].
  cbn [length Nat.ltb Nat.leb]. apply IH.
Qed.


(** C10.  On a buffer that is not empty [Get] returns its head and leaves
    its tail, one element shorter, and nothing else changes; the loop of
    [WriteToFile] calls [Get] under the test of its [while] only, so for
    no bound and no state does it meet the branch of the empty buffer, and
    [WriteToFile] always returns. *)
Theorem Get_guarded_in_WriteToFile (st : state) :
  mBufferList st <> [] ->
  (exists line rest,
      mBufferList st = line :: rest /\
      Get st = Done (line, set_mBufferList rest st) /\
      S (length (mBufferList (set_mBufferList rest st))) = length (mBufferList st)) /\
  (forall fuel s, WriteToFile_loop fuel s <> Undefined) /\
  (forall s, exists s', WriteToFile s = Done s') /\
  (forall s, mBufferList s = [] -> Get s = Undefined).
Proof.
  intros Hne. split; [| split; [| split]].
  - unfold Get. destruct (mBufferList st) as [|line rest] eqn:E; [congruence |].
    exists line, rest. repeat split.
  - intros fuel s. apply WriteToFile_loop_defined.
  - intros s. eexists. apply WriteToFile_done.
  - intros s E. unfold Get. now rewrite E.
Qed.

(** ** The threshold *)

Lemma events_since_app (st st' : state) (evs : list event) :
  w_trace st' = w_trace st ++ evs -> events_since st st' = evs.
Proof. intros H. unfold events_since. rewrite H. apply drop_app_length. Qed.

Lemma log_events (s : Severity) (input : string) (st : state) :
  s <= m_leastSeverity st ->
  exists rest,
    w_trace (log s input st)
    = w_trace st
        ++ sink_events (m_outString st +:+ log_line (fst (TimeStamp true st)) s input) st
        ++ rest /\
    housekeeping rest.
Proof.
  intros Hle. unfold log. apply Z.leb_le in Hle. rewrite Hle.
  unfold TimeStamp, read_clock. cbv zeta.
  match goal with |- context [writeLog ?x] =>
    destruct (writeLog_trace x) as (rest & Ht & Hk); exists rest; rewrite Ht
  end.
  split; [reflexivity | exact Hk].
Qed.

(** C4, as the code has it.  A call of [log] with severity [s] above the
    threshold [t] changes nothing.  With [s <= t], in the order of the
    integers with CRIT = 2 up to DEBUG = 7, the line made of the time
    stamp, the tag in brackets (the entry of the table for a severity of
    the range), the message and a line feed is written once to every
    output that is on, the console when it is mirrored and
    the file when its stream is open, and nothing else is written.  So
    with an output on the message is recorded if and only if [s <= t];
    with no output on nothing is recorded, whatever [s] is. *)
Theorem log_threshold_filter (s : Severity) (input : string) (st : state) :
  let st' := log s input st in
  let line :=
    fst (TimeStamp true st) +:+ " [" +:+ severityToString s +:+ "] " +:+ input +:+ Str.endl in
  let text := m_outString st +:+ line in
  let new := events_since st st' in
  w_trace st' = w_trace st ++ new /\
  (s <= m_leastSeverity st ->
   (exists rest, new = sink_events text st ++ rest /\ housekeeping rest) /\
   stdout_texts new = (if mUsingStdOut st then [text] else []) /\
   file_texts new = (if file_open st then [text] else [])) /\
  (m_leastSeverity st < s -> st' = st /\ new = []) /\
  (has_sink st = true ->
   (stdout_texts new ++ file_texts new <> [] <-> s <= m_leastSeverity st)) /\
  (has_sink st = false -> stdout_texts new = [] /\ file_texts new = []) /\
  (isDisplayed s st = true <-> s <= m_leastSeverity st) /\
  (eLOG_CRIT <= s <= eLOG_LAST -> s_severityString !! s = Some (severityToString s)) /\
  [eLOG_CRIT; eLOG_HIGH; eLOG_MED; eLOG_LOW; eLOG_INFO; eLOG_DEBUG] = [2; 3; 4; 5; 6; 7].
Proof.
  intros st' line text new.
  assert (m_leastSeverity st < s -> st' = st /\ new = []) as Hskip.
  { intros Hlt. subst new st'. unfold log.
    apply Z.leb_gt in Hlt. rewrite Hlt. split; [reflexivity |].
    unfold events_since. apply drop_all. }
  assert (s <= m_leastSeverity st ->
          exists rest, w_trace st' = w_trace st ++ sink_events text st ++ rest /\
                       new = sink_events text st ++ rest /\ housekeeping rest) as Hrec.
  { intros Hle. destruct (log_events s input st Hle) as (rest & Ht & Hk).
    exists rest. split; [exact Ht |]. split; [| exact Hk].
    subst new. apply events_since_app. exact Ht. }
  assert (s <= m_leastSeverity st ->
          stdout_texts new = (if mUsingStdOut st then [text] else []) /\
          file_texts new = (if file_open st then [text] else [])) as Htexts.
  { intros Hle. destruct (Hrec Hle) as (rest & _ & -> & [K1 K2]).
    unfold stdout_texts, file_texts in *. rewrite !omap_app, K1, K2, !app_nil_r.
    split; [apply stdout_texts_sink | apply file_texts_sink]. }
  split.
  { destruct (Z.le_gt_cases s (m_leastSeverity st)) as [Hle|Hlt].
    - destruct (Hrec Hle) as (rest & Ht & -> & _). exact Ht.
    - destruct (Hskip ltac:(lia)) as [-> ->]. now rewrite app_nil_r. }
  split.
  { intros Hle. split; [| exact (Htexts Hle)].
    destruct (Hrec Hle) as (rest & _ & E & K). now exists rest. }
  split; [exact Hskip |].
  split.
  { intros Hsink. split.
    - intros Hne. destruct (Z.le_gt_cases s (m_leastSeverity st)) as [H|H]; [exact H |].
      exfalso. apply Hne. destruct (Hskip ltac:(lia)) as [_ ->]. reflexivity.
    - intros Hle. destruct (Htexts Hle) as [-> ->].
      unfold has_sink in Hsink.
      destruct (mUsingStdOut st); [discriminate |].
      destruct (file_open st); [discriminate | discriminate Hsink]. }
  split.
  { intros Hsink. unfold has_sink in Hsink. apply orb_false_iff in Hsink as [Hu Hf].
    destruct (Z.le_gt_cases s (m_leastSeverity st)) as [Hle|Hlt].
    - destruct (Htexts Hle) as [-> ->]. rewrite Hu, Hf. split; reflexivity.
    - destruct (Hskip ltac:(lia)) as [_ ->]. split; reflexivity. }
  split; [unfold isDisplayed; apply Z.leb_le |].
  split; [| reflexivity].
  intros Hr.
  assert (s = 2 \/ s = 3 \/ s = 4 \/ s = 5 \/ s = 6 \/ s = 7) as Hs
    by (unfold eLOG_CRIT, eLOG_LAST, eLOG_DEBUG in Hr; lia).
  destruct Hs as [-> | [-> | [-> | [-> | [-> | ->]]]]]; vm_compute; reflexivity.
Qed.

(** C4, as stated, fails: the file logger made on a directory that does
    not exist has the threshold MED and a stream that could not be opened;
    a message of severity HIGH is under the threshold and is written
    nowhere. *)
Lemma log_without_output :
  eLOG_HIGH <= m_leastSeverity st_nowhere /\
  isDisplayed eLOG_HIGH st_nowhere = true /\
  stdout_texts (w_trace (log eLOG_HIGH "hello" st_nowhere)) = [] /\
  file_texts (w_trace (log eLOG_HIGH "hello" st_nowhere)) = [] /\
  w_fs (log eLOG_HIGH "hello" st_nowhere) = w_fs st_nowhere.
Proof.
  split; [vm_compute; discriminate |].
  split; [vm_compute; reflexivity |].
  split; [vm_compute; reflexivity |].
  split; vm_compute; reflexivity.
Qed.

(** ** File names *)

Lemma digit_cases (n : Z) (P : ascii -> Prop) :
  P "0"%char -> P "1"%char -> P "2"%char -> P "3"%char -> P "4"%char ->
  P "5"%char -> P "6"%char -> P "7"%char -> P "8"%char -> P "9"%char ->
  P (Fmt.digit n).
Proof.
  intros H0 H1 H2 H3 H4 H5 H6 H7 H8 H9. unfold Fmt.digit.
  assert (Z.to_nat (n mod 10) < 10)%nat as Hk
    by (pose proof (Z.mod_pos_bound n 10); lia).
  destruct (Z.to_nat (n mod 10)) as [|[|[|[|[|[|[|[|[|[|k]]]]]]]]]]; try assumption.
  lia.
Qed.

Lemma is_digit_digit (n : Z) : Fmt.is_digit (Fmt.digit n) = true.
Proof. apply (digit_cases n (fun c => Fmt.is_digit c = true)); reflexivity. Qed.

Lemma digit_not_dash (n : Z) : Ascii.eqb "-" (Fmt.digit n) = false.
Proof. apply (digit_cases n (fun c => Ascii.eqb "-" c = false)); reflexivity. Qed.

Lemma digit_numeral (n : Z) :
  Z.of_nat (nat_of_ascii (Fmt.digit n)) - 48 = n mod 10.
Proof.
  unfold Fmt.digit.
  pose proof (Z.mod_pos_bound n 10 ltac:(lia)) as Hb.
  rewrite nat_ascii_embedding by lia. lia.
Qed.

Lemma digits_value_pad2 (n : Z) : 0 <= n <= 99 -> digits_value (Fmt.pad2 n) = n.
Proof.
  intros Hn. unfold digits_value, Fmt.pad2. cbn [String.list_ascii_of_string fold_left].
  rewrite !digit_numeral.
  pose proof (Z.div_mod n 10 ltac:(lia)) as Hd.
  rewrite (Z.mod_small (n / 10) 10) by (split; [apply Z.div_pos | apply Z.div_lt_upper_bound]; lia).
  lia.
Qed.

Lemma digits_value_year4 (y : Z) : 0 <= y <= 9999 -> digits_value (Fmt.year4 y) = y.
Proof.
  intros Hy. unfold digits_value, Fmt.year4, Fmt.pad2.
  cbn [String.list_ascii_of_string fold_left]. rewrite !digit_numeral.
  rewrite (Z.mod_small (y / 1000) 10)
    by (split; [apply Z.div_pos | apply Z.div_lt_upper_bound]; lia).
  replace (y / 100) with (y / 10 / 10) by (rewrite Z.div_div; [reflexivity | lia | lia]).
  replace (y / 1000) with (y / 10 / 10 / 10)
    by (rewrite !Z.div_div; [reflexivity | lia | lia | lia | lia]).
  pose proof (Z.div_mod y 10 ltac:(lia)) as H1.
  pose proof (Z.div_mod (y / 10) 10 ltac:(lia)) as H2.
  pose proof (Z.div_mod (y / 10 / 10) 10 ltac:(lia)) as H3.
  lia.
Qed.

Lemma prefix_app (a b : string) : String.prefix a (a +:+ b) = true.
Proof. apply String.prefix_correct, substring_app_l. Qed.

Ltac name_digits :=
  repeat match goal with
    | |- context [Fmt.digit ?e] =>
        let Hd := fresh "Hd" in
        let Hn := fresh "Hn" in
        pose proof (is_digit_digit e) as Hd;
        pose proof (digit_not_dash e) as Hn;
        generalize dependent (Fmt.digit e); intros
    end.

Lemma strftime_compact_date (d : tm) :
  Fmt.strftime "%Y%m%d" d
  = Fmt.year4 (1900 + tm_year d) +:+ Fmt.pad2 (tm_mon d + 1) +:+ Fmt.pad2 (tm_mday d)
      +:+ EmptyString.
Proof. reflexivity. Qed.

Lemma strftime_compact_time (t : tm) :
  Fmt.strftime "%H%M%S" t
  = Fmt.pad2 (tm_hour t) +:+ Fmt.pad2 (tm_min t) +:+ Fmt.pad2 (tm_sec t) +:+ EmptyString.
Proof. reflexivity. Qed.

Lemma compact_rest (d t : tm) :
  let rest :=
    "_" +:+ Fmt.strftime "%Y%m%d" d +:+ "_" +:+ Fmt.strftime "%H%M%S" t +:+ ".log" in
  matches_pattern "_99999999_999999.log" rest = true /\
  matches_pattern "_9999-99-99_999999.log" rest = false.
Proof.
  cbv zeta. rewrite strftime_compact_date, strftime_compact_time.
  cbv [Fmt.year4 Fmt.pad2 String.append].
  name_digits.
  cbn [matches_pattern].
  repeat match goal with H : Fmt.is_digit _ = true |- _ => rewrite !H; clear H end.
  repeat match goal with H : Ascii.eqb _ _ = false |- _ => rewrite ?H; clear H end.
  split; reflexivity.
Qed.

(** C3, as the code has it.  [AddNewFileName] takes the next two
    readings of the clock, one for the date and one for the time, in the
    order the compiler has chosen.  For readings that [localtime] can
    give, the name it makes is the base name, an underscore, the eight
    digits of year, month and day without a separator, an underscore, the
    six digits of hour, minute and second, and ".log"; it becomes the
    current name and the last element of the tracked list.  The name never
    has the dash-separated form. *)
Theorem AddNewFileName_compact_form (st : state) :
  valid_tm (w_clock st (w_tick st)) ->
  valid_tm (w_clock st (S (w_tick st))) ->
  let d := w_clock st (date_tick st) in
  let t := w_clock st (time_tick st) in
  let date := Fmt.year4 (1900 + tm_year d) +:+ Fmt.pad2 (tm_mon d + 1) +:+ Fmt.pad2 (tm_mday d) in
  let time := Fmt.pad2 (tm_hour t) +:+ Fmt.pad2 (tm_min t) +:+ Fmt.pad2 (tm_sec t) in
  let name := mFileNameBase st +:+ "_" +:+ date +:+ "_" +:+ time +:+ ".log" in
  ((date_tick st = w_tick st /\ time_tick st = S (w_tick st)) \/
   (date_tick st = S (w_tick st) /\ time_tick st = w_tick st)) /\
  w_tick (AddNewFileName st) = S (S (w_tick st)) /\
  m_logFileName (AddNewFileName st) = name /\
  mLogFileList (AddNewFileName st) = mLogFileList st ++ [name] /\
  compact_name (mFileNameBase st) name = true /\
  dashed_name (mFileNameBase st) name = false /\
  digits_value (Fmt.year4 (1900 + tm_year d)) = 1900 + tm_year d /\
  digits_value (Fmt.pad2 (tm_mon d + 1)) = tm_mon d + 1 /\
  digits_value (Fmt.pad2 (tm_mday d)) = tm_mday d /\
  digits_value (Fmt.pad2 (tm_hour t)) = tm_hour t /\
  digits_value (Fmt.pad2 (tm_min t)) = tm_min t /\
  digits_value (Fmt.pad2 (tm_sec t)) = tm_sec t.
Proof.
  intros H0 H1 d t date time name.
  assert (valid_tm d /\ valid_tm t) as [Hvd Hvt].
  { subst d t. unfold date_tick, time_tick. destruct (w_time_first st); split; assumption. }
  destruct Hvd as (Hy & Hmo & Hd & _). destruct Hvt as (_ & _ & _ & Hh & Hmi & Hs & _).
  assert (name = mFileNameBase st
                 +:+ ("_" +:+ Fmt.strftime "%Y%m%d" d +:+ "_"
                      +:+ Fmt.strftime "%H%M%S" t +:+ ".log")) as Hrest.
  { subst name date time. rewrite strftime_compact_date, strftime_compact_time.
    rewrite ?str_app_assoc, ?str_app_nil_r. reflexivity. }
  assert (m_logFileName (AddNewFileName st) = name) as Hname.
  { rewrite AddNewFileName_unfold. cbv zeta. cbn [m_logFileName set_m_logFileName].
    rewrite Hrest. subst d t. rewrite ?str_app_assoc, ?str_app_nil_r. reflexivity. }
  destruct (compact_rest d t) as [Hc Hnd].
  split; [unfold date_tick, time_tick; destruct (w_time_first st); [right | left];
          split; reflexivity |].
  split; [rewrite AddNewFileName_unfold; reflexivity |].
  split; [exact Hname |].
  split.
  { rewrite <- Hname. rewrite AddNewFileName_unfold. reflexivity. }
  split; [unfold compact_name; rewrite Hrest, prefix_app, substr_from_app; now rewrite Hc |].
  split; [unfold dashed_name; rewrite Hrest, prefix_app, substr_from_app; now rewrite Hnd |].
  subst d t.
  split; [apply digits_value_year4; lia |].
  do 4 (split; [apply digits_value_pad2; lia |]).
  apply digits_value_pad2; lia.
Qed.

(** C3, as stated, fails: on 2024-01-05 at 12:34:00 the name made for the
    base "/var/log/app" is "/var/log/app_20240105_123400.log", which has no
    dash in its date. *)
Lemma AddNewFileName_not_dashed :
  ~ (forall st : state,
        valid_tm (w_clock st (w_tick st)) ->
        valid_tm (w_clock st (S (w_tick st))) ->
        dashed_name (mFileNameBase st) (m_logFileName (AddNewFileName st)) = true).
Proof.
  intros H.
  specialize (H (set_mFileNameBase "/var/log/app" (initial fs_sample "/home/u" clock_2024))).
  assert (forall n, valid_tm (clock_2024 n)) as Hv.
  { intros n. unfold valid_tm, clock_2024; cbn.
    pose proof (Nat.mod_upper_bound n 60). lia. }
  specialize (H (Hv _) (Hv _)).
  vm_compute in H. discriminate H.
Qed.

(** The two orders of the readings at that clock: a program that reads
    the time first pairs the time of the first reading with the date of
    the second. *)
Example AddNewFileName_sample :
  m_logFileName (AddNewFileName st_base) = "/var/log/app_20240105_123400.log" /\
  m_logFileName (AddNewFileName st_base_date_first) = "/var/log/app_20240105_123401.log".
Proof. split; vm_compute; reflexivity. Qed.

(** ** Files *)

Lemma entry_lookup_append (name name' text : string) (l : list (string * string)) :
  FS.entry_lookup name (FS.entry_append name' text l)
  = (fun c => if String.eqb name' name then c +:+ text else c) <$> FS.entry_lookup name l.
Proof.
  induction l as [|[n c] l IH]; [reflexivity |].
  cbn [FS.entry_append FS.entry_lookup].
  destruct (String.eqb_spec n name') as [E1|E1]; cbn [FS.entry_lookup].
  - destruct (String.eqb_spec n name) as [E2|E2].
    + subst. now rewrite String.eqb_refl.
    + destruct (FS.entry_lookup name l); cbn; [| reflexivity].
      destruct (String.eqb_spec name' name); [congruence | reflexivity].
  - destruct (String.eqb_spec n name) as [E2|E2]; [| exact IH].
    cbn. destruct (String.eqb_spec name' name); [congruence | reflexivity].
Qed.

(** Appending to a file makes no file shorter and no file appear. *)
Lemma lookup_file_append (fs : fsys) (q text p : string) :
  match FS.lookup_file fs p with
  | Some c =>
      exists c', FS.lookup_file (FS.append_file fs q text) p = Some c' /\
                 (String.length c <= String.length c')%nat
  | None => FS.lookup_file (FS.append_file fs q text) p = None
  end.
Proof.
  unfold FS.lookup_file, FS.append_file.
  destruct (fs !! FS.dirname q) as [d|] eqn:Hq.
  2:{ destruct (fs !! FS.dirname p) as [d'|]; [| reflexivity].
      destruct (d_search d'); [| reflexivity].
      destruct (FS.entry_lookup _ _) as [c|]; [| reflexivity]. now exists c. }
  destruct (decide (FS.dirname q = FS.dirname p)) as [E|E].
  - rewrite <- E, Hq, lookup_insert_eq. cbn [d_search d_files with_files].
    destruct (d_search d); [| reflexivity].
    rewrite entry_lookup_append.
    destruct (FS.entry_lookup (FS.basename p) (d_files d)) as [c|]; cbn; [| reflexivity].
    eexists; split; [reflexivity |].
    destruct (String.eqb _ _); [rewrite str_length_app; lia | lia].
  - rewrite lookup_insert_ne by exact E.
    destruct (fs !! FS.dirname p) as [d'|]; [| reflexivity].
    destruct (d_search d'); [| reflexivity].
    destruct (FS.entry_lookup _ _) as [c|]; [| reflexivity]. now exists c.
Qed.

Lemma entry_lookup_new (name : string) (l : list (string * string)) :
  FS.entry_lookup name l = None ->
  FS.entry_lookup name (l ++ [(name, EmptyString)]) = Some EmptyString.
Proof.
  induction l as [|[n c] l IH]; cbn.
  - now rewrite String.eqb_refl.
  - destruct (String.eqb n name); [discriminate | exact IH].
Qed.

(** A stream that opened names a file that is there. *)
Lemma open_append_exists (fs fs' : fsys) (path : string) :
  FS.open_append fs path = (fs', true) -> is_Some (FS.lookup_file fs' path).
Proof.
  unfold FS.open_append, FS.lookup_file.
  destruct (fs !! FS.dirname path) as [d|] eqn:Hd; [| discriminate].
  destruct (d_search d) eqn:Hs; [| discriminate].
  destruct (FS.entry_lookup (FS.basename path) (d_files d)) as [c|] eqn:He.
  - intros [= <-]. rewrite Hd, Hs, He. now eexists.
  - destruct (d_write d); [| discriminate].
    intros [= <-]. rewrite lookup_insert_eq. cbn [d_search d_files with_files].
    rewrite Hs, entry_lookup_new by exact He. now eexists.
Qed.

(** The size [EnforceLogFileLimits] reads after the write is not under
    the size before it. *)
Lemma Size_write_out (st : state) : (Size st <= Size (write_out st))%N.
Proof.
  unfold write_out, Size. open_state st f u.
  destruct u, f as [[p []]|]; cbn; try reflexivity;
    match goal with
    | |- context [FS.append_file ?fs ?q ?text] =>
        match goal with
        | |- context [FS.lookup_file fs ?r] =>
            pose proof (lookup_file_append fs q text r) as H;
            destruct (FS.lookup_file fs r) as [c|];
            [destruct H as (c' & -> & Hl); lia | rewrite H; reflexivity]
        end
    end.
Qed.



(** ** Rotation *)

(** The name made at the clock of [st]. *)
Lemma AddNewFileName_name (st : state) :
  m_logFileName (AddNewFileName st)
  = mFileNameBase st +:+ "_" +:+ Fmt.strftime "%Y%m%d" (w_clock st (date_tick st)) +:+ "_"
      +:+ Fmt.strftime "%H%M%S" (w_clock st (time_tick st)) +:+ ".log" /\
  mLogFileList (AddNewFileName st) = mLogFileList st ++ [m_logFileName (AddNewFileName st)].
Proof.
  rewrite AddNewFileName_unfold. cbv zeta. cbn [m_logFileName set_m_logFileName mLogFileList
    set_mLogFileList set_w_tick].
  rewrite str_app_nil_r. split; reflexivity.
Qed.

(** The name depends on the base name, the clock and the order of the
    readings only; the call leaves the environment alone. *)
Lemma AddNewFileName_same_name (st st0 : state) :
  mFileNameBase st0 = mFileNameBase st ->
  w_clock st0 = w_clock st ->
  w_tick st0 = w_tick st ->
  w_time_first st0 = w_time_first st ->
  m_logFileName (AddNewFileName st0) = m_logFileName (AddNewFileName st).
Proof.
  intros Hb Hc Ht Hf. rewrite !(proj1 (AddNewFileName_name _)).
  unfold date_tick, time_tick. now rewrite Hb, Hc, Ht, Hf.
Qed.

Lemma AddNewFileName_env (st : state) :
  w_cwd (AddNewFileName st) = w_cwd st /\
  w_fs (AddNewFileName st) = w_fs st /\
  w_trace (AddNewFileName st) = w_trace st /\
  m_logFile (AddNewFileName st) = m_logFile st.
Proof. rewrite AddNewFileName_unfold. repeat split; reflexivity. Qed.


(** What the size check does when it fires. *)
Lemma rotate_if_full_fires (st : state) (f : ofstream) :
  m_logFile st = Some f ->
  (mMaxFileSize st <= Size st)%N ->
  let name := m_logFileName (AddNewFileName st) in
  let path := FS.resolve (w_cwd st) name in
  let g := mk_ofstream path (snd (FS.open_append (w_fs st) path)) in
  let st' := rotate_if_full st in
  m_logFile st' = Some g /\
  m_logFileName st' = name /\
  mLogFileList st' = mLogFileList st ++ [name] /\
  w_trace st' = w_trace st ++ [EvClose (of_path f); EvOpen path (of_is_open g)] /\
  w_fs st' = fst (FS.open_append (w_fs st) path) /\
  (of_is_open g = true -> is_Some (FS.lookup_file (w_fs st') path)).
Proof.
  intros Hf Hsize name path g st'. subst st'. unfold rotate_if_full.
  rewrite Hf. apply N.leb_le in Hsize. rewrite Hsize. cbv zeta.
  unfold ofstream_open.
  set (st0 := set_m_logFile None (ofstream_close f st)).
  destruct (AddNewFileName_env st0) as (Ec & Efs & Et & _).
  assert (m_logFileName (AddNewFileName st0) = name) as En
    by (apply AddNewFileName_same_name; reflexivity).
  assert (mLogFileList (AddNewFileName st0) = mLogFileList st ++ [name]) as El
    by (rewrite (proj2 (AddNewFileName_name st0)), En; reflexivity).
  rewrite Ec, Efs, En.
  change (w_cwd st0) with (w_cwd st). change (w_fs st0) with (w_fs st).
  fold path. subst g.
  destruct (FS.open_append (w_fs st) path) as [fs ok] eqn:Ho.
  cbn [snd fst of_is_open of_path].
  split; [reflexivity |].
  split; [exact En |].
  split; [exact El |].
  split; [cbn; rewrite Et; cbn; now rewrite <- app_assoc |].
  split; [reflexivity |].
  intros ->. cbn. eapply open_append_exists; eassumption.
Qed.



Example rotation_at_retention_count_lists :
  mLogFileList st_full = ["/var/log/app_20240105_123400.log"] /\
  mLogFileList (log eLOG_HIGH "hello" st_full) = ["/var/log/app_20240105_123404.log"].
Proof. split; vm_compute; reflexivity. Qed.

(** ** The directory scan *)

(** The test of line 381 compares the stem with what FOLLOWS the first
    [size stem] characters of the entry. *)
Lemma entry_selected_suffix (stem entry : string) :
  entry_selected (Str.size stem + 11 + 7) stem entry = true <->
  Str.size entry = (Str.size stem + 18)%nat /\
  Str.substr_from entry (Str.size stem) = stem.
Proof.
  unfold entry_selected. rewrite andb_true_iff, Nat.eqb_eq, String.eqb_eq. split.
  - intros [H1 H2]. split; [lia | exact H2].
  - intros [H1 H2]. split; [lia | exact H2].
Qed.

(** So an entry is listed only for a stem of exactly 18 characters. *)
Lemma entry_selected_stem_18 (stem entry : string) :
  entry_selected (Str.size stem + 11 + 7) stem entry = true -> Str.size stem = 18%nat.
Proof.
  intros [H1 H2]%entry_selected_suffix.
  apply (f_equal String.length) in H2. rewrite length_substr_from in H2.
  unfold Str.size in *. lia.
Qed.

(** An entry of the rotated form, the stem followed by 18 characters that
    start with an underscore, is not listed when the stem does not start
    with an underscore itself. *)
Lemma entry_selected_rotated (stem rest : string) :
  String.length rest = 18%nat ->
  Str.starts_with rest "_" = true ->
  Str.starts_with stem "_" = false ->
  spec_selected stem (stem +:+ rest) = true /\
  entry_selected (Str.size stem + 11 + 7) stem (stem +:+ rest) = false.
Proof.
  intros Hlen Hus Hstem. split.
  - unfold spec_selected. rewrite prefix_app, str_length_app, Hlen, andb_true_r.
    apply Nat.eqb_eq. cbn. lia.
  - destruct (entry_selected _ _ _) eqn:E; [| reflexivity].
    apply entry_selected_suffix in E as [_ E].
    unfold Str.size in E. rewrite substr_from_app in E. congruence.
Qed.

(** C2 at a directory that holds a file of the rotated form for the base
    "/var/log/app": the entry has the length and the prefix the
    specification asks for, the test of the code refuses it, and the scan
    ends with an empty list. *)
Theorem MakeFileList_misses_rotated_name :
  let st := set_mFileNameBase "/var/log/app" (initial fs_sample "/home/u" clock_2024) in
  opendir "/var/log" st = Some ["."; ".."; "app_2024-01-01_120000"] /\
  spec_selected "app" "app_2024-01-01_120000" = true /\
  entry_selected (3 + 11 + 7) "app" "app_2024-01-01_120000" = false /\
  MakeFileList st = (true, set_mLogFileList [] st).
Proof.
  cbv zeta. split; [vm_compute; reflexivity |]. split; [vm_compute; reflexivity |].
  split; vm_compute; reflexivity.
Qed.

(** The converse failure: for a stem of 18 characters the code lists an
    entry that ends with the stem and does not start with it. *)
Example entry_selected_suffix_only :
  entry_selected (18 + 11 + 7) "application_server" "XXXXXXXXXXXXXXXXXXapplication_server" = true /\
  spec_selected "application_server" "XXXXXXXXXXXXXXXXXXapplication_server" = false.
Proof. split; vm_compute; reflexivity. Qed.

(** C9 at a log directory that can be entered and not read: [chdir] to it
    succeeds, [opendir] fails, and the scan returns without the [chdir]
    back of line 396: the working directory is the log directory. *)
Theorem MakeFileList_leaves_cwd :
  let st := set_mFileNameBase "/var/log/app" (initial fs_unreadable "/home/u" clock_2024) in
  w_cwd st = "/home/u" /\
  FS.can_chdir (w_fs st) "/var/log" = true /\
  opendir "/var/log" st = None /\
  MakeFileList st = (true, emit (EvStderr EmptyString) (set_mLogFileList [] (set_w_cwd "/var/log" st))) /\
  w_cwd (snd (MakeFileList st)) = "/var/log".
Proof.
  cbv zeta. do 4 (split; [vm_compute; reflexivity |]). vm_compute; reflexivity.
Qed.

(** C1 at a file logger as its constructor leaves it, buffering on: the
    line of a message under the threshold is written to the active file
    at once, and the buffer stays empty. *)
Theorem log_writes_through_when_buffering :
  let st' := log eLOG_HIGH "hello" st_file in
  let line := log_line "2024-01-05 12:34:03.007" eLOG_HIGH "hello" in
  mBuffering st_file = true /\
  mBufferList st_file = [] /\
  m_logFile st_file = Some (mk_ofstream "/var/log/app_20240105_123400.log" true) /\
  mBufferList st' = [] /\
  w_trace st' = w_trace st_file ++ [EvWrite "/var/log/app_20240105_123400.log" line] /\
  (exists before,
      FS.lookup_file (w_fs st_file) "/var/log/app_20240105_123400.log" = Some before /\
      FS.lookup_file (w_fs st') "/var/log/app_20240105_123400.log" = Some (before +:+ line)).
Proof.
  cbv zeta. do 5 (split; [vm_compute; reflexivity |]).
  eexists. split; vm_compute; reflexivity.
Qed.

(** No call of [log] puts anything in the buffer, whatever the buffering
    flag, and a message under the threshold goes to the outputs at once. *)
Lemma log_never_buffers (s : Severity) (input : string) (st : state) :
  mBufferList (log s input st) = mBufferList st /\
  (s <= m_leastSeverity st ->
   recorded (m_outString st +:+ log_line (fst (TimeStamp true st)) s input) st
            (log s input st)).
Proof.
  split.
  - unfold log. destruct (s <=? m_leastSeverity st); [| reflexivity].
    unfold TimeStamp, read_clock. cbv zeta.
    match goal with
    | |- mBufferList (writeLog ?x) = _ =>
        destruct (frame_writeLog x) as (_ & _ & _ & _ & _ & _ & H & _); rewrite H
    end.
    reflexivity.
  - intros Hle. unfold log. apply Z.leb_le in Hle. rewrite Hle.
    unfold TimeStamp, read_clock. cbn [fst snd].
    match goal with
    | |- recorded _ _ (writeLog ?x) => apply (writeLog_recorded x)
    end.
Qed.

(** ** Positions and paths *)

Lemma find_last_of_from_bound (s : string) (c : ascii) (i found : Z) :
  -1 <= found < i ->
  -1 <= Str.find_last_of_from s c i found < i + Z.of_nat (String.length s).
Proof.
  revert i found; induction s as [|a s IH]; intros i found H; cbn [Str.find_last_of_from String.length].
  - lia.
  - specialize (IH (i + 1) (if Ascii.eqb a c then i else found)).
    destruct (Ascii.eqb a c); lia.
Qed.

(** [find_last_of] is -1 or a position of the string, so that the
    [substr(0, idx)] and [substr(idx + 1)] of [MakeFileList] are in range. *)
Lemma find_last_of_bound (s : string) (c : ascii) :
  -1 <= Str.find_last_of s c < Z.of_nat (String.length s).
Proof.
  unfold Str.find_last_of.
  pose proof (find_last_of_from_bound s c 0 (-1) ltac:(lia)). lia.
Qed.

Lemma MakeFileList_substr_in_range (s : string) :
  (Z.to_nat (Str.find_last_of s "/" + 1) <= String.length s)%nat /\
  (Z.to_nat (Str.find_last_of s "/") <= String.length s)%nat.
Proof. pose proof (find_last_of_bound s "/"). lia. Qed.

(** The test of line 381 takes the suffix of an entry only when the entry
    is at least as long as the stem. *)
Lemma entry_selected_in_range (stem entry : string) :
  (Str.size entry =? Str.size stem + 11 + 7)%nat = true ->
  (Str.size stem <= Str.size entry)%nat.
Proof. intros H%Nat.eqb_eq. lia. Qed.

(** ** The working directory across a scan *)

Lemma scan_entries_keeps (logDir : string) (n : nat) (stem : string)
    (entries : list string) (st : state) :
  w_cwd (scan_entries logDir n stem entries st) = w_cwd st /\
  w_fs (scan_entries logDir n stem entries st) = w_fs st /\
  w_trace (scan_entries logDir n stem entries st) = w_trace st.
Proof.
  unfold scan_entries. revert st; induction entries as [|e entries IH]; intros st.
  - now cbn.
  - cbn [fold_left]. destruct (entry_selected n stem e).
    + destruct (IH (set_mLogFileList (mLogFileList st ++ [logDir +:+ "/" +:+ e]) st))
        as (-> & -> & ->). now cbn.
    + apply IH.
Qed.

Lemma chdir_back (dir : string) (st : state) :
  Str.starts_with dir "/" = true ->
  FS.can_chdir (w_fs st) dir = true ->
  w_cwd (chdir dir st) = dir.
Proof.
  intros Habs Hok. unfold chdir, FS.resolve. rewrite Habs, Hok.
  destruct dir; [discriminate Habs | reflexivity].
Qed.

Lemma chdir_keeps_fs (dir : string) (st : state) :
  w_fs (chdir dir st) = w_fs st /\ w_trace (chdir dir st) = w_trace st.
Proof.
  unfold chdir. destruct (String.eqb dir EmptyString); [now split |].
  destruct (FS.can_chdir _ _); now split.
Qed.

(** From an absolute working directory that can be entered again, the scan
    ends in the directory it started in on every path but the one where
    [opendir] fails, the path that reports on the error stream with
    [perror]. *)
Lemma MakeFileList_cwd_cases (st : state) :
  Str.starts_with (w_cwd st) "/" = true ->
  FS.can_chdir (w_fs st) (w_cwd st) = true ->
  w_cwd (snd (MakeFileList st)) = w_cwd st \/
  exists evs, w_trace (snd (MakeFileList st)) = evs ++ [EvStderr EmptyString].
Proof.
  intros Habs Hok. unfold MakeFileList.
  destruct (String.eqb (mFileNameBase st) EmptyString); [now left |].
  unfold getcwd. destruct (_ <=? _)%nat; [| now left].
  cbv zeta.
  match goal with
  | |- context [opendir ?d ?s] => destruct (opendir d s) as [entries|] eqn:Ho
  end.
  - left. cbn [snd].
    match goal with
    | |- w_cwd (chdir _ (scan_entries ?a ?b ?c ?d ?s)) = _ =>
        destruct (scan_entries_keeps a b c d s) as (_ & Hfs & _)
    end.
    apply chdir_back; [exact Habs |].
    rewrite Hfs. cbn [w_fs set_mLogFileList].
    now rewrite (proj1 (chdir_keeps_fs _ st)).
  - right. cbn [snd]. eexists. reflexivity.
Qed.

(** ** The stream [m_outString] between calls *)

Lemma log_out_empty (s : Severity) (input : string) (st : state) :
  m_outString st = EmptyString -> m_outString (log s input st) = EmptyString.
Proof.
  intros H. unfold log. destruct (s <=? m_leastSeverity st); [| exact H].
  unfold TimeStamp, read_clock. cbv zeta.
  match goal with |- m_outString (writeLog ?x) = _ => apply (writeLog_out_empty x) end.
Qed.

Lemma setSeverity_out_empty (s : Severity) (st : state) :
  m_outString (snd (setSeverity s st)) = EmptyString.
Proof.
  unfold setSeverity, TimeStamp, read_clock.
  destruct (_ || _); cbn [snd];
    match goal with |- m_outString (writeLog ?x) = _ => apply (writeLog_out_empty x) end.
Qed.

Lemma Logger_console_out_empty (severity : Severity) (st : state) :
  m_outString (Logger_console severity st) = EmptyString.
Proof. unfold Logger_console. apply writeLog_out_empty. Qed.

Lemma drain_out_empty (st : state) :
  m_outString st = EmptyString ->
  m_outString (drain (mBufferList st) st) = EmptyString.
Proof. intros H. now destruct (drain_spec (mBufferList st) st H eq_refl) as (_ & E & _). Qed.

(** ** A drain to a file *)

(** The file logger with two buffered lines: both reach the active file in
    order, which grows by exactly their text, and the buffer is empty. *)
Example WriteToFile_two_lines_to_file :
  let st := set_mBufferList ["L1"; "L2"] st_file in
  let active := "/var/log/app_20240105_123400.log" in
  exists st' before,
    WriteToFile st = Done st' /\
    mBufferList st' = [] /\
    w_trace st' = w_trace st ++ [EvWrite active "L1"; EvWrite active "L2"] /\
    FS.lookup_file (w_fs st) active = Some before /\
    FS.lookup_file (w_fs st') active = Some (before +:+ "L1" +:+ "L2").
Proof.
  cbv zeta. eexists. eexists.
  split; [vm_compute; reflexivity |].
  split; [vm_compute; reflexivity |].
  split; [vm_compute; reflexivity |].
  split; vm_compute; reflexivity.
Qed.

(** ** A drain that neither rotates nor evicts *)

Lemma lookup_file_append_same (fs : fsys) (p text c : string) :
  FS.lookup_file fs p = Some c ->
  FS.lookup_file (FS.append_file fs p text) p = Some (c +:+ text).
Proof.
  unfold FS.lookup_file, FS.append_file.
  destruct (fs !! FS.dirname p) as [d|] eqn:Hd; [| discriminate].
  rewrite lookup_insert_eq. cbn [d_search d_files with_files].
  destruct (d_search d); [| discriminate].
  rewrite entry_lookup_append. intros ->. cbn. now rewrite String.eqb_refl.
Qed.

Lemma write_out_open (st : state) (f : ofstream) :
  m_logFile st = Some f ->
  of_is_open f = true ->
  w_fs (write_out st) = FS.append_file (w_fs st) (of_path f) (m_outString st).
Proof.
  unfold write_out. open_state st g u. intros -> Ho.
  destruct f as [p o]; cbn in *; subst o. now destruct u.
Qed.

(** One turn on an open stream whose file stays under the size limit, the
    list being within the retention count: the line is appended to the
    active file and the logger is as before otherwise. *)
Lemma drain_turn_quiet (line : string) (rest : list string) (st : state)
    (f : ofstream) (c : string) :
  m_logFile st = Some f ->
  of_is_open f = true ->
  of_path f = FS.resolve (w_cwd st) (m_logFileName st) ->
  FS.lookup_file (w_fs st) (of_path f) = Some c ->
  m_outString st = EmptyString ->
  (N.of_nat (String.length c + String.length line) < mMaxFileSize st)%N ->
  (N.of_nat (length (mLogFileList st)) <= mMaxFileNumber st)%N ->
  let st' := drain_turn line rest st in
  m_logFile st' = Some f /\
  m_logFileName st' = m_logFileName st /\
  w_cwd st' = w_cwd st /\
  FS.lookup_file (w_fs st') (of_path f) = Some (c +:+ line) /\
  m_outString st' = EmptyString /\
  mMaxFileSize st' = mMaxFileSize st /\
  mMaxFileNumber st' = mMaxFileNumber st /\
  mLogFileList st' = mLogFileList st.
Proof.
  intros Hf Ho Hp Hc Hout Hsize Hcount st'. subst st'. unfold drain_turn.
  set (s1 := out_append line (set_mBufferList rest st)).
  assert (m_outString s1 = line) as Hs1 by (subst s1; cbn; now rewrite Hout).
  destruct (write_out_keeps s1) as (Kf & Kn & Kl & _ & Ke).
  destruct (frame_write_out s1) as (_ & _ & _ & Ks & Km & _ & _ & _ & Kc & _).
  change (m_logFile s1) with (m_logFile st) in Kf.
  change (m_logFileName s1) with (m_logFileName st) in Kn.
  change (mLogFileList s1) with (mLogFileList st) in Kl.
  change (mMaxFileSize s1) with (mMaxFileSize st) in Ks.
  change (mMaxFileNumber s1) with (mMaxFileNumber st) in Km.
  change (w_cwd s1) with (w_cwd st) in Kc.
  assert (FS.lookup_file (w_fs (write_out s1)) (of_path f) = Some (c +:+ line)) as Hl.
  { rewrite (write_out_open s1 f Hf Ho), Hs1.
    now apply lookup_file_append_same. }
  assert (rotate_if_full (write_out s1) = write_out s1) as Hrot.
  { unfold rotate_if_full. rewrite Kf, Hf.
    assert ((mMaxFileSize (write_out s1) <=? Size (write_out s1))%N = false) as ->;
      [| reflexivity].
    apply N.leb_gt. unfold Size. rewrite Kc, Kn, <- Hp, Hl, Ks, str_length_app. exact Hsize. }
  unfold writeLog, EnforceLogFileLimits. rewrite Hrot.
  rewrite evict_excess_stop by (rewrite Kl, Km; exact Hcount).
  cbn [m_logFile m_logFileName w_cwd w_fs m_outString mMaxFileSize mMaxFileNumber
       mLogFileList set_mLogFileList].
  rewrite Kf, Kn, Kc, Ks, Km, Kl, Ke, Hl. repeat split; assumption.
Qed.

(** With room for all the lines in the active file, a stream is open at
    every turn, so every line of the buffer is written to the file. *)
Lemma open_throughout_quiet (lines : list string) (st : state) (f : ofstream) (c : string) :
  m_logFile st = Some f ->
  of_is_open f = true ->
  of_path f = FS.resolve (w_cwd st) (m_logFileName st) ->
  FS.lookup_file (w_fs st) (of_path f) = Some c ->
  m_outString st = EmptyString ->
  (N.of_nat (String.length c + sum_list (String.length <$> lines)) < mMaxFileSize st)%N ->
  (N.of_nat (length (mLogFileList st)) <= mMaxFileNumber st)%N ->
  open_throughout lines st = true /\
  FS.lookup_file (w_fs (drain lines st)) (of_path f) = Some (c +:+ Str.concat lines).
Proof.
  revert st c; induction lines as [|line rest IH]; intros st c Hf Ho Hp Hc Hout Hsize Hcount.
  - cbn. now rewrite str_app_nil_r.
  - cbn [open_throughout drain].
    change (sum_list (String.length <$> line :: rest))
      with (String.length line + sum_list (String.length <$> rest))%nat in Hsize.
    assert (file_open st = true) as -> by (unfold file_open; now rewrite Hf).
    destruct (drain_turn_quiet line rest st f c Hf Ho Hp Hc Hout)
      as (Tf & Tn & Tc & Tl & To & Ts & Tm & Tk); [lia | exact Hcount |].
    destruct (IH (drain_turn line rest st) (c +:+ line)) as [Io Il]; try assumption.
    + now rewrite Tc, Tn.
    + rewrite Ts, str_length_app. lia.
    + now rewrite Tm, Tk.
    + split; [exact Io |]. rewrite Il. cbn [Str.concat foldr]. now rewrite str_app_assoc.
Qed.

(** ** The theorems at sample states *)

Lemma valid_clock_2024 (n : nat) : valid_tm (clock_2024 n).
Proof.
  unfold valid_tm, clock_2024; cbn.
  pose proof (Nat.mod_upper_bound n 60). lia.
Qed.

(** [AddNewFileName_compact_form] at the base "/var/log/app" on 2024-01-05,
    for a program that reads the time first and for one that reads the
    date first. *)
Lemma AddNewFileName_compact_form_witness :
  valid_tm (w_clock st_base (w_tick st_base)) /\
  valid_tm (w_clock st_base (S (w_tick st_base))) /\
  m_logFileName (AddNewFileName st_base) = "/var/log/app_20240105_123400.log" /\
  compact_name (mFileNameBase st_base) (m_logFileName (AddNewFileName st_base)) = true /\
  m_logFileName (AddNewFileName st_base_date_first) = "/var/log/app_20240105_123401.log" /\
  compact_name (mFileNameBase st_base_date_first)
    (m_logFileName (AddNewFileName st_base_date_first)) = true.
Proof.
  split; [apply valid_clock_2024 |]. split; [apply valid_clock_2024 |].
  destruct (AddNewFileName_compact_form st_base (valid_clock_2024 _) (valid_clock_2024 _))
    as (_ & _ & E & _ & C & _).
  destruct (AddNewFileName_compact_form st_base_date_first
              (valid_clock_2024 _) (valid_clock_2024 _))
    as (_ & _ & E' & _ & C' & _).
  split; [rewrite E; vm_compute; reflexivity |].
  split; [rewrite E; exact C |].
  split; [rewrite E'; vm_compute; reflexivity |].
  rewrite E'; exact C'.
Defined.

(** [log_threshold_filter] at the console logger: HIGH under DEBUG. *)
Lemma log_threshold_filter_witness :
  has_sink st_console = true /\
  eLOG_HIGH <= m_leastSeverity st_console /\
  stdout_texts (events_since st_console (log eLOG_HIGH "hello" st_console))
  = ["2024-01-05 12:34:01.007 [HIGH_] hello" +:+ Str.endl] /\
  file_texts (events_since st_console (log eLOG_HIGH "hello" st_console)) = [].
Proof.
  split; [vm_compute; reflexivity |].
  assert (eLOG_HIGH <= m_leastSeverity st_console) as H by (vm_compute; discriminate).
  split; [exact H |].
  destruct (log_threshold_filter eLOG_HIGH "hello" st_console) as (_ & T & _).
  destruct (T H) as (_ & -> & ->).
  split; vm_compute; reflexivity.
Defined.



(** [Get_guarded_in_WriteToFile] at the same state. *)
Lemma Get_guarded_in_WriteToFile_witness :
  mBufferList st_two_lines <> [] /\
  exists line rest,
    mBufferList st_two_lines = line :: rest /\
    Get st_two_lines = Done (line, set_mBufferList rest st_two_lines).
Proof.
  assert (mBufferList st_two_lines <> []) as H by (vm_compute; discriminate).
  split; [exact H |].
  destruct (Get_guarded_in_WriteToFile st_two_lines H) as ((line & rest & E & G & _) & _).
  exists line, rest. split; assumption.
Defined.



(** * Further properties of the code *)

(** ** Time stamps *)

Lemma digits_value_pad3 (n : Z) : 0 <= n <= 999 -> digits_value (Fmt.pad3 n) = n.
Proof.
  intros Hn. unfold digits_value, Fmt.pad3, Fmt.pad2.
  cbn [String.list_ascii_of_string fold_left]. rewrite !digit_numeral.
  rewrite (Z.mod_small (n / 100) 10)
    by (split; [apply Z.div_pos | apply Z.div_lt_upper_bound]; lia).
  replace (n / 100) with (n / 10 / 10) by (rewrite Z.div_div; [reflexivity | lia | lia]).
  pose proof (Z.div_mod n 10 ltac:(lia)) as H1.
  pose proof (Z.div_mod (n / 10) 10 ltac:(lia)) as H2.
  lia.
Qed.

Lemma strftime_stamp (t : tm) :
  Fmt.strftime "%F %T" t
  = Fmt.year4 (1900 + tm_year t) +:+ "-" +:+ Fmt.pad2 (tm_mon t + 1) +:+ "-"
      +:+ Fmt.pad2 (tm_mday t) +:+ " " +:+ Fmt.pad2 (tm_hour t) +:+ ":"
      +:+ Fmt.pad2 (tm_min t) +:+ ":" +:+ Fmt.pad2 (tm_sec t).
Proof.
  cbv [Fmt.strftime Fmt.directive Fmt.dash Fmt.colon Ascii.eqb Bool.eqb].
  now rewrite ?str_app_assoc, ?str_app_nil_r.
Qed.

Lemma strftime_dashed_date (t : tm) :
  Fmt.strftime "%F" t
  = Fmt.year4 (1900 + tm_year t) +:+ "-" +:+ Fmt.pad2 (tm_mon t + 1) +:+ "-"
      +:+ Fmt.pad2 (tm_mday t).
Proof.
  cbv [Fmt.strftime Fmt.directive Fmt.dash Fmt.colon Ascii.eqb Bool.eqb].
  now rewrite ?str_app_assoc, ?str_app_nil_r.
Qed.

Lemma strftime_colon_time (t : tm) :
  Fmt.strftime "%T" t
  = Fmt.pad2 (tm_hour t) +:+ ":" +:+ Fmt.pad2 (tm_min t) +:+ ":" +:+ Fmt.pad2 (tm_sec t).
Proof.
  cbv [Fmt.strftime Fmt.directive Fmt.dash Fmt.colon Ascii.eqb Bool.eqb].
  now rewrite ?str_app_assoc, ?str_app_nil_r.
Qed.

Lemma strftime_compact_stamp (t : tm) :
  Fmt.strftime "%Y%m%d %H%M%S" t
  = Fmt.year4 (1900 + tm_year t) +:+ Fmt.pad2 (tm_mon t + 1) +:+ Fmt.pad2 (tm_mday t)
      +:+ " " +:+ Fmt.pad2 (tm_hour t) +:+ Fmt.pad2 (tm_min t) +:+ Fmt.pad2 (tm_sec t).
Proof.
  cbv [Fmt.strftime Fmt.directive Fmt.dash Fmt.colon Ascii.eqb Bool.eqb].
  now rewrite ?str_app_assoc, ?str_app_nil_r.
Qed.

(** The shape of a text made of digit groups and separators. *)
Ltac shape_digits :=
  cbv [Fmt.year4 Fmt.pad2 Fmt.pad3 Fmt.msec_suffix String.append];
  name_digits;
  cbn [matches_pattern String.length];
  repeat match goal with H : Fmt.is_digit _ = true |- _ => rewrite ?H; clear H end;
  reflexivity.

(** X1.  For a reading of the clock that [localtime] can give,
    [TimeStamp()] is the 23 characters "YYYY-MM-DD HH:MM:SS.mmm" and
    [TimeStamp(false)] the 19 characters "YYYYMMDD HHMMSS.mmm"; the three
    last digits write the milliseconds of [tv_nsec], and the call takes one
    reading of the clock and changes nothing else. *)
Theorem TimeStamp_form (useSep : bool) (st : state) :
  valid_tm (w_clock st (w_tick st)) ->
  let t := w_clock st (w_tick st) in
  let r := TimeStamp useSep st in
  matches_pattern (if useSep then "9999-99-99 99:99:99.999" else "99999999 999999.999") (fst r)
  = true /\
  String.length (fst r) = (if useSep then 23 else 19)%nat /\
  snd r = set_w_tick (S (w_tick st)) st /\
  fst r = Fmt.strftime (if useSep then "%F %T" else "%Y%m%d %H%M%S") t
          +:+ "." +:+ Fmt.pad3 ((tv_nsec t / 1000000) mod 1000) /\
  digits_value (Fmt.pad3 ((tv_nsec t / 1000000) mod 1000)) = tv_nsec t / 1000000.
Proof.
  intros (_ & _ & _ & _ & _ & _ & Hns) t r. subst r t.
  unfold TimeStamp, read_clock. cbn [fst snd].
  split; [| split; [| split; [reflexivity |]]].
  - destruct useSep.
    + rewrite strftime_stamp. shape_digits.
    + rewrite strftime_compact_stamp. shape_digits.
  - destruct useSep.
    + rewrite strftime_stamp. shape_digits.
    + rewrite strftime_compact_stamp. shape_digits.
  - split; [reflexivity |].
    assert (0 <= tv_nsec (w_clock st (w_tick st)) / 1000000 < 1000) as Hms
      by (split; [apply Z.div_pos | apply Z.div_lt_upper_bound]; lia).
    rewrite Z.mod_small by lia. apply digits_value_pad3. lia.
Qed.

Lemma TimeStamp_form_witness :
  valid_tm (w_clock st_console (w_tick st_console)) /\
  fst (TimeStamp true st_console) = "2024-01-05 12:34:01.007".
Proof.
  split; [apply valid_clock_2024 |].
  destruct (TimeStamp_form true st_console (valid_clock_2024 _)) as (_ & _ & _ & E & _).
  rewrite E. vm_compute. reflexivity.
Defined.

(** X2.  For a reading of the clock that [localtime] can give,
    [GetDateStr] is "YYYY-MM-DD" with the separator and "YYYYMMDD" without,
    [GetTimeStr] is "HH:MM:SS" or "HHMMSS" followed by ".mmm" when the
    milliseconds are asked for; the digits write the fields of the reading
    (the month counted from 1), and each call takes one reading. *)
Theorem GetDateStr_GetTimeStr_form (useSep useMsec : bool) (st : state) :
  valid_tm (w_clock st (w_tick st)) ->
  let t := w_clock st (w_tick st) in
  fst (GetDateStr useSep st)
  = Fmt.year4 (1900 + tm_year t) +:+ (if useSep then "-" else EmptyString)
      +:+ Fmt.pad2 (tm_mon t + 1) +:+ (if useSep then "-" else EmptyString)
      +:+ Fmt.pad2 (tm_mday t) /\
  matches_pattern (if useSep then "9999-99-99" else "99999999") (fst (GetDateStr useSep st))
  = true /\
  matches_pattern
    ((if useSep then "99:99:99" else "999999") +:+ (if useMsec then ".999" else EmptyString))
    (fst (GetTimeStr useSep useMsec st)) = true /\
  digits_value (Fmt.year4 (1900 + tm_year t)) = 1900 + tm_year t /\
  digits_value (Fmt.pad2 (tm_mon t + 1)) = tm_mon t + 1 /\
  digits_value (Fmt.pad2 (tm_mday t)) = tm_mday t /\
  w_tick (snd (GetDateStr useSep st)) = S (w_tick st) /\
  w_tick (snd (GetTimeStr useSep useMsec st)) = S (w_tick st).
Proof.
  intros (Hy & Hmo & Hd & _) t. subst t.
  unfold GetDateStr, GetTimeStr, read_clock. cbn [fst snd].
  split; [| split; [| split]].
  - destruct useSep.
    + apply strftime_dashed_date.
    + rewrite strftime_compact_date. now rewrite ?str_app_nil_r.
  - destruct useSep.
    + rewrite strftime_dashed_date. shape_digits.
    + rewrite strftime_compact_date. shape_digits.
  - destruct useSep, useMsec.
    + rewrite strftime_colon_time. shape_digits.
    + rewrite strftime_colon_time. shape_digits.
    + rewrite strftime_compact_time. shape_digits.
    + rewrite strftime_compact_time. shape_digits.
  - split; [apply digits_value_year4; lia |].
    split; [apply digits_value_pad2; lia |].
    split; [apply digits_value_pad2; lia |].
    split; reflexivity.
Qed.

Lemma GetDateStr_GetTimeStr_form_witness :
  valid_tm (w_clock st_console (w_tick st_console)) /\
  fst (GetDateStr true st_console) = "2024-01-05" /\
  fst (GetTimeStr false false st_console) = "123401".
Proof.
  split; [apply valid_clock_2024 |].
  destruct (GetDateStr_GetTimeStr_form true false st_console (valid_clock_2024 _))
    as (E & _).
  split; [rewrite E |]; vm_compute; reflexivity.
Defined.

(** ** Severity tags and the line of a message *)

Lemma severity_in_range (s : Severity) :
  eLOG_CRIT <= s <= eLOG_LAST ->
  s = eLOG_CRIT \/ s = eLOG_HIGH \/ s = eLOG_MED \/ s = eLOG_LOW \/ s = eLOG_INFO
  \/ s = eLOG_DEBUG.
Proof. unfold eLOG_CRIT, eLOG_LAST, eLOG_HIGH, eLOG_MED, eLOG_LOW, eLOG_INFO, eLOG_DEBUG. lia. Qed.

(** X3.  [severityToString] gives every severity of the range its tag of
    the table, five characters long (the width 4 set on the stream neither
    pads nor cuts it), different tags for different severities, and the
    empty string outside the range. *)
Theorem severityToString_tags (s : Severity) :
  (eLOG_CRIT <= s <= eLOG_LAST ->
     severityToString s = severity_name s /\
     String.length (severityToString s) = 5%nat /\
     s_severityString !! s = Some (severityToString s)) /\
  (s < eLOG_CRIT \/ eLOG_LAST < s -> severityToString s = EmptyString) /\
  (forall s', eLOG_CRIT <= s <= eLOG_LAST -> eLOG_CRIT <= s' <= eLOG_LAST ->
              severityToString s = severityToString s' -> s = s').
Proof.
  split; [| split].
  - intros H. destruct (severity_in_range s H) as [-> | [-> | [-> | [-> | [-> | ->]]]]];
      (split; [| split]); vm_compute; reflexivity.
  - intros H. unfold severityToString.
    assert ((eLOG_CRIT <=? s) && (s <=? eLOG_LAST) = false) as ->; [| reflexivity].
    apply andb_false_iff. destruct H; [left; now apply Z.leb_gt | right; now apply Z.leb_gt].
  - intros s' H H'.
    destruct (severity_in_range s H) as [-> | [-> | [-> | [-> | [-> | ->]]]]];
      destruct (severity_in_range s' H') as [-> | [-> | [-> | [-> | [-> | ->]]]]];
      intros E; try reflexivity; vm_compute in E; discriminate E.
Qed.

Lemma severityToString_tags_witness :
  severityToString eLOG_HIGH = "HIGH_" /\ severityToString 99 = EmptyString.
Proof.
  split.
  - destruct (proj1 (severityToString_tags eLOG_HIGH)) as (E & _).
    { split; vm_compute; discriminate. }
    rewrite E. vm_compute. reflexivity.
  - apply (proj1 (proj2 (severityToString_tags 99))). right. vm_compute. reflexivity.
Defined.

Lemma TimeStamp_length (st : state) : String.length (fst (TimeStamp true st)) = 23%nat.
Proof.
  unfold TimeStamp, read_clock. cbn [fst]. rewrite strftime_stamp. shape_digits.
Qed.

Lemma severity_tag_length (s : Severity) :
  eLOG_CRIT <= s <= eLOG_LAST ->
  severityToString s = severity_name s /\ String.length (severity_name s) = 5%nat.
Proof.
  intros H. destruct (severity_in_range s H) as [-> | [-> | [-> | [-> | [-> | ->]]]]];
    split; vm_compute; reflexivity.
Qed.

(** X4.  The line [log] records for a severity of the range, at a reading
    of the clock that [localtime] can give, is the 23 characters of the
    time stamp, a space, the tag in brackets, a space, the message and a
    line feed: 32 characters before the message, one after. *)
Theorem log_line_layout (s : Severity) (input : string) (st : state) :
  valid_tm (w_clock st (w_tick st)) ->
  eLOG_CRIT <= s <= eLOG_LAST ->
  let ts := fst (TimeStamp true st) in
  let line := log_line ts s input in
  String.length line = (33 + String.length input)%nat /\
  String.substring 0 23 line = ts /\
  String.substring 23 9 line = " [" +:+ severity_name s +:+ "] " /\
  String.substring 32 (String.length input) line = input /\
  String.substring (32 + String.length input) 1 line = Str.endl.
Proof.
  intros Hv Hs ts line.
  pose proof (TimeStamp_length st) as Hlen. fold ts in Hlen.
  destruct (severity_tag_length s Hs) as (Htag & Htl).
  set (mid := " [" +:+ severity_name s +:+ "] ").
  assert (String.length mid = 9%nat) as H9
    by (subst mid; rewrite !str_length_app, Htl; reflexivity).
  assert (line = ts +:+ mid +:+ input +:+ Str.endl) as E1.
  { subst line mid. unfold log_line. rewrite Htag. now rewrite ?str_app_assoc. }
  assert (line = (ts +:+ mid) +:+ input +:+ Str.endl) as E2
    by (rewrite E1; now rewrite ?str_app_assoc).
  assert (line = ((ts +:+ mid) +:+ input) +:+ Str.endl) as E3
    by (rewrite E1; now rewrite ?str_app_assoc).
  assert (String.length (ts +:+ mid) = 32%nat) as H32
    by (rewrite str_length_app, Hlen, H9; reflexivity).
  split.
  { rewrite E3, !str_length_app, Hlen, H9. cbn. lia. }
  split.
  { rewrite E1, <- Hlen. apply substring_app_l. }
  split.
  { rewrite E1, <- Hlen, substring_app_r, <- H9. apply substring_app_l. }
  split.
  { rewrite E2, <- H32, substring_app_r. apply substring_app_l. }
  rewrite E3.
  replace (32 + String.length input)%nat with (String.length ((ts +:+ mid) +:+ input))
    by (rewrite str_length_app, H32; reflexivity).
  rewrite substring_app_r. reflexivity.
Qed.

Lemma log_line_layout_witness :
  valid_tm (w_clock st_console (w_tick st_console)) /\
  eLOG_CRIT <= eLOG_HIGH <= eLOG_LAST /\
  String.length (log_line (fst (TimeStamp true st_console)) eLOG_HIGH "hello") = 38%nat.
Proof.
  split; [apply valid_clock_2024 |].
  assert (eLOG_CRIT <= eLOG_HIGH <= eLOG_LAST) as H by (split; vm_compute; discriminate).
  split; [exact H |].
  exact (proj1 (log_line_layout eLOG_HIGH "hello" st_console (valid_clock_2024 _) H)).
Defined.

(** ** More on the directory scan *)

Lemma scan_entries_list (logDir : string) (n : nat) (stem : string)
    (entries : list string) (st : state) :
  mLogFileList (scan_entries logDir n stem entries st)
  = mLogFileList st
    ++ ((fun e => logDir +:+ "/" +:+ e) <$> filter (fun e => entry_selected n stem e = true) entries).
Proof.
  unfold scan_entries. revert st; induction entries as [|e entries IH]; intros st.
  - cbn. now rewrite app_nil_r.
  - cbn [fold_left]. rewrite filter_cons.
    destruct (entry_selected n stem e) eqn:E.
    + rewrite IH. cbn [mLogFileList set_mLogFileList].
      rewrite decide_True by reflexivity. cbn. now rewrite <- app_assoc.
    + rewrite IH. rewrite decide_False by discriminate. reflexivity.
Qed.

Lemma chdir_keeps_list (dir : string) (st : state) :
  mLogFileList (chdir dir st) = mLogFileList st.
Proof.
  unfold chdir. destruct (String.eqb dir EmptyString); [reflexivity |].
  destruct (FS.can_chdir _ _); reflexivity.
Qed.

(** The scan with its parts named. *)
Lemma MakeFileList_unfold (st : state) :
  mFileNameBase st <> EmptyString ->
  (String.length (w_cwd st) + 1 <= 132)%nat ->
  let logDir := scan_dir (w_cwd st) st in
  let st2 := set_mLogFileList [] (chdir logDir st) in
  MakeFileList st
  = match opendir logDir st2 with
    | Some entries =>
        (true,
         chdir (w_cwd st)
           (scan_entries logDir (Str.size (scan_stem st) + 11 + 7) (scan_stem st) entries st2))
    | None => (true, emit (EvStderr EmptyString) st2)
    end.
Proof.
  intros Hbase Hcwd logDir st2. unfold MakeFileList.
  apply String.eqb_neq in Hbase. rewrite Hbase.
  unfold getcwd. apply Nat.leb_le in Hcwd. rewrite Hcwd. reflexivity.
Qed.

Lemma MakeFileList_list (st : state) :
  mFileNameBase st <> EmptyString ->
  (String.length (w_cwd st) + 1 <= 132)%nat ->
  let logDir := scan_dir (w_cwd st) st in
  mLogFileList (snd (MakeFileList st))
  = match opendir logDir (set_mLogFileList [] (chdir logDir st)) with
    | Some entries =>
        (fun e => logDir +:+ "/" +:+ e)
          <$> filter (fun e => entry_selected (Str.size (scan_stem st) + 11 + 7)
                                 (scan_stem st) e = true) entries
    | None => []
    end.
Proof.
  intros Hbase Hcwd logDir.
  rewrite (MakeFileList_unfold st Hbase Hcwd). fold logDir.
  destruct (opendir logDir _) as [entries|]; cbn [snd]; [| reflexivity].
  rewrite chdir_keeps_list, scan_entries_list. reflexivity.
Qed.

(** X5.  A scan that can read its directory rebuilds the tracked list from
    nothing: the list is then the entries that pass the test of the scan,
    in the order of [readdir], each with the directory and a slash before
    it; whatever the list held before is dropped, also when the directory
    cannot be read. *)
Theorem MakeFileList_rebuilds_list (st : state) :
  mFileNameBase st <> EmptyString ->
  (String.length (w_cwd st) + 1 <= 132)%nat ->
  let logDir := scan_dir (w_cwd st) st in
  let st2 := set_mLogFileList [] (chdir logDir st) in
  mLogFileList (snd (MakeFileList st))
  = match opendir logDir st2 with
    | Some entries =>
        (fun e => logDir +:+ "/" +:+ e)
          <$> filter (fun e => entry_selected (Str.size (scan_stem st) + 11 + 7)
                                 (scan_stem st) e = true) entries
    | None => []
    end.
Proof.
  intros Hbase Hcwd logDir st2.
  rewrite (MakeFileList_unfold st Hbase Hcwd). fold logDir. fold st2.
  destruct (opendir logDir st2) as [entries|]; cbn [snd].
  - rewrite chdir_keeps_list, scan_entries_list. reflexivity.
  - reflexivity.
Qed.

Lemma MakeFileList_rebuilds_list_witness :
  mFileNameBase st_base <> EmptyString /\
  (String.length (w_cwd st_base) + 1 <= 132)%nat /\
  mLogFileList (snd (MakeFileList (set_mLogFileList ["stale"] st_base))) = [].
Proof.
  assert (mFileNameBase (set_mLogFileList ["stale"] st_base) <> EmptyString) as H1
    by (vm_compute; discriminate).
  assert (String.length (w_cwd (set_mLogFileList ["stale"] st_base)) + 1 <= 132)%nat as H2
    by (vm_compute; lia).
  split; [exact H1 |]. split; [exact H2 |].
  rewrite (MakeFileList_rebuilds_list _ H1 H2). vm_compute. reflexivity.
Defined.

(** X6.  Whatever the directory holds, the scan ends with an empty list
    unless the base name without its path has exactly 18 characters: the
    test of line 381 compares the stem with the 18 characters that follow
    the first [size stem] characters of the entry. *)
Theorem MakeFileList_empty_unless_18 (st : state) :
  mFileNameBase st <> EmptyString ->
  (String.length (w_cwd st) + 1 <= 132)%nat ->
  Str.size (scan_stem st) <> 18%nat ->
  mLogFileList (snd (MakeFileList st)) = [].
Proof.
  intros Hbase Hcwd Hstem.
  rewrite (MakeFileList_unfold st Hbase Hcwd).
  destruct (opendir _ _) as [entries|]; cbn [snd]; [| reflexivity].
  rewrite chdir_keeps_list, scan_entries_list. cbn [mLogFileList set_mLogFileList app].
  induction entries as [|e entries IH]; [reflexivity |].
  rewrite filter_cons.
  destruct (entry_selected _ _ e) eqn:E.
  - exfalso. apply Hstem. eapply entry_selected_stem_18. exact E.
  - rewrite decide_False by discriminate. exact IH.
Qed.

Lemma MakeFileList_empty_unless_18_witness :
  mFileNameBase st_base <> EmptyString /\
  (String.length (w_cwd st_base) + 1 <= 132)%nat /\
  Str.size (scan_stem st_base) <> 18%nat /\
  mLogFileList (snd (MakeFileList st_base)) = [].
Proof.
  assert (mFileNameBase st_base <> EmptyString) as H1 by (vm_compute; discriminate).
  assert (String.length (w_cwd st_base) + 1 <= 132)%nat as H2 by (vm_compute; lia).
  assert (Str.size (scan_stem st_base) <> 18%nat) as H3 by (vm_compute; discriminate).
  split; [exact H1 |]. split; [exact H2 |]. split; [exact H3 |].
  exact (MakeFileList_empty_unless_18 st_base H1 H2 H3).
Defined.

(** X7.  [MakeFileList], and [SetBaseName] with it, returns [false] only
    for an empty base name or a working directory whose path does not fit
    the 132 bytes of the buffer; it returns [true] when the directory
    cannot be opened (the [EXIT_FAILURE] of line 392 is a [true]), with an
    empty list and a report on the error stream as the only signs. *)
Theorem MakeFileList_result (st : state) :
  (fst (MakeFileList st) = false <->
   mFileNameBase st = EmptyString \/ (132 < String.length (w_cwd st) + 1)%nat) /\
  (mFileNameBase st <> EmptyString ->
   (String.length (w_cwd st) + 1 <= 132)%nat ->
   opendir (scan_dir (w_cwd st) st)
     (set_mLogFileList [] (chdir (scan_dir (w_cwd st) st) st)) = None ->
   fst (MakeFileList st) = true /\
   mLogFileList (snd (MakeFileList st)) = [] /\
   w_trace (snd (MakeFileList st)) = w_trace st ++ [EvStderr EmptyString]) /\
  (forall baseName, SetBaseName baseName st = MakeFileList (set_mFileNameBase baseName st)).
Proof.
  split; [| split].
  - unfold MakeFileList.
    destruct (String.eqb_spec (mFileNameBase st) EmptyString) as [E|E].
    + cbn [fst]. split; [intros _; now left | reflexivity].
    + unfold getcwd. destruct (Nat.leb_spec (String.length (w_cwd st) + 1) 132) as [L|L].
      * cbv zeta. destruct (opendir _ _); cbn [fst];
          (split; [discriminate | intros [H|H]; [congruence | lia]]).
      * cbn [fst]. split; [intros _; now right | reflexivity].
  - intros Hbase Hcwd Hdir. rewrite (MakeFileList_unfold st Hbase Hcwd), Hdir.
    cbn [fst snd]. split; [reflexivity |]. split; [reflexivity |].
    cbn. now rewrite (proj2 (chdir_keeps_fs _ st)).
  - reflexivity.
Qed.

Lemma MakeFileList_result_witness :
  fst (MakeFileList (set_mFileNameBase "/nowhere/app" (initial fs_sample "/home/u" clock_2024)))
  = true /\
  fst (MakeFileList (initial fs_sample "/home/u" clock_2024)) = false.
Proof.
  split.
  - apply (proj1 (proj2 (MakeFileList_result
                           (set_mFileNameBase "/nowhere/app"
                              (initial fs_sample "/home/u" clock_2024))))).
    + vm_compute. discriminate.
    + vm_compute. lia.
    + vm_compute. reflexivity.
  - apply (proj1 (MakeFileList_result (initial fs_sample "/home/u" clock_2024))).
    left. reflexivity.
Defined.

Lemma find_last_of_from_app (a b : string) (c : ascii) (i found : Z) :
  Str.find_last_of_from (a +:+ b) c i found
  = Str.find_last_of_from b c (i + Z.of_nat (String.length a))
      (Str.find_last_of_from a c i found).
Proof.
  revert i found; induction a as [|x a IH]; intros i found.
  - cbn. now rewrite Z.add_0_r.
  - rewrite str_app_cons. cbn [Str.find_last_of_from String.length].
    rewrite IH. f_equal. lia.
Qed.

Lemma digit_not_slash (n : Z) : Ascii.eqb (Fmt.digit n) "/" = false.
Proof. apply (digit_cases n (fun c => Ascii.eqb c "/" = false)); reflexivity. Qed.

(** What [AddNewFileName] puts after the base name holds no slash. *)
Lemma name_suffix_no_slash (d t : tm) (i found : Z) :
  Str.find_last_of_from
    ("_" +:+ Fmt.strftime "%Y%m%d" d +:+ "_" +:+ Fmt.strftime "%H%M%S" t +:+ ".log")
    "/" i found = found.
Proof.
  rewrite strftime_compact_date, strftime_compact_time.
  cbv [Fmt.year4 Fmt.pad2 String.append].
  cbn [Str.find_last_of_from]. rewrite !digit_not_slash. reflexivity.
Qed.

Lemma name_suffix_length (d t : tm) :
  String.length
    ("_" +:+ Fmt.strftime "%Y%m%d" d +:+ "_" +:+ Fmt.strftime "%H%M%S" t +:+ ".log")
  = 20%nat.
Proof.
  rewrite strftime_compact_date, strftime_compact_time.
  cbv [Fmt.year4 Fmt.pad2 String.append]. reflexivity.
Qed.

Lemma AddNewFileName_suffix (st : state) :
  m_logFileName (AddNewFileName st)
  = mFileNameBase st
    +:+ ("_" +:+ Fmt.strftime "%Y%m%d" (w_clock st (date_tick st)) +:+ "_"
         +:+ Fmt.strftime "%H%M%S" (w_clock st (time_tick st)) +:+ ".log").
Proof.
  rewrite (proj1 (AddNewFileName_name st)).
  rewrite ?str_app_assoc, ?str_app_nil_r. reflexivity.
Qed.

(** X8.  The scan never lists a file the logger made: the entry of a name
    from [AddNewFileName] is the stem and 20 more characters (the date has
    no dashes and the name ends in ".log"), the scan only takes entries of
    the stem's length plus 18. *)
Theorem MakeFileList_skips_made_names (st : state) :
  valid_tm (w_clock st (w_tick st)) ->
  valid_tm (w_clock st (S (w_tick st))) ->
  let made := m_logFileName (AddNewFileName st) in
  let entry := FS.basename made in
  Str.find_last_of made "/" = Str.find_last_of (mFileNameBase st) "/" /\
  Str.size entry = (Str.size (scan_stem st) + 20)%nat /\
  entry_selected (Str.size (scan_stem st) + 11 + 7) (scan_stem st) entry = false.
Proof.
  intros _ _ made entry.
  assert (Str.find_last_of made "/" = Str.find_last_of (mFileNameBase st) "/") as Hidx.
  { subst made. rewrite AddNewFileName_suffix. unfold Str.find_last_of.
    rewrite find_last_of_from_app. apply name_suffix_no_slash. }
  assert (Str.size entry = (Str.size (scan_stem st) + 20)%nat) as Hsize.
  { subst entry. unfold FS.basename, scan_stem, Str.size.
    rewrite Hidx, !length_substr_from. subst made.
    rewrite AddNewFileName_suffix, str_length_app, name_suffix_length.
    pose proof (find_last_of_bound (mFileNameBase st) "/"). lia. }
  split; [exact Hidx |]. split; [exact Hsize |].
  unfold entry_selected. rewrite Hsize.
  assert ((Str.size (scan_stem st) + 20 =? Str.size (scan_stem st) + 11 + 7)%nat = false) as ->
    by (apply Nat.eqb_neq; lia).
  reflexivity.
Qed.

Lemma MakeFileList_skips_made_names_witness :
  valid_tm (w_clock st_base (w_tick st_base)) /\
  valid_tm (w_clock st_base (S (w_tick st_base))) /\
  entry_selected (3 + 11 + 7) "app" (FS.basename (m_logFileName (AddNewFileName st_base)))
  = false.
Proof.
  split; [apply valid_clock_2024 |]. split; [apply valid_clock_2024 |].
  exact (proj2 (proj2 (MakeFileList_skips_made_names st_base
                         (valid_clock_2024 _) (valid_clock_2024 _)))).
Defined.

Lemma chdir_cwd_ext (dir : string) (st st' : state) :
  w_cwd st' = w_cwd st -> w_fs st' = w_fs st ->
  w_cwd (chdir dir st') = w_cwd (chdir dir st).
Proof.
  intros Hc Hf. unfold chdir. rewrite Hc, Hf.
  destruct (String.eqb dir EmptyString); [exact Hc |].
  destruct (FS.can_chdir _ _); [reflexivity | exact Hc].
Qed.

Lemma opendir_ext (dir : string) (st st' : state) :
  w_cwd st' = w_cwd st -> w_fs st' = w_fs st -> opendir dir st' = opendir dir st.
Proof. intros Hc Hf. unfold opendir. now rewrite Hc, Hf. Qed.

(** What the scan leaves of the environment. *)
Lemma MakeFileList_keeps (st : state) :
  mFileNameBase (snd (MakeFileList st)) = mFileNameBase st /\
  w_fs (snd (MakeFileList st)) = w_fs st.
Proof.
  unfold MakeFileList.
  destruct (String.eqb (mFileNameBase st) EmptyString); [now split |].
  destruct (getcwd 132 st) as [wd|]; [| now split].
  cbv zeta.
  match goal with |- context [opendir ?d ?s] => destruct (opendir d s) as [entries|] end;
    cbn [snd].
  - match goal with
    | |- context [scan_entries ?a ?b ?c ?d ?s] =>
        destruct (scan_entries_keeps a b c d s) as (_ & Hfs & _);
        assert (mFileNameBase (scan_entries a b c d s) = mFileNameBase st) as Hb
    end.
    { unfold scan_entries.
      match goal with |- mFileNameBase (fold_left ?f entries ?s0) = _ =>
        assert (forall l s, mFileNameBase (fold_left f l s) = mFileNameBase s) as Hfold
      end.
      { induction l as [|e l IH]; intros s; [reflexivity |].
        cbn [fold_left]. rewrite IH. now destruct (entry_selected _ _ e). }
      rewrite Hfold. cbn. unfold chdir.
      destruct (String.eqb _ _); [reflexivity |]. now destruct (FS.can_chdir _ _). }
    split.
    + unfold chdir at 1. destruct (String.eqb _ _); [exact Hb |].
      destruct (FS.can_chdir _ _); exact Hb.
    + rewrite (proj1 (chdir_keeps_fs _ _)), Hfs. cbn.
      apply chdir_keeps_fs.
  - cbn. split.
    + unfold chdir. destruct (String.eqb _ _); [reflexivity |].
      now destruct (FS.can_chdir _ _).
    + apply chdir_keeps_fs.
Qed.

(** X9.  Where the scan leaves the process: in the working directory it
    started from when it returns early or has read the directory (the
    working directory being absolute and still there to be entered), and
    in the directory it entered at line 361 when [opendir] fails, the
    return of line 392 coming before the [chdir] back. *)
Theorem MakeFileList_working_directory (st : state) :
  (fst (MakeFileList st) = false -> snd (MakeFileList st) = st \/
     snd (MakeFileList st) = emit (EvStderr "getcwd() error") st) /\
  (mFileNameBase st <> EmptyString ->
   (String.length (w_cwd st) + 1 <= 132)%nat ->
   Str.starts_with (w_cwd st) "/" = true ->
   FS.can_chdir (w_fs st) (w_cwd st) = true ->
   let logDir := scan_dir (w_cwd st) st in
   w_cwd (snd (MakeFileList st))
   = match opendir logDir (set_mLogFileList [] (chdir logDir st)) with
     | Some _ => w_cwd st
     | None => w_cwd (chdir logDir st)
     end).
Proof.
  split.
  - unfold MakeFileList.
    destruct (String.eqb (mFileNameBase st) EmptyString); [now left |].
    destruct (getcwd 132 st); [| now right].
    cbv zeta. destruct (opendir _ _); cbn [fst]; discriminate.
  - intros Hbase Hcwd Habs Hok logDir.
    rewrite (MakeFileList_unfold st Hbase Hcwd). fold logDir.
    destruct (opendir logDir _) as [entries|]; cbn [snd]; [| reflexivity].
    apply chdir_back; [exact Habs |].
    match goal with
    | |- context [scan_entries ?a ?b ?c ?d ?s] =>
        destruct (scan_entries_keeps a b c d s) as (_ & -> & _)
    end.
    cbn [w_fs set_mLogFileList]. now rewrite (proj1 (chdir_keeps_fs _ st)).
Qed.

Lemma MakeFileList_working_directory_witness :
  mFileNameBase st_base <> EmptyString /\
  (String.length (w_cwd st_base) + 1 <= 132)%nat /\
  Str.starts_with (w_cwd st_base) "/" = true /\
  FS.can_chdir (w_fs st_base) (w_cwd st_base) = true /\
  w_cwd (snd (MakeFileList st_base)) = "/home/u".
Proof.
  assert (mFileNameBase st_base <> EmptyString) as H1 by (vm_compute; discriminate).
  assert (String.length (w_cwd st_base) + 1 <= 132)%nat as H2 by (vm_compute; lia).
  assert (Str.starts_with (w_cwd st_base) "/" = true) as H3 by (vm_compute; reflexivity).
  assert (FS.can_chdir (w_fs st_base) (w_cwd st_base) = true) as H4
    by (vm_compute; reflexivity).
  split; [exact H1 |]. split; [exact H2 |]. split; [exact H3 |]. split; [exact H4 |].
  rewrite (proj2 (MakeFileList_working_directory st_base) H1 H2 H3 H4).
  vm_compute. reflexivity.
Defined.

(** X10.  Scanning twice gives the same list: a scan that has read its
    directory leaves the base name, the file system and (from an absolute
    working directory that can be entered) the working directory as they
    were, and the list it builds depends on these three only. *)
Theorem MakeFileList_twice (st : state) :
  mFileNameBase st <> EmptyString ->
  (String.length (w_cwd st) + 1 <= 132)%nat ->
  Str.starts_with (w_cwd st) "/" = true ->
  FS.can_chdir (w_fs st) (w_cwd st) = true ->
  opendir (scan_dir (w_cwd st) st)
    (set_mLogFileList [] (chdir (scan_dir (w_cwd st) st) st)) <> None ->
  let st1 := snd (MakeFileList st) in
  mLogFileList (snd (MakeFileList st1)) = mLogFileList st1 /\
  w_cwd (snd (MakeFileList st1)) = w_cwd st /\
  w_fs (snd (MakeFileList st1)) = w_fs st.
Proof.
  intros Hbase Hcwd Habs Hok Hdir st1.
  destruct (MakeFileList_keeps st) as [Kb Kf]. fold st1 in Kb, Kf.
  assert (w_cwd st1 = w_cwd st) as Kc.
  { subst st1. rewrite (MakeFileList_unfold st Hbase Hcwd).
    destruct (opendir _ _) as [entries|]; [| congruence]. cbn [snd].
    apply chdir_back; [exact Habs |].
    match goal with
    | |- context [scan_entries ?a ?b ?c ?d ?s] =>
        destruct (scan_entries_keeps a b c d s) as (_ & -> & _)
    end.
    cbn [w_fs set_mLogFileList]. now rewrite (proj1 (chdir_keeps_fs _ st)). }
  assert (scan_dir (w_cwd st1) st1 = scan_dir (w_cwd st) st) as Kd
    by (unfold scan_dir; now rewrite Kb, Kc).
  assert (scan_stem st1 = scan_stem st) as Ks by (unfold scan_stem; now rewrite Kb).
  assert (opendir (scan_dir (w_cwd st) st)
            (set_mLogFileList [] (chdir (scan_dir (w_cwd st) st) st1))
          = opendir (scan_dir (w_cwd st) st)
              (set_mLogFileList [] (chdir (scan_dir (w_cwd st) st) st))) as Ko.
  { apply opendir_ext; cbn [w_cwd w_fs set_mLogFileList].
    - now apply chdir_cwd_ext.
    - rewrite !(proj1 (chdir_keeps_fs _ _)). exact Kf. }
  split.
  - rewrite (MakeFileList_list st1) by (rewrite ?Kb, ?Kc; assumption).
    subst st1. rewrite (MakeFileList_list st Hbase Hcwd).
    cbv zeta. rewrite Kd, Ks, Ko. reflexivity.
  - destruct (MakeFileList_keeps st1) as [_ Kf1]. split; [| congruence].
    rewrite (MakeFileList_unfold st1) by (rewrite ?Kb, ?Kc; assumption).
    rewrite Kd, Ko.
    destruct (opendir _ _) as [entries|]; [| congruence]. cbn [snd].
    rewrite Kc. apply chdir_back; [exact Habs |].
    match goal with
    | |- context [scan_entries ?a ?b ?c ?d ?s] =>
        destruct (scan_entries_keeps a b c d s) as (_ & -> & _)
    end.
    cbn [w_fs set_mLogFileList]. rewrite (proj1 (chdir_keeps_fs _ st1)). congruence.
Qed.

Lemma MakeFileList_twice_witness :
  mFileNameBase st_base <> EmptyString /\
  (String.length (w_cwd st_base) + 1 <= 132)%nat /\
  Str.starts_with (w_cwd st_base) "/" = true /\
  FS.can_chdir (w_fs st_base) (w_cwd st_base) = true /\
  opendir (scan_dir (w_cwd st_base) st_base)
    (set_mLogFileList [] (chdir (scan_dir (w_cwd st_base) st_base) st_base)) <> None /\
  mLogFileList (snd (MakeFileList (snd (MakeFileList st_base))))
  = mLogFileList (snd (MakeFileList st_base)).
Proof.
  assert (mFileNameBase st_base <> EmptyString) as H1 by (vm_compute; discriminate).
  assert (String.length (w_cwd st_base) + 1 <= 132)%nat as H2 by (vm_compute; lia).
  assert (Str.starts_with (w_cwd st_base) "/" = true) as H3 by (vm_compute; reflexivity).
  assert (FS.can_chdir (w_fs st_base) (w_cwd st_base) = true) as H4
    by (vm_compute; reflexivity).
  assert (opendir (scan_dir (w_cwd st_base) st_base)
            (set_mLogFileList [] (chdir (scan_dir (w_cwd st_base) st_base) st_base)) <> None)
    as H5 by (vm_compute; discriminate).
  split; [exact H1 |]. split; [exact H2 |]. split; [exact H3 |]. split; [exact H4 |].
  split; [exact H5 |].
  exact (proj1 (MakeFileList_twice st_base H1 H2 H3 H4 H5)).
Defined.

(** ** More on rotation and eviction *)

(** The list and the name after a write that rotates. *)
Lemma writeLog_rotation_list (st : state) (f : ofstream) :
  m_logFile st = Some f ->
  (mMaxFileSize st <= Size st)%N ->
  let name := m_logFileName (AddNewFileName (write_out st)) in
  let excess := (S (length (mLogFileList st)) - N.to_nat (mMaxFileNumber st))%nat in
  m_logFileName (writeLog st) = name /\
  mLogFileList (writeLog st) = drop excess (mLogFileList st ++ [name]) /\
  exists evs,
    w_trace (writeLog st)
    = w_trace st ++ evs ++ map EvUnlink (take excess (mLogFileList st ++ [name])).
Proof.
  intros Hf Hsize name excess.
  destruct (write_out_keeps st) as (Kf & _ & Kl & _).
  destruct (frame_write_out st) as (_ & _ & _ & Ks & Km & _ & _ & _ & _ & _ & e1 & Kt).
  assert (mMaxFileSize (write_out st) <= Size (write_out st))%N as Hsize1.
  { rewrite Ks. etransitivity; [exact Hsize | apply Size_write_out]. }
  destruct (rotate_if_full_fires (write_out st) f (eq_trans Kf Hf) Hsize1)
    as (_ & Rn & Rl & Rt & _).
  fold name in Rn, Rl, Rt.
  destruct (frame_rotate_if_full (write_out st)) as (_ & _ & _ & _ & Hmax & _).
  unfold writeLog, EnforceLogFileLimits. cbv zeta.
  remember (rotate_if_full (write_out st)) as st2 eqn:Est2.
  rewrite Km in Hmax. rewrite Kl in Rl.
  remember (mLogFileList st2) as files eqn:Efiles.
  destruct (evict_excess_keeps files st2) as (_ & En & _).
  destruct (evict_excess_drop files st2) as [El Et].
  rewrite Hmax in El, Et.
  assert ((length files - N.to_nat (mMaxFileNumber st))%nat = excess) as Hex
    by (subst excess; rewrite Rl, length_app; cbn [length]; lia).
  rewrite Hex in El, Et. rewrite Rl in El, Et, En. rewrite Rl.
  split; [now rewrite En |]. split; [exact El |].
  eexists (e1 ++ [EvClose (of_path f); EvOpen _ _]).
  rewrite Et, Rt, Kt, <- !app_assoc. reflexivity.
Qed.

(** X11.  When the active name cannot be opened for reading (the file was
    removed, or never created), [Size()] is 2^64 - 1 and the size check
    fires whatever the limit is: a name is made and appended, a stream is
    opened on it. *)
Theorem rotate_when_file_missing (st : state) (f : ofstream) :
  m_logFile st = Some f ->
  FS.lookup_file (w_fs st) (FS.resolve (w_cwd st) (m_logFileName st)) = None ->
  (mMaxFileSize st < 2 ^ 32)%N ->
  Size st = (2 ^ 64 - 1)%N /\
  m_logFileName (rotate_if_full st) = m_logFileName (AddNewFileName st) /\
  mLogFileList (rotate_if_full st) = mLogFileList st ++ [m_logFileName (AddNewFileName st)] /\
  exists g, m_logFile (rotate_if_full st) = Some g /\
            of_path g = FS.resolve (w_cwd st) (m_logFileName (AddNewFileName st)).
Proof.
  intros Hf Hmiss Hmax.
  assert (Size st = (2 ^ 64 - 1)%N) as Hs by (unfold Size; now rewrite Hmiss).
  assert (mMaxFileSize st <= Size st)%N as Hle.
  { rewrite Hs. transitivity (2 ^ 32)%N; [lia |]. vm_compute. discriminate. }
  destruct (rotate_if_full_fires st f Hf Hle) as (Rf & Rn & Rl & _).
  split; [exact Hs |]. split; [exact Rn |]. split; [exact Rl |].
  eexists. split; [exact Rf | reflexivity].
Qed.

Lemma rotate_when_file_missing_witness :
  m_logFile st_removed = Some (mk_ofstream "/var/log/app_20240105_123400.log" true) /\
  FS.lookup_file (w_fs st_removed) (FS.resolve (w_cwd st_removed) (m_logFileName st_removed))
  = None /\
  (mMaxFileSize st_removed < 2 ^ 32)%N /\
  mLogFileList (rotate_if_full st_removed)
  = ["/var/log/app_20240105_123400.log"; "/var/log/app_20240105_123403.log"].
Proof.
  assert (m_logFile st_removed = Some (mk_ofstream "/var/log/app_20240105_123400.log" true))
    as H1 by (vm_compute; reflexivity).
  assert (FS.lookup_file (w_fs st_removed)
            (FS.resolve (w_cwd st_removed) (m_logFileName st_removed)) = None)
    as H2 by (vm_compute; reflexivity).
  assert (mMaxFileSize st_removed < 2 ^ 32)%N as H3 by (vm_compute; reflexivity).
  split; [exact H1 |]. split; [exact H2 |]. split; [exact H3 |].
  destruct (rotate_when_file_missing st_removed _ H1 H2 H3) as (_ & _ & E & _).
  rewrite E. vm_compute. reflexivity.
Defined.

(** X12.  A rotation while the clock still gives the readings the active
    name was made from does not change the file: the name made is the
    active name again, the tracked list holds it twice, and the stream
    that is opened is a stream on the same path. *)
Theorem rotation_same_second (st : state) (f : ofstream) :
  m_logFile st = Some f ->
  (mMaxFileSize st <= Size st)%N ->
  m_logFileName (AddNewFileName st) = m_logFileName st ->
  m_logFileName st ∈ mLogFileList st ->
  let st' := rotate_if_full st in
  m_logFileName st' = m_logFileName st /\
  mLogFileList st' = mLogFileList st ++ [m_logFileName st] /\
  ~ NoDup (mLogFileList st') /\
  exists g, m_logFile st' = Some g /\
            of_path g = FS.resolve (w_cwd st) (m_logFileName st).
Proof.
  intros Hf Hsize Hsame Hin st'. subst st'.
  destruct (rotate_if_full_fires st f Hf Hsize) as (Rf & Rn & Rl & _).
  rewrite Hsame in Rf, Rn, Rl.
  split; [exact Rn |]. split; [exact Rl |]. split.
  - rewrite Rl. intros Hnd. apply NoDup_app in Hnd as (_ & Hdis & _).
    apply (Hdis _ Hin). now left.
  - eexists. split; [exact Rf | reflexivity].
Qed.

Lemma rotation_same_second_witness :
  m_logFile st_still = Some (mk_ofstream "/var/log/app_20240105_123456.log" true) /\
  (mMaxFileSize st_still <= Size st_still)%N /\
  m_logFileName (AddNewFileName st_still) = m_logFileName st_still /\
  m_logFileName st_still ∈ mLogFileList st_still /\
  mLogFileList (rotate_if_full st_still)
  = ["/var/log/app_20240105_123456.log"; "/var/log/app_20240105_123456.log"].
Proof.
  assert (m_logFile st_still = Some (mk_ofstream "/var/log/app_20240105_123456.log" true))
    as H1 by (vm_compute; reflexivity).
  assert (mMaxFileSize st_still <= Size st_still)%N as H2 by (vm_compute; discriminate).
  assert (m_logFileName (AddNewFileName st_still) = m_logFileName st_still) as H3
    by (vm_compute; reflexivity).
  assert (m_logFileName st_still ∈ mLogFileList st_still) as H4
    by (vm_compute; apply list_elem_of_here).
  split; [exact H1 |]. split; [exact H2 |]. split; [exact H3 |]. split; [exact H4 |].
  destruct (rotation_same_second st_still _ H1 H2 H3 H4) as (_ & E & _).
  rewrite E. vm_compute. reflexivity.
Defined.

(** X13.  After a write that rotates under a retention count of at least
    1, the active name is the last name of the tracked list. *)
Theorem writeLog_active_is_last (st : state) (f : ofstream) :
  m_logFile st = Some f ->
  (mMaxFileSize st <= Size st)%N ->
  (1 <= mMaxFileNumber st)%N ->
  last (mLogFileList (writeLog st)) = Some (m_logFileName (writeLog st)).
Proof.
  intros Hf Hsize Hkeep.
  destruct (writeLog_rotation_list st f Hf Hsize) as (-> & -> & _).
  rewrite drop_app_le by lia. apply last_snoc.
Qed.

Lemma writeLog_active_is_last_witness :
  m_logFile st_full = Some (mk_ofstream "/var/log/app_20240105_123400.log" true) /\
  (mMaxFileSize st_full <= Size st_full)%N /\
  (1 <= mMaxFileNumber st_full)%N /\
  last (mLogFileList (writeLog st_full)) = Some (m_logFileName (writeLog st_full)).
Proof.
  assert (m_logFile st_full = Some (mk_ofstream "/var/log/app_20240105_123400.log" true))
    as H1 by (vm_compute; reflexivity).
  assert (mMaxFileSize st_full <= Size st_full)%N as H2 by (vm_compute; discriminate).
  assert (1 <= mMaxFileNumber st_full)%N as H3 by (vm_compute; discriminate).
  split; [exact H1 |]. split; [exact H2 |]. split; [exact H3 |].
  exact (writeLog_active_is_last st_full _ H1 H2 H3).
Defined.

(** X14.  Under a retention count of 0 a write that rotates tracks no
    file afterwards, and the last thing it does is to unlink the name it
    has just opened a stream on, which stays the active name. *)
Theorem writeLog_keeps_none (st : state) (f : ofstream) :
  m_logFile st = Some f ->
  (mMaxFileSize st <= Size st)%N ->
  mMaxFileNumber st = 0%N ->
  mLogFileList (writeLog st) = [] /\
  last (w_trace (writeLog st)) = Some (EvUnlink (m_logFileName (writeLog st))) /\
  exists g, m_logFile (writeLog st) = Some g /\
            of_path g = FS.resolve (w_cwd st) (m_logFileName (writeLog st)).
Proof.
  intros Hf Hsize Hzero.
  destruct (writeLog_rotation_list st f Hf Hsize) as (Hn & Hl & evs & Ht).
  rewrite Hzero in Hl, Ht. cbn [N.to_nat] in Hl, Ht. rewrite Nat.sub_0_r in Hl, Ht.
  assert (S (length (mLogFileList st))
          = length (mLogFileList st ++ [m_logFileName (AddNewFileName (write_out st))]))
    as Hlen by (rewrite length_app; cbn [length]; lia).
  rewrite Hlen in Hl, Ht. rewrite drop_all in Hl. rewrite firstn_all in Ht.
  split; [exact Hl |]. split.
  - rewrite Ht, Hn, map_app, !app_assoc. cbn [map]. apply last_snoc.
  - destruct (write_out_keeps st) as (Kf & _).
    destruct (frame_write_out st) as (_ & _ & _ & Ks & _ & _ & _ & _ & Kc & _).
    assert (mMaxFileSize (write_out st) <= Size (write_out st))%N as Hsize1.
    { rewrite Ks. etransitivity; [exact Hsize | apply Size_write_out]. }
    destruct (rotate_if_full_fires (write_out st) f (eq_trans Kf Hf) Hsize1) as (Rf & _).
    destruct (evict_excess_keeps (mLogFileList (rotate_if_full (write_out st)))
                (rotate_if_full (write_out st))) as (Ef & _).
    eexists. split.
    + change (writeLog st)
        with (evict_excess (mLogFileList (rotate_if_full (write_out st)))
                (rotate_if_full (write_out st))).
      rewrite Ef. exact Rf.
    + cbn [of_path]. now rewrite Hn, Kc.
Qed.

Lemma writeLog_keeps_none_witness :
  m_logFile st_keep_none = Some (mk_ofstream "/var/log/app_20240105_123400.log" true) /\
  (mMaxFileSize st_keep_none <= Size st_keep_none)%N /\
  mMaxFileNumber st_keep_none = 0%N /\
  mLogFileList (writeLog st_keep_none) = [] /\
  FS.lookup_file (w_fs (writeLog st_keep_none)) "/var/log/app_20240105_123403.log" = None.
Proof.
  assert (m_logFile st_keep_none
          = Some (mk_ofstream "/var/log/app_20240105_123400.log" true))
    as H1 by (vm_compute; reflexivity).
  assert (mMaxFileSize st_keep_none <= Size st_keep_none)%N as H2
    by (vm_compute; discriminate).
  assert (mMaxFileNumber st_keep_none = 0%N) as H3 by (vm_compute; reflexivity).
  split; [exact H1 |]. split; [exact H2 |]. split; [exact H3 |].
  split; [exact (proj1 (writeLog_keeps_none st_keep_none _ H1 H2 H3)) |].
  vm_compute. reflexivity.
Defined.

(** ** The limits *)

Lemma writeLog_retained (st : state) :
  (N.of_nat (length (mLogFileList (writeLog st))) <= mMaxFileNumber st)%N.
Proof.
  unfold writeLog, EnforceLogFileLimits. cbv zeta.
  destruct (frame_write_out st) as (_ & _ & _ & _ & K1 & _).
  destruct (frame_rotate_if_full (write_out st)) as (_ & _ & _ & _ & K2 & _).
  rewrite <- K1, <- K2. apply evict_excess_bound.
Qed.

(** X15.  Every operation that writes ends within the retention count: the
    tracked list is no longer than [mMaxFileNumber] after [setSeverity]
    and after a [log] under the threshold.  [SetMaxFileNumber] itself
    removes nothing; the next write trims the list to the new count, which
    is the argument reduced modulo 2^32. *)
Theorem writes_enforce_retention (st : state) :
  (forall s,
      (N.of_nat (length (mLogFileList (snd (setSeverity s st)))) <= mMaxFileNumber st)%N) /\
  (forall s input,
      s <= m_leastSeverity st ->
      (N.of_nat (length (mLogFileList (log s input st))) <= mMaxFileNumber st)%N) /\
  (forall n,
      mLogFileList (SetMaxFileNumber n st) = mLogFileList st /\
      w_fs (SetMaxFileNumber n st) = w_fs st /\
      (N.of_nat (length (mLogFileList (writeLog (SetMaxFileNumber n st)))) <= n mod 2 ^ 32)%N).
Proof.
  split; [| split].
  - intros s. unfold setSeverity, TimeStamp, read_clock.
    destruct (_ || _); cbn [snd];
      match goal with |- (N.of_nat (length (mLogFileList (writeLog ?x))) <= _)%N =>
        apply (writeLog_retained x) end.
  - intros s input Hle. unfold log. apply Z.leb_le in Hle. rewrite Hle.
    unfold TimeStamp, read_clock. cbv zeta.
    match goal with |- (N.of_nat (length (mLogFileList (writeLog ?x))) <= _)%N =>
      apply (writeLog_retained x) end.
  - intros n. split; [reflexivity |]. split; [reflexivity |].
    apply (writeLog_retained (SetMaxFileNumber n st)).
Qed.

Lemma writes_enforce_retention_witness :
  (N.of_nat (length (mLogFileList (log eLOG_HIGH "hello" st_file))) <= mMaxFileNumber st_file)%N.
Proof.
  apply (proj1 (proj2 (writes_enforce_retention st_file))). vm_compute. discriminate.
Defined.

(** X16.  [SetMaxFileSize] stores its argument modulo 2^32 (the member is
    an [unsigned int]): values under 2^32 are read back by [MaxFileSize],
    a multiple of 2^32 is stored as 0, and then the size check of every
    enforcement pass with an active stream fires. *)
Theorem SetMaxFileSize_wraps (n : N) (st : state) (f : ofstream) :
  m_logFile st = Some f ->
  (MaxFileSize (SetMaxFileSize n st) < 2 ^ 32)%N /\
  ((n < 2 ^ 32)%N -> MaxFileSize (SetMaxFileSize n st) = n) /\
  MaxFileSize (SetMaxFileSize (n + 2 ^ 32) st) = MaxFileSize (SetMaxFileSize n st) /\
  ((n mod 2 ^ 32 = 0)%N ->
   mLogFileList (rotate_if_full (SetMaxFileSize n st))
   = mLogFileList st ++ [m_logFileName (AddNewFileName st)]).
Proof.
  intros Hf. unfold MaxFileSize, SetMaxFileSize.
  cbn [mMaxFileSize set_mMaxFileSize].
  split; [apply N.mod_lt; discriminate |].
  split; [intros H; now apply N.mod_small |].
  split.
  - rewrite <- (N.mul_1_l (2 ^ 32)) at 1. apply N.Div0.mod_add.
  - intros Hz.
    assert (mMaxFileSize (set_mMaxFileSize (n mod 2 ^ 32) st)
            <= Size (set_mMaxFileSize (n mod 2 ^ 32) st))%N as Hle
      by (cbn [mMaxFileSize set_mMaxFileSize]; rewrite Hz; apply N.le_0_l).
    destruct (rotate_if_full_fires (set_mMaxFileSize (n mod 2 ^ 32) st) f Hf Hle)
      as (_ & _ & Rl & _).
    rewrite (AddNewFileName_same_name st (set_mMaxFileSize (n mod 2 ^ 32) st)) in Rl
      by reflexivity.
    exact Rl.
Qed.

Lemma SetMaxFileSize_wraps_witness :
  m_logFile st_file = Some (mk_ofstream "/var/log/app_20240105_123400.log" true) /\
  MaxFileSize (SetMaxFileSize (2 ^ 32) st_file) = 0%N /\
  MaxFileSize (SetMaxFileSize 100 st_file) = 100%N.
Proof.
  assert (m_logFile st_file = Some (mk_ofstream "/var/log/app_20240105_123400.log" true))
    as H by (vm_compute; reflexivity).
  split; [exact H |].
  destruct (SetMaxFileSize_wraps 0 st_file _ H) as (_ & _ & E & _).
  split; [exact E |].
  apply (proj1 (proj2 (SetMaxFileSize_wraps 100 st_file _ H))). reflexivity.
Defined.

(** ** Buffering *)

(** X17.  [SetBuffering] always returns and leaves the flag as asked.
    Switching on from off empties the buffer without writing anything;
    switching off from on drains it; asking for the mode already set
    changes nothing, whatever the buffer holds. *)
Theorem SetBuffering_modes (on : bool) (st : state) :
  exists st',
    SetBuffering on st = Done st' /\
    mBuffering st' = on /\
    (mBuffering st = on -> st' = set_mBuffering on st) /\
    (mBuffering st = false -> on = true ->
       mBufferList st' = [] /\ w_trace st' = w_trace st /\ w_fs st' = w_fs st) /\
    (mBuffering st = true -> on = false -> mBufferList st' = []).
Proof.
  unfold SetBuffering. destruct (mBuffering st) eqn:Hb, on; cbn [andb negb].
  - eexists. split; [reflexivity |]. split; [reflexivity |].
    split; [reflexivity |]. split; intros; discriminate.
  - rewrite WriteToFile_done. eexists. split; [reflexivity |].
    split; [reflexivity |]. split; [discriminate |]. split; [discriminate |].
    intros _ _. cbn [mBufferList set_mBuffering].
    unfold Flush.
    assert (forall lines s, mBufferList s = lines -> mBufferList (drain lines s) = []) as Hd.
    { induction lines as [|l lines IH]; intros s Hs; [exact Hs |].
      cbn [drain]. apply IH. unfold drain_turn.
      destruct (frame_writeLog (out_append l (set_mBufferList lines s)))
        as (_ & _ & _ & _ & _ & _ & H & _). now rewrite H. }
    now apply Hd.
  - eexists. split; [reflexivity |]. split; [reflexivity |].
    split; [discriminate |]. split; [intros; repeat split | discriminate].
  - eexists. split; [reflexivity |]. split; [reflexivity |].
    split; [reflexivity |]. split; intros; discriminate.
Qed.

(** ** Threshold and messages together *)

Lemma log_trace_iff (s : Severity) (input : string) (st : state) :
  has_sink st = true ->
  (w_trace (log s input st) <> w_trace st <-> s <= m_leastSeverity st).
Proof.
  intros Hsink. split.
  - intros Hne. destruct (Z.le_gt_cases s (m_leastSeverity st)) as [H|H]; [exact H |].
    exfalso. apply Hne. unfold log. apply Z.leb_gt in H. now rewrite H.
  - intros Hle. eapply recorded_grows; [exact Hsink |].
    apply (proj2 (log_never_buffers s input st)). exact Hle.
Qed.

(** X18.  After [setSeverity] has accepted a severity [t], a message of
    severity [s] is recorded exactly when [s <= t]; after it has refused a
    value, exactly when [s] is under the threshold from before.  (An
    output is on afterwards; the console stays on when it was.) *)
Theorem setSeverity_then_log (t s : Severity) (input : string) (st : state) :
  has_sink (snd (setSeverity t st)) = true ->
  let st1 := snd (setSeverity t st) in
  (mUsingStdOut st = true -> mUsingStdOut st1 = true) /\
  (eLOG_CRIT <= t <= eLOG_LAST ->
   (w_trace (log s input st1) <> w_trace st1 <-> s <= t)) /\
  (t < eLOG_CRIT \/ eLOG_LAST < t ->
   (w_trace (log s input st1) <> w_trace st1 <-> s <= m_leastSeverity st)).
Proof.
  intros Hsink st1.
  pose proof (log_trace_iff s input st1 Hsink) as Hiff.
  assert (forall x, mUsingStdOut (writeLog x) = mUsingStdOut x) as Hu
    by (intros x; now destruct (frame_writeLog x) as (_ & _ & _ & _ & _ & _ & _ & H & _)).
  split; [| split].
  - intros H. subst st1. unfold setSeverity, TimeStamp, read_clock.
    destruct (_ || _); cbn [snd]; rewrite Hu; exact H.
  - intros [Hlo Hhi].
    assert (m_leastSeverity st1 = t) as Ht.
    { subst st1. unfold setSeverity, TimeStamp, read_clock.
      assert ((t <? eLOG_CRIT) || (eLOG_LAST <? t) = false) as ->
        by (apply orb_false_iff; split; apply Z.ltb_ge; assumption).
      cbn [snd]. now rewrite writeLog_keeps_severity. }
    now rewrite Ht in Hiff.
  - intros Hout.
    assert (m_leastSeverity st1 = m_leastSeverity st) as Ht.
    { subst st1. unfold setSeverity, TimeStamp, read_clock.
      assert ((t <? eLOG_CRIT) || (eLOG_LAST <? t) = true) as ->
        by (apply orb_true_iff; destruct Hout; [left | right]; now apply Z.ltb_lt).
      cbn [snd]. now rewrite writeLog_keeps_severity. }
    now rewrite Ht in Hiff.
Qed.

Lemma setSeverity_then_log_witness :
  has_sink (snd (setSeverity eLOG_MED st_console)) = true /\
  w_trace (log eLOG_HIGH "y" (snd (setSeverity eLOG_MED st_console)))
  <> w_trace (snd (setSeverity eLOG_MED st_console)) /\
  log eLOG_DEBUG "x" (snd (setSeverity eLOG_MED st_console))
  = snd (setSeverity eLOG_MED st_console).
Proof.
  assert (has_sink (snd (setSeverity eLOG_MED st_console)) = true) as H
    by (vm_compute; reflexivity).
  split; [exact H |]. split.
  - apply (proj1 (proj2 (setSeverity_then_log eLOG_MED eLOG_HIGH "y" st_console H))).
    + split; vm_compute; discriminate.
    + vm_compute. discriminate.
  - vm_compute. reflexivity.
Defined.

(** X19.  Neither [log] nor [setSeverity] changes the configuration:
    base name, size limit, retention count, buffering flag, buffer,
    console flag and working directory are as before, and what was
    written to the outside before stays in the trace; [log] also leaves
    the threshold alone. *)
Theorem log_setSeverity_keep_configuration (s : Severity) (input : string) (st : state) :
  frame st (log s input st) /\
  (let st' := snd (setSeverity s st) in
   s_pInstance st' = s_pInstance st /\
   mFileNameBase st' = mFileNameBase st /\
   mMaxFileSize st' = mMaxFileSize st /\
   mMaxFileNumber st' = mMaxFileNumber st /\
   mBuffering st' = mBuffering st /\
   mBufferList st' = mBufferList st /\
   mUsingStdOut st' = mUsingStdOut st /\
   w_cwd st' = w_cwd st /\
   exists evs, w_trace st' = w_trace st ++ evs).
Proof.
  split.
  - unfold log. destruct (s <=? m_leastSeverity st); [| apply frame_refl].
    unfold TimeStamp, read_clock. cbv zeta.
    eapply frame_trans; [| apply frame_writeLog].
    eapply frame_trans; [apply frame_set_w_tick | apply frame_out_append].
  - cbv zeta. unfold setSeverity, TimeStamp, read_clock.
    destruct (_ || _); cbn [snd];
      match goal with |- context [writeLog ?x] =>
        destruct (frame_writeLog x)
          as (F1 & F2 & _ & F4 & F5 & F6 & F7 & F8 & F9 & _ & evs & F11)
      end;
      rewrite F1, F2, F4, F5, F6, F7, F8, F9;
      (do 8 (split; [reflexivity |])); exists evs; exact F11.
Qed.

(** ** The other overloads of [log] *)

Lemma substring_short (s : string) (n : nat) :
  (String.length s <= n)%nat -> String.substring 0 n s = s.
Proof.
  revert n; induction s as [|c s IH]; intros [|n] H; cbn in *; try reflexivity; try lia.
  rewrite IH by lia. reflexivity.
Qed.

(** X20.  The three overloads of [log] record the same line for the same
    text.  The one for a stream empties the stream of the caller also when
    the message is filtered out; the one with a format keeps the first
    1023 characters of the expansion, so a longer message is cut. *)
Theorem log_overloads_agree (s : Severity) (text : string) (st : state) :
  log_stream s text st = (EmptyString, log s text st) /\
  log_format s text st = log s (Str.substr text 0 1023) st /\
  String.length (Str.substr text 0 1023) = Nat.min 1023 (String.length text) /\
  ((String.length text <= 1023)%nat -> log_format s text st = log s text st).
Proof.
  assert (log_format s text st = log s (Str.substr text 0 1023) st) as H.
  { unfold log_format, log. destruct (s <=? m_leastSeverity st); reflexivity. }
  split; [reflexivity |]. split; [exact H |]. split.
  - unfold Str.substr. rewrite length_substring. lia.
  - intros Hlen. rewrite H. unfold Str.substr. now rewrite substring_short.
Qed.

(** ** Constructors and destructor *)

Lemma rotate_if_full_no_stream (st : state) :
  m_logFile st = None -> rotate_if_full st = st.
Proof. intros H. unfold rotate_if_full. now rewrite H. Qed.

(** A write of the console logger. *)
Lemma writeLog_console (st : state) :
  m_logFile st = None ->
  mUsingStdOut st = true ->
  writeLog st
  = evict_excess (mLogFileList st)
      (set_m_outString EmptyString (emit (EvStdout (m_outString st)) st)).
Proof.
  intros Hf Hu. unfold writeLog, EnforceLogFileLimits. cbv zeta.
  assert (write_out st = set_m_outString EmptyString (emit (EvStdout (m_outString st)) st))
    as -> by (unfold write_out; rewrite Hu; cbn [m_logFile emit set_w_trace]; now rewrite Hf).
  rewrite rotate_if_full_no_stream by exact Hf. reflexivity.
Qed.

(** X21.  The constructor of the console logger leaves no stream, the
    console on, buffering off, the threshold as given and the name
    "<STDOUT>"; it reports on the error stream and writes the opening
    block to the console once.  It does not reset the other static
    members: the buffer is the one from before, and the tracked list of an
    earlier logger is kept and trimmed to the retention count, files being
    unlinked for it. *)
Theorem Logger_console_state (severity : Severity) (st : state) :
  let st' := Logger_console severity st in
  let excess := (length (mLogFileList st) - N.to_nat (mMaxFileNumber st))%nat in
  let banner :=
    rule +:+ Str.endl +:+ "START: " +:+ fst (TimeStamp true st) +:+ Str.endl
    +:+ " filename = <STDOUT>" +:+ Str.endl
    +:+ " severity = " +:+ severityToString severity +:+ Str.endl
    +:+ rule +:+ Str.endl in
  (s_pInstance st' = true /\ m_logFile st' = None /\ m_logFileName st' = "<STDOUT>" /\
   mUsingStdOut st' = true /\ mBuffering st' = false /\ m_leastSeverity st' = severity /\
   m_outString st' = EmptyString) /\
  mBufferList st' = mBufferList st /\
  mLogFileList st' = drop excess (mLogFileList st) /\
  w_trace st'
  = w_trace st
    ++ [EvStderr ("Logging at log level " +:+ severityToString severity +:+ " to <STDOUT>"
                  +:+ Str.endl);
        EvStdout (m_outString st +:+ banner)]
    ++ map EvUnlink (take excess (mLogFileList st)).
Proof.
  intros st' excess banner. subst st'. unfold Logger_console. cbv zeta.
  rewrite writeLog_console by reflexivity.
  match goal with |- context [evict_excess ?l ?s] =>
    destruct (evict_excess_keeps l s) as (Ef & En & Eo & _);
    destruct (evict_excess_drop l s) as [El Et];
    destruct (frame_evict_excess l s) as (F1 & _ & F3 & _ & _ & F6 & F7 & F8 & _)
  end.
  rewrite Ef, En, Eo, F1, F3, F6, F7, F8, El, Et.
  split; [repeat split |]. split; [reflexivity |]. split; [reflexivity |].
  cbn [w_trace set_m_outString emit set_w_trace start_banner out_append set_m_logFileName
       set_m_leastSeverity set_s_pInstance set_mUsingStdOut set_m_logFile set_mBuffering
       m_outString TimeStamp read_clock set_w_tick fst snd mLogFileList mMaxFileNumber
       m_logFileName m_leastSeverity w_clock w_tick].
  rewrite <- !app_assoc. cbn [app]. subst banner.
  unfold TimeStamp, read_clock. cbn [fst].
  rewrite ?str_app_assoc. reflexivity.
Qed.

Lemma drain_empties (lines : list string) (st : state) :
  mBufferList st = lines -> mBufferList (drain lines st) = [].
Proof.
  revert st; induction lines as [|l lines IH]; intros st Hs; [exact Hs |].
  cbn [drain]. apply IH. unfold drain_turn.
  destruct (frame_writeLog (out_append l (set_mBufferList lines st)))
    as (_ & _ & _ & _ & _ & _ & H & _). now rewrite H.
Qed.

(** X22.  The destructor does nothing when no logger is current.
    Otherwise it writes the closing block, then drains the buffer (so the
    buffered lines come after the closing block on the outputs), closes
    the stream and clears the current logger: the buffer is empty, no
    stream is open, and destroying again changes nothing. *)
Theorem Logger_destroy_closes (st : state) :
  m_outString st = EmptyString ->
  (s_pInstance st = false -> Logger_destroy st = Done st) /\
  (s_pInstance st = true ->
   exists st' evs,
     Logger_destroy st = Done st' /\
     s_pInstance st' = false /\
     mBufferList st' = [] /\
     file_open st' = false /\
     Logger_destroy st' = Done st' /\
     w_trace st' = w_trace st ++ evs /\
     stdout_texts evs
     = (if mUsingStdOut st
        then (rule +:+ Str.endl +:+ "FINISH: " +:+ fst (TimeStamp true st) +:+ Str.endl
              +:+ rule +:+ Str.endl) :: mBufferList st
        else [])).
Proof.
  intros Hout. split.
  - intros H. unfold Logger_destroy. now rewrite H.
  - intros H. unfold Logger_destroy. rewrite H, WriteToFile_done. unfold Flush.
    set (fb := finish_banner st).
    assert (m_outString fb
            = rule +:+ Str.endl +:+ "FINISH: " +:+ fst (TimeStamp true st) +:+ Str.endl
              +:+ rule +:+ Str.endl) as Hfb.
    { subst fb. unfold finish_banner, TimeStamp, read_clock.
      cbn [m_outString out_append set_m_outString set_w_tick fst snd w_clock w_tick].
      rewrite Hout. rewrite ?str_app_assoc. reflexivity. }
    assert (mUsingStdOut fb = mUsingStdOut st /\ mBufferList fb = mBufferList st
            /\ w_trace fb = w_trace st) as (Hfu & Hfl & Hft) by (subst fb; now cbn).
    destruct (frame_writeLog fb) as (_ & _ & _ & _ & _ & _ & Wl & Wu & _).
    destruct (writeLog_trace fb) as (e1 & Wt & K1 & K2).
    pose proof (writeLog_out_empty fb) as Wo.
    remember (writeLog fb) as sw eqn:Esw.
    destruct (drain_spec (mBufferList sw) sw Wo eq_refl)
      as (Db & _ & _ & e2 & Dt & Ds & _).
    remember (drain (mBufferList sw) sw) as sd eqn:Esd.
    assert (forall f, stdout_texts [EvClose f] = []) as Hclose by reflexivity.
    destruct (m_logFile sd) as [g|] eqn:Hg.
    + eexists. exists (sink_events (m_outString fb) fb ++ e1 ++ e2 ++ [EvClose (of_path g)]).
      split; [reflexivity |].
      split; [reflexivity |]. split; [exact Db |]. split; [reflexivity |].
      split; [reflexivity |]. split.
      * cbn [w_trace set_s_pInstance set_m_logFile ofstream_close emit set_w_trace].
        rewrite Dt, Wt, Hft, <- !app_assoc. reflexivity.
      * unfold stdout_texts in *. rewrite !omap_app, K1, Ds, Wu, Wl, Hfu, Hfl.
        fold (stdout_texts (sink_events (m_outString fb) fb)).
        rewrite stdout_texts_sink, Hfu, Hfb.
        destruct (mUsingStdOut st); cbn; now rewrite ?app_nil_r.
    + eexists. exists (sink_events (m_outString fb) fb ++ e1 ++ e2).
      split; [reflexivity |].
      split; [reflexivity |]. split; [exact Db |].
      split; [unfold file_open; cbn [m_logFile set_s_pInstance]; now rewrite Hg |].
      split; [reflexivity |]. split.
      * cbn [w_trace set_s_pInstance]. rewrite Dt, Wt, Hft, <- !app_assoc. reflexivity.
      * unfold stdout_texts in *. rewrite !omap_app, K1, Ds, Wu, Wl, Hfu, Hfl.
        fold (stdout_texts (sink_events (m_outString fb) fb)).
        rewrite stdout_texts_sink, Hfu, Hfb.
        destruct (mUsingStdOut st); cbn; now rewrite ?app_nil_r.
Qed.

Lemma Logger_destroy_closes_witness :
  m_outString st_two_lines = EmptyString /\
  exists st',
    Logger_destroy st_two_lines = Done st' /\ mBufferList st' = [] /\
    s_pInstance st' = false.
Proof.
  assert (m_outString st_two_lines = EmptyString) as H by (vm_compute; reflexivity).
  split; [exact H |].
  destruct (proj2 (Logger_destroy_closes st_two_lines H)) as (st' & evs & D & P & B & _).
  { vm_compute. reflexivity. }
  exists st'. split; [exact D |]. split; assumption.
Defined.

(** ** Opening the active file *)

Lemma find_last_of_from_found (s : string) (c : ascii) (i found : Z) :
  0 <= found -> 0 <= i -> 0 <= Str.find_last_of_from s c i found.
Proof.
  revert i found; induction s as [|a s IH]; intros i found Hf Hi; cbn; [exact Hf |].
  apply IH; [destruct (Ascii.eqb a c); lia | lia].
Qed.

Lemma find_last_of_prefixed (cwd name : string) :
  0 <= Str.find_last_of (cwd +:+ "/" +:+ name) "/".
Proof.
  unfold Str.find_last_of. rewrite find_last_of_from_app.
  change ("/" +:+ name) with (String "/" name). cbn [Str.find_last_of_from].
  rewrite Ascii.eqb_refl. apply find_last_of_from_found; lia.
Qed.

(** X23.  [Open] fails only for an empty name or a working directory whose
    path does not fit 1024 bytes, and then changes neither the stream nor
    the file system.  Otherwise it returns [true] whether or not the file
    could be opened: a name without a slash gets the working directory in
    front, so the active name has a directory part from then on, and
    [m_logFile] is a stream on that name, open exactly when the file system
    lets the file be opened or created. *)
Theorem Open_result (st : state) :
  (fst (Open st) = true <->
   m_logFileName st <> EmptyString /\ (String.length (w_cwd st) + 1 <= 1024)%nat) /\
  (fst (Open st) = false ->
   m_logFile (snd (Open st)) = m_logFile st /\ w_fs (snd (Open st)) = w_fs st /\
   m_logFileName (snd (Open st)) = m_logFileName st) /\
  (fst (Open st) = true ->
   let name := m_logFileName (snd (Open st)) in
   name = (if Str.find_last_of (m_logFileName st) "/" <? 0
           then w_cwd st +:+ "/" +:+ m_logFileName st
           else m_logFileName st) /\
   0 <= Str.find_last_of name "/" /\
   m_logFile (snd (Open st))
   = Some (mk_ofstream (FS.resolve (w_cwd st) name)
             (snd (FS.open_append (w_fs st) (FS.resolve (w_cwd st) name))))).
Proof.
  unfold Open.
  destruct (String.eqb_spec (m_logFileName st) EmptyString) as [E|E].
  { cbn [fst snd]. split; [split; [discriminate | intros [H _]; congruence] |].
    split; [intros _; repeat split | discriminate]. }
  unfold getcwd.
  destruct (Nat.leb_spec (String.length (w_cwd st) + 1) 1024) as [L|L].
  2:{ cbn [fst snd]. split; [split; [discriminate | intros [_ H]; lia] |].
      split; [intros _; repeat split | discriminate]. }
  cbv zeta. unfold ofstream_open.
  destruct (Z.ltb_spec (Str.find_last_of (m_logFileName st) "/") 0) as [N|N].
  - cbn [w_cwd w_fs m_logFileName set_m_logFileName].
    destruct (FS.open_append _ _) as [fs ok] eqn:Ho. cbn [fst snd].
    split; [split; [intros _; split; assumption | reflexivity] |].
    split; [discriminate |]. intros _.
    cbn [m_logFileName set_m_logFile emit set_w_trace set_w_fs set_m_logFileName m_logFile].
    split; [reflexivity |]. split; [apply find_last_of_prefixed |].
    now rewrite Ho.
  - destruct (FS.open_append _ _) as [fs ok] eqn:Ho. cbn [fst snd].
    split; [split; [intros _; split; assumption | reflexivity] |].
    split; [discriminate |]. intros _.
    cbn [m_logFileName set_m_logFile emit set_w_trace set_w_fs set_m_logFileName m_logFile].
    split; [reflexivity |]. split; [exact N |].
    now rewrite Ho.
Qed.

Lemma Open_result_witness :
  fst (Open (set_m_logFileName "app.log" (initial fs_sample "/home/u" clock_2024))) = true /\
  m_logFileName (snd (Open (set_m_logFileName "app.log" (initial fs_sample "/home/u" clock_2024))))
  = "/home/u/app.log" /\
  fst (Open (initial fs_sample "/home/u" clock_2024)) = false.
Proof.
  assert (fst (Open (set_m_logFileName "app.log" (initial fs_sample "/home/u" clock_2024)))
          = true) as H.
  { apply (proj1 (Open_result _)). split; [vm_compute; discriminate | vm_compute; lia]. }
  split; [exact H |]. split.
  - rewrite (proj1 (proj2 (proj2 (Open_result _)) H)). vm_compute. reflexivity.
  - vm_compute. reflexivity.
Defined.

Lemma last_of_nonempty (l : list string) (x d : string) :
  last (x :: l) = Some (List.last (x :: l) d).
Proof.
  revert x; induction l as [|y l IH]; intros x; [reflexivity |].
  change (last (x :: y :: l)) with (last (y :: l)).
  change (List.last (x :: y :: l) d) with (List.last (y :: l) d).
  apply IH.
Qed.

(** X24.  [GenerateFileName] fails only for an empty base name, changing
    nothing.  Otherwise the active name it sets is the last name of the
    tracked list: the last name of a list that is not empty, which is left
    as it is, and for an empty list a name made from the clock, which is
    then the only one tracked. *)
Theorem GenerateFileName_picks_last (st : state) :
  (mFileNameBase st = EmptyString -> GenerateFileName st = (false, st)) /\
  (mFileNameBase st <> EmptyString ->
   let st' := snd (GenerateFileName st) in
   fst (GenerateFileName st) = true /\
   last (mLogFileList st') = Some (m_logFileName st') /\
   (mLogFileList st <> [] ->
    mLogFileList st' = mLogFileList st /\ w_tick st' = w_tick st) /\
   (mLogFileList st = [] ->
    mLogFileList st' = [m_logFileName (AddNewFileName st)] /\
    w_tick st' = S (S (w_tick st)))).
Proof.
  unfold GenerateFileName. split.
  - intros ->. reflexivity.
  - intros H. apply String.eqb_neq in H. rewrite H.
    destruct (mLogFileList st) as [|x l] eqn:El; cbv zeta; cbn [fst snd].
    + split; [reflexivity |]. split.
      * destruct (AddNewFileName_name st) as [_ ->]. rewrite El. reflexivity.
      * split; [congruence |]. intros _.
        destruct (AddNewFileName_name st) as [_ ->]. rewrite El.
        split; [reflexivity |]. rewrite AddNewFileName_unfold. reflexivity.
    + split; [reflexivity |].
      cbn [mLogFileList set_m_logFileName m_logFileName w_tick]. rewrite El.
      split; [| split; [intros _; split; reflexivity | discriminate]].
      apply last_of_nonempty.
Qed.

Lemma GenerateFileName_picks_last_witness :
  mFileNameBase st_base <> EmptyString /\
  m_logFileName (snd (GenerateFileName st_base)) = "/var/log/app_20240105_123400.log" /\
  mLogFileList (snd (GenerateFileName st_base)) = ["/var/log/app_20240105_123400.log"].
Proof.
  assert (mFileNameBase st_base <> EmptyString) as H by (vm_compute; discriminate).
  split; [exact H |].
  destruct (proj2 (GenerateFileName_picks_last st_base) H) as (_ & _ & _ & E).
  destruct E as [E _]; [reflexivity |].
  split; [| rewrite E]; vm_compute; reflexivity.
Defined.

(** ** The constructor of the file logger *)

Lemma config_kept_refl (st : state) : config_kept st st.
Proof. unfold config_kept. repeat split. Qed.

Lemma config_kept_trans (a b c : state) :
  config_kept a b -> config_kept b c -> config_kept a c.
Proof.
  unfold config_kept.
  intros (A1 & A2 & A3 & A4 & A5 & A6 & A7 & A8) (B1 & B2 & B3 & B4 & B5 & B6 & B7 & B8).
  repeat split; congruence.
Qed.

Lemma frame_config_kept (a b : state) : frame a b -> config_kept a b.
Proof.
  unfold frame, config_kept.
  intros (A1 & A2 & A3 & A4 & A5 & A6 & A7 & A8 & _). repeat split; assumption.
Qed.

Lemma chdir_config_kept (dir : string) (st : state) : config_kept st (chdir dir st).
Proof.
  unfold chdir. destruct (String.eqb dir EmptyString); [apply config_kept_refl |].
  destruct (FS.can_chdir _ _); [| apply config_kept_refl].
  unfold config_kept. cbn. repeat split.
Qed.

Lemma scan_entries_config_kept (logDir : string) (n : nat) (stem : string)
    (entries : list string) (st : state) :
  config_kept st (scan_entries logDir n stem entries st).
Proof.
  unfold scan_entries. revert st; induction entries as [|e entries IH]; intros st.
  - apply config_kept_refl.
  - cbn [fold_left]. destruct (entry_selected n stem e); [| apply IH].
    eapply config_kept_trans; [| apply IH].
    apply frame_config_kept, frame_set_mLogFileList.
Qed.

Lemma MakeFileList_config_kept (st : state) : config_kept st (snd (MakeFileList st)).
Proof.
  unfold MakeFileList.
  destruct (String.eqb (mFileNameBase st) EmptyString); [apply config_kept_refl |].
  destruct (getcwd 132 st) as [wd|];
    [| apply frame_config_kept, frame_emit].
  cbv zeta.
  match goal with |- context [opendir ?d ?s] => destruct (opendir d s) as [entries|] end;
    cbn [snd].
  - eapply config_kept_trans; [| apply chdir_config_kept].
    eapply config_kept_trans; [| apply scan_entries_config_kept].
    eapply config_kept_trans; [apply chdir_config_kept |].
    apply frame_config_kept, frame_set_mLogFileList.
  - eapply config_kept_trans; [apply chdir_config_kept |].
    apply frame_config_kept.
    eapply frame_trans; [apply frame_set_mLogFileList | apply frame_emit].
Qed.

Lemma GenerateFileName_config_kept (st : state) :
  config_kept st (snd (GenerateFileName st)).
Proof.
  unfold GenerateFileName.
  destruct (String.eqb (mFileNameBase st) EmptyString); [apply config_kept_refl |].
  destruct (mLogFileList st); cbn [snd]; apply frame_config_kept.
  - apply frame_AddNewFileName.
  - apply frame_set_m_logFileName.
Qed.

Lemma Open_config_kept (st : state) : config_kept st (snd (Open st)).
Proof.
  unfold Open.
  destruct (String.eqb (m_logFileName st) EmptyString); [apply config_kept_refl |].
  destruct (getcwd 1024 st) as [wd|]; [| apply frame_config_kept, frame_emit].
  cbv zeta.
  match goal with |- context [ofstream_open ?n ?s] =>
    pose proof (frame_ofstream_open n s) as Ho;
    destruct (ofstream_open n s) as [g s2]
  end.
  cbn [snd] in *. apply frame_config_kept.
  eapply frame_trans; [| apply frame_set_m_logFile].
  eapply frame_trans; [| exact Ho].
  destruct (_ <? _); [apply frame_set_m_logFileName | apply frame_refl].
Qed.

Lemma frame_start_banner (st : state) : frame st (start_banner st).
Proof.
  unfold start_banner, TimeStamp, read_clock. cbv zeta.
  repeat first [ apply frame_refl
               | eapply frame_trans; [| apply frame_out_append]
               | eapply frame_trans; [| apply frame_set_w_tick] ].
Qed.

(** X25.  On every path the constructor of the file logger leaves a
    current logger with the threshold and the base name given, the console
    off and buffering on, and the limits as they were.  It does not empty
    the buffer an earlier logger left.  With an empty base name and no
    active name there is nothing to open: the constructor reports the
    failure on the error stream, opens no stream and writes no opening
    block. *)
Theorem Logger_file_configuration (baseName : string) (severity : Severity) (st : state) :
  let st' := Logger_file baseName severity st in
  (s_pInstance st' = true /\ m_leastSeverity st' = severity /\
   mFileNameBase st' = baseName /\ mUsingStdOut st' = false /\ mBuffering st' = true /\
   mMaxFileSize st' = mMaxFileSize st /\ mMaxFileNumber st' = mMaxFileNumber st /\
   mBufferList st' = mBufferList st) /\
  (baseName = EmptyString -> m_logFileName st = EmptyString ->
   m_logFile st' = m_logFile st /\ w_fs st' = w_fs st /\
   w_trace st'
   = w_trace st ++ [EvStderr ("Error: unable to open output file: " +:+ Str.endl)]).
Proof.
  intros st'. split.
  - subst st'. unfold Logger_file. cbv zeta.
    set (s5 := set_mBuffering true
                 (set_mUsingStdOut false
                    (set_mFileNameBase baseName
                       (set_m_leastSeverity severity (set_s_pInstance true st))))).
    pose proof (MakeFileList_config_kept s5) as K6.
    pose proof (GenerateFileName_config_kept (snd (MakeFileList s5))) as K7.
    pose proof (Open_config_kept (snd (GenerateFileName (snd (MakeFileList s5))))) as K8.
    pose proof (config_kept_trans _ _ _ (config_kept_trans _ _ _ K6 K7) K8) as K.
    destruct (Open (snd (GenerateFileName (snd (MakeFileList s5))))) as [opened s8].
    cbn [snd] in K.
    assert (config_kept s5 (if opened
                            then writeLog
                                   (start_banner
                                      (emit
                                         (EvStderr
                                            ("Successfully opened output log file at log level "
                                             +:+ severityToString
                                                   (m_leastSeverity (EnforceLogFileLimits s8))
                                             +:+ ", name = "
                                             +:+ m_logFileName (EnforceLogFileLimits s8)
                                             +:+ Str.endl)) (EnforceLogFileLimits s8)))
                            else emit
                                   (EvStderr
                                      ("Error: unable to open output file: "
                                       +:+ m_logFileName s8 +:+ Str.endl)) s8)) as Kall.
    { destruct opened.
      - eapply config_kept_trans; [exact K |]. apply frame_config_kept.
        eapply frame_trans; [apply frame_EnforceLogFileLimits |].
        eapply frame_trans; [apply frame_emit |].
        eapply frame_trans; [apply frame_start_banner | apply frame_writeLog].
      - eapply config_kept_trans; [exact K |]. apply frame_config_kept, frame_emit. }
    destruct Kall as (A1 & A2 & A3 & A4 & A5 & A6 & A7 & A8).
    rewrite A1, A2, A3, A4, A5, A6, A7, A8. subst s5. cbn. repeat split.
  - intros -> Hname. subst st'. unfold Logger_file, MakeFileList, GenerateFileName, Open.
    cbn [mFileNameBase set_mBuffering set_mUsingStdOut set_mFileNameBase
         set_m_leastSeverity set_s_pInstance String.eqb snd m_logFileName].
    rewrite Hname. cbn. rewrite Hname. repeat split.
Qed.

(** ** Eviction where files cannot be removed *)

Lemma unlink_unwritable (name : string) (st : state) :
  (forall d, w_fs st !! FS.dirname (FS.resolve (w_cwd st) name) = Some d -> d_write d = false) ->
  w_fs (unlink name st) = w_fs st /\ w_cwd (unlink name st) = w_cwd st.
Proof.
  intros H. unfold unlink, FS.unlink. cbn [w_fs w_cwd emit set_w_trace set_w_fs].
  destruct (w_fs st !! FS.dirname (FS.resolve (w_cwd st) name)) as [d|] eqn:E;
    [| now split].
  rewrite (H d eq_refl), andb_false_r. now split.
Qed.

(** X26.  Eviction does not look at the result of [unlink]: when the
    directories of the tracked names cannot be written, every file stays
    on the disk, nothing is reported on the error stream, and the names
    are dropped from the list all the same. *)
Theorem evict_excess_unwritable (files : list string) (st : state) :
  (forall name d,
      name ∈ files ->
      w_fs st !! FS.dirname (FS.resolve (w_cwd st) name) = Some d -> d_write d = false) ->
  let excess := (length files - N.to_nat (mMaxFileNumber st))%nat in
  w_fs (evict_excess files st) = w_fs st /\
  mLogFileList (evict_excess files st) = drop excess files /\
  w_trace (evict_excess files st) = w_trace st ++ map EvUnlink (take excess files).
Proof.
  intros H excess.
  destruct (evict_excess_drop files st) as [Hl Ht].
  split; [| split; [exact Hl | exact Ht]].
  clear Hl Ht excess. revert st H; induction files as [|f rest IH]; intros st H.
  - reflexivity.
  - cbn [evict_excess]. destruct (_ <? _)%N; [| reflexivity].
    destruct (unlink_unwritable f st) as [Hfs Hcwd].
    { intros d. apply H. apply list_elem_of_here. }
    rewrite IH; [exact Hfs |].
    intros name d Hin. rewrite Hfs, Hcwd. apply H. now apply list_elem_of_further.
Qed.

Lemma evict_excess_unwritable_witness :
  mLogFileList (evict_excess (mLogFileList st_readonly) st_readonly) = [] /\
  FS.lookup_file (w_fs (evict_excess (mLogFileList st_readonly) st_readonly))
    "/var/log/app_2024-01-01_120000" = Some "old".
Proof.
  destruct (evict_excess_unwritable (mLogFileList st_readonly) st_readonly) as (E1 & E2 & _).
  { intros name d Hin.
    assert (name = "/var/log/app_2024-01-01_120000") as ->
      by (apply list_elem_of_singleton; exact Hin).
    vm_compute. intros [= <-]. reflexivity. }
  split; [rewrite E2 | rewrite E1]; vm_compute; reflexivity.
Defined.

(** ** Mirroring *)

(** X27.  After [MirrorToStdOut] a message under the threshold goes to the
    console and to the open file, the same text to both, the console
    first, before anything else the write does. *)
Theorem MirrorToStdOut_duplicates (s : Severity) (input : string) (st : state)
    (f : ofstream) :
  m_logFile st = Some f ->
  of_is_open f = true ->
  s <= m_leastSeverity st ->
  let st1 := MirrorToStdOut st in
  let line := m_outString st +:+ log_line (fst (TimeStamp true st)) s input in
  mUsingStdOut st1 = true /\
  exists rest,
    w_trace (log s input st1)
    = w_trace st ++ [EvStdout line; EvWrite (of_path f) line] ++ rest /\
    housekeeping rest.
Proof.
  intros Hf Ho Hle st1 line.
  split; [reflexivity |].
  subst st1. unfold log, MirrorToStdOut.
  cbn [m_leastSeverity set_mUsingStdOut]. apply Z.leb_le in Hle. rewrite Hle.
  unfold TimeStamp, read_clock. cbv zeta.
  match goal with |- context [writeLog ?x] =>
    destruct (writeLog_trace x) as (rest & Ht & Hk); exists rest; rewrite Ht
  end.
  split; [| exact Hk].
  unfold sink_events.
  cbn [mUsingStdOut m_logFile out_append set_m_outString set_w_tick set_mUsingStdOut
       w_trace m_outString w_clock w_tick].
  rewrite Hf, Ho. subst line. unfold TimeStamp, read_clock. cbn [fst]. reflexivity.
Qed.

Lemma MirrorToStdOut_duplicates_witness :
  m_logFile st_file = Some (mk_ofstream "/var/log/app_20240105_123400.log" true) /\
  eLOG_HIGH <= m_leastSeverity st_file /\
  stdout_texts (w_trace (log eLOG_HIGH "hello" (MirrorToStdOut st_file)))
  = [log_line "2024-01-05 12:34:03.007" eLOG_HIGH "hello"].
Proof.
  assert (m_logFile st_file = Some (mk_ofstream "/var/log/app_20240105_123400.log" true))
    as H1 by (vm_compute; reflexivity).
  assert (eLOG_HIGH <= m_leastSeverity st_file) as H2 by (vm_compute; discriminate).
  split; [exact H1 |]. split; [exact H2 |].
  destruct (MirrorToStdOut_duplicates eLOG_HIGH "hello" st_file _ H1 eq_refl H2)
    as (_ & rest & E & K1 & _).
  rewrite E. unfold stdout_texts in *. rewrite !omap_app, K1.
  vm_compute. reflexivity.
Defined.
